(** * remark-lint rules over an mdast tree: a shallow embedding

    The development follows the two bundles of rule packages of the
    repository:

    - [no-duplicate-headings-in-section] and [no-heading-indent]
      (packages/remark-lint-no-duplicate-headings-in-section/index.js);
    - [first-heading-level], [unordered-list-marker-style] and
      [definition-spacing]
      (packages/remark-lint-first-heading-level/index.js).

    A JavaScript string is modelled by the [string] of the UTF-8 bytes of
    its text.  [toUpperCase] follows the case mappings of Unicode, which
    are tabulated in [CaseData]; it changes characters outside ASCII too,
    and may lengthen the text.  The source text of a file, which the rules
    cut at offsets, is taken to be ASCII, where a byte is a character; the
    regular-expression class [\s] is the six ASCII white-space characters.
    Numbers that index lines, columns, offsets and heading depths are
    [nat].

    The packages the rules import (unist-util-visit, unist-util-generated,
    unist-util-position, unist-util-stringify-position,
    mdast-util-to-string, pluralize, vfile) are embedded by what the rules
    use of them.  A rule is the function handed to [lintRule]: it takes
    the tree, the file and the option, appends messages to the file, and
    may throw. *)

From Stdlib Require Import Ascii String.
From stdpp Require Import base option list strings gmap pretty.

Local Open Scope nat_scope.

(** ** Case mappings of Unicode 14.0

    The letters outside ASCII that [String.prototype.toUpperCase] changes,
    each with its upper-case form (UnicodeData and the unconditional
    entries of SpecialCasing), and those that full case folding changes,
    each with its folded form (CaseFolding, statuses C and F).  Keys and
    values are the UTF-8 bytes of the characters. *)

Module CaseData.

Definition upper : list (string * string) :=
  [("µ", "Μ"); ("ß", "SS"); ("à", "À"); ("á", "Á"); ("â", "Â"); ("ã", "Ã")
   ; ("ä", "Ä"); ("å", "Å"); ("æ", "Æ"); ("ç", "Ç"); ("è", "È"); ("é", "É")
   ; ("ê", "Ê"); ("ë", "Ë"); ("ì", "Ì"); ("í", "Í"); ("î", "Î"); ("ï", "Ï")
   ; ("ð", "Ð"); ("ñ", "Ñ"); ("ò", "Ò"); ("ó", "Ó"); ("ô", "Ô"); ("õ", "Õ")
   ; ("ö", "Ö"); ("ø", "Ø"); ("ù", "Ù"); ("ú", "Ú"); ("û", "Û"); ("ü", "Ü")
   ; ("ý", "Ý"); ("þ", "Þ"); ("ÿ", "Ÿ"); ("ā", "Ā"); ("ă", "Ă"); ("ą", "Ą")
   ; ("ć", "Ć"); ("ĉ", "Ĉ"); ("ċ", "Ċ"); ("č", "Č"); ("ď", "Ď"); ("đ", "Đ")
   ; ("ē", "Ē"); ("ĕ", "Ĕ"); ("ė", "Ė"); ("ę", "Ę"); ("ě", "Ě"); ("ĝ", "Ĝ")
   ; ("ğ", "Ğ"); ("ġ", "Ġ"); ("ģ", "Ģ"); ("ĥ", "Ĥ"); ("ħ", "Ħ"); ("ĩ", "Ĩ")
   ; ("ī", "Ī"); ("ĭ", "Ĭ"); ("į", "Į"); ("ı", "I"); ("ĳ", "Ĳ"); ("ĵ", "Ĵ")
   ; ("ķ", "Ķ"); ("ĺ", "Ĺ"); ("ļ", "Ļ"); ("ľ", "Ľ"); ("ŀ", "Ŀ"); ("ł", "Ł")
   ; ("ń", "Ń"); ("ņ", "Ņ"); ("ň", "Ň"); ("ŉ", "ʼN"); ("ŋ", "Ŋ"); ("ō", "Ō")
   ; ("ŏ", "Ŏ"); ("ő", "Ő"); ("œ", "Œ"); ("ŕ", "Ŕ"); ("ŗ", "Ŗ"); ("ř", "Ř")
   ; ("ś", "Ś"); ("ŝ", "Ŝ"); ("ş", "Ş"); ("š", "Š"); ("ţ", "Ţ"); ("ť", "Ť")
   ; ("ŧ", "Ŧ"); ("ũ", "Ũ"); ("ū", "Ū"); ("ŭ", "Ŭ"); ("ů", "Ů"); ("ű", "Ű")
   ; ("ų", "Ų"); ("ŵ", "Ŵ"); ("ŷ", "Ŷ"); ("ź", "Ź"); ("ż", "Ż"); ("ž", "Ž")
   ; ("ſ", "S"); ("ƀ", "Ƀ"); ("ƃ", "Ƃ"); ("ƅ", "Ƅ"); ("ƈ", "Ƈ"); ("ƌ", "Ƌ")
   ; ("ƒ", "Ƒ"); ("ƕ", "Ƕ"); ("ƙ", "Ƙ"); ("ƚ", "Ƚ"); ("ƞ", "Ƞ"); ("ơ", "Ơ")
   ; ("ƣ", "Ƣ"); ("ƥ", "Ƥ"); ("ƨ", "Ƨ"); ("ƭ", "Ƭ"); ("ư", "Ư"); ("ƴ", "Ƴ")
   ; ("ƶ", "Ƶ"); ("ƹ", "Ƹ"); ("ƽ", "Ƽ"); ("ƿ", "Ƿ"); ("ǅ", "Ǆ"); ("ǆ", "Ǆ")
   ; ("ǈ", "Ǉ"); ("ǉ", "Ǉ"); ("ǋ", "Ǌ"); ("ǌ", "Ǌ"); ("ǎ", "Ǎ"); ("ǐ", "Ǐ")
   ; ("ǒ", "Ǒ"); ("ǔ", "Ǔ"); ("ǖ", "Ǖ"); ("ǘ", "Ǘ"); ("ǚ", "Ǚ"); ("ǜ", "Ǜ")
   ; ("ǝ", "Ǝ"); ("ǟ", "Ǟ"); ("ǡ", "Ǡ"); ("ǣ", "Ǣ"); ("ǥ", "Ǥ"); ("ǧ", "Ǧ")
   ; ("ǩ", "Ǩ"); ("ǫ", "Ǫ"); ("ǭ", "Ǭ"); ("ǯ", "Ǯ"); ("ǰ", "J̌"); ("ǲ", "Ǳ")
   ; ("ǳ", "Ǳ"); ("ǵ", "Ǵ"); ("ǹ", "Ǹ"); ("ǻ", "Ǻ"); ("ǽ", "Ǽ"); ("ǿ", "Ǿ")
   ; ("ȁ", "Ȁ"); ("ȃ", "Ȃ"); ("ȅ", "Ȅ"); ("ȇ", "Ȇ"); ("ȉ", "Ȉ"); ("ȋ", "Ȋ")
   ; ("ȍ", "Ȍ"); ("ȏ", "Ȏ"); ("ȑ", "Ȑ"); ("ȓ", "Ȓ"); ("ȕ", "Ȕ"); ("ȗ", "Ȗ")
   ; ("ș", "Ș"); ("ț", "Ț"); ("ȝ", "Ȝ"); ("ȟ", "Ȟ"); ("ȣ", "Ȣ"); ("ȥ", "Ȥ")
   ; ("ȧ", "Ȧ"); ("ȩ", "Ȩ"); ("ȫ", "Ȫ"); ("ȭ", "Ȭ"); ("ȯ", "Ȯ"); ("ȱ", "Ȱ")
   ; ("ȳ", "Ȳ"); ("ȼ", "Ȼ"); ("ȿ", "Ȿ"); ("ɀ", "Ɀ"); ("ɂ", "Ɂ"); ("ɇ", "Ɇ")
   ; ("ɉ", "Ɉ"); ("ɋ", "Ɋ"); ("ɍ", "Ɍ"); ("ɏ", "Ɏ"); ("ɐ", "Ɐ"); ("ɑ", "Ɑ")
   ; ("ɒ", "Ɒ"); ("ɓ", "Ɓ"); ("ɔ", "Ɔ"); ("ɖ", "Ɖ"); ("ɗ", "Ɗ"); ("ə", "Ə")
   ; ("ɛ", "Ɛ"); ("ɜ", "Ɜ"); ("ɠ", "Ɠ"); ("ɡ", "Ɡ"); ("ɣ", "Ɣ"); ("ɥ", "Ɥ")
   ; ("ɦ", "Ɦ"); ("ɨ", "Ɨ"); ("ɩ", "Ɩ"); ("ɪ", "Ɪ"); ("ɫ", "Ɫ"); ("ɬ", "Ɬ")
   ; ("ɯ", "Ɯ"); ("ɱ", "Ɱ"); ("ɲ", "Ɲ"); ("ɵ", "Ɵ"); ("ɽ", "Ɽ"); ("ʀ", "Ʀ")
   ; ("ʂ", "Ʂ"); ("ʃ", "Ʃ"); ("ʇ", "Ʇ"); ("ʈ", "Ʈ"); ("ʉ", "Ʉ"); ("ʊ", "Ʊ")
   ; ("ʋ", "Ʋ"); ("ʌ", "Ʌ"); ("ʒ", "Ʒ"); ("ʝ", "Ʝ"); ("ʞ", "Ʞ"); ("ͅ", "Ι")
   ; ("ͱ", "Ͱ"); ("ͳ", "Ͳ"); ("ͷ", "Ͷ"); ("ͻ", "Ͻ"); ("ͼ", "Ͼ"); ("ͽ", "Ͽ")
   ; ("ΐ", "Ϊ́"); ("ά", "Ά"); ("έ", "Έ"); ("ή", "Ή"); ("ί", "Ί")
   ; ("ΰ", "Ϋ́"); ("α", "Α"); ("β", "Β"); ("γ", "Γ"); ("δ", "Δ")
   ; ("ε", "Ε"); ("ζ", "Ζ"); ("η", "Η"); ("θ", "Θ"); ("ι", "Ι"); ("κ", "Κ")
   ; ("λ", "Λ"); ("μ", "Μ"); ("ν", "Ν"); ("ξ", "Ξ"); ("ο", "Ο"); ("π", "Π")
   ; ("ρ", "Ρ"); ("ς", "Σ"); ("σ", "Σ"); ("τ", "Τ"); ("υ", "Υ"); ("φ", "Φ")
   ; ("χ", "Χ"); ("ψ", "Ψ"); ("ω", "Ω"); ("ϊ", "Ϊ"); ("ϋ", "Ϋ"); ("ό", "Ό")
   ; ("ύ", "Ύ"); ("ώ", "Ώ"); ("ϐ", "Β"); ("ϑ", "Θ"); ("ϕ", "Φ"); ("ϖ", "Π")
   ; ("ϗ", "Ϗ"); ("ϙ", "Ϙ"); ("ϛ", "Ϛ"); ("ϝ", "Ϝ"); ("ϟ", "Ϟ"); ("ϡ", "Ϡ")
   ; ("ϣ", "Ϣ"); ("ϥ", "Ϥ"); ("ϧ", "Ϧ"); ("ϩ", "Ϩ"); ("ϫ", "Ϫ"); ("ϭ", "Ϭ")
   ; ("ϯ", "Ϯ"); ("ϰ", "Κ"); ("ϱ", "Ρ"); ("ϲ", "Ϲ"); ("ϳ", "Ϳ"); ("ϵ", "Ε")
   ; ("ϸ", "Ϸ"); ("ϻ", "Ϻ"); ("а", "А"); ("б", "Б"); ("в", "В"); ("г", "Г")
   ; ("д", "Д"); ("е", "Е"); ("ж", "Ж"); ("з", "З"); ("и", "И"); ("й", "Й")
   ; ("к", "К"); ("л", "Л"); ("м", "М"); ("н", "Н"); ("о", "О"); ("п", "П")
   ; ("р", "Р"); ("с", "С"); ("т", "Т"); ("у", "У"); ("ф", "Ф"); ("х", "Х")
   ; ("ц", "Ц"); ("ч", "Ч"); ("ш", "Ш"); ("щ", "Щ"); ("ъ", "Ъ"); ("ы", "Ы")
   ; ("ь", "Ь"); ("э", "Э"); ("ю", "Ю"); ("я", "Я"); ("ѐ", "Ѐ"); ("ё", "Ё")
   ; ("ђ", "Ђ"); ("ѓ", "Ѓ"); ("є", "Є"); ("ѕ", "Ѕ"); ("і", "І"); ("ї", "Ї")
   ; ("ј", "Ј"); ("љ", "Љ"); ("њ", "Њ"); ("ћ", "Ћ"); ("ќ", "Ќ"); ("ѝ", "Ѝ")
   ; ("ў", "Ў"); ("џ", "Џ"); ("ѡ", "Ѡ"); ("ѣ", "Ѣ"); ("ѥ", "Ѥ"); ("ѧ", "Ѧ")
   ; ("ѩ", "Ѩ"); ("ѫ", "Ѫ"); ("ѭ", "Ѭ"); ("ѯ", "Ѯ"); ("ѱ", "Ѱ"); ("ѳ", "Ѳ")
   ; ("ѵ", "Ѵ"); ("ѷ", "Ѷ"); ("ѹ", "Ѹ"); ("ѻ", "Ѻ"); ("ѽ", "Ѽ"); ("ѿ", "Ѿ")
   ; ("ҁ", "Ҁ"); ("ҋ", "Ҋ"); ("ҍ", "Ҍ"); ("ҏ", "Ҏ"); ("ґ", "Ґ"); ("ғ", "Ғ")
   ; ("ҕ", "Ҕ"); ("җ", "Җ"); ("ҙ", "Ҙ"); ("қ", "Қ"); ("ҝ", "Ҝ"); ("ҟ", "Ҟ")
   ; ("ҡ", "Ҡ"); ("ң", "Ң"); ("ҥ", "Ҥ"); ("ҧ", "Ҧ"); ("ҩ", "Ҩ"); ("ҫ", "Ҫ")
   ; ("ҭ", "Ҭ"); ("ү", "Ү"); ("ұ", "Ұ"); ("ҳ", "Ҳ"); ("ҵ", "Ҵ"); ("ҷ", "Ҷ")
   ; ("ҹ", "Ҹ"); ("һ", "Һ"); ("ҽ", "Ҽ"); ("ҿ", "Ҿ"); ("ӂ", "Ӂ"); ("ӄ", "Ӄ")
   ; ("ӆ", "Ӆ"); ("ӈ", "Ӈ"); ("ӊ", "Ӊ"); ("ӌ", "Ӌ"); ("ӎ", "Ӎ"); ("ӏ", "Ӏ")
   ; ("ӑ", "Ӑ"); ("ӓ", "Ӓ"); ("ӕ", "Ӕ"); ("ӗ", "Ӗ"); ("ә", "Ә"); ("ӛ", "Ӛ")
   ; ("ӝ", "Ӝ"); ("ӟ", "Ӟ"); ("ӡ", "Ӡ"); ("ӣ", "Ӣ"); ("ӥ", "Ӥ"); ("ӧ", "Ӧ")
   ; ("ө", "Ө"); ("ӫ", "Ӫ"); ("ӭ", "Ӭ"); ("ӯ", "Ӯ"); ("ӱ", "Ӱ"); ("ӳ", "Ӳ")
   ; ("ӵ", "Ӵ"); ("ӷ", "Ӷ"); ("ӹ", "Ӹ"); ("ӻ", "Ӻ"); ("ӽ", "Ӽ"); ("ӿ", "Ӿ")
   ; ("ԁ", "Ԁ"); ("ԃ", "Ԃ"); ("ԅ", "Ԅ"); ("ԇ", "Ԇ"); ("ԉ", "Ԉ"); ("ԋ", "Ԋ")
   ; ("ԍ", "Ԍ"); ("ԏ", "Ԏ"); ("ԑ", "Ԑ"); ("ԓ", "Ԓ"); ("ԕ", "Ԕ"); ("ԗ", "Ԗ")
   ; ("ԙ", "Ԙ"); ("ԛ", "Ԛ"); ("ԝ", "Ԝ"); ("ԟ", "Ԟ"); ("ԡ", "Ԡ"); ("ԣ", "Ԣ")
   ; ("ԥ", "Ԥ"); ("ԧ", "Ԧ"); ("ԩ", "Ԩ"); ("ԫ", "Ԫ"); ("ԭ", "Ԭ"); ("ԯ", "Ԯ")
   ; ("ա", "Ա"); ("բ", "Բ"); ("գ", "Գ"); ("դ", "Դ"); ("ե", "Ե"); ("զ", "Զ")
   ; ("է", "Է"); ("ը", "Ը"); ("թ", "Թ"); ("ժ", "Ժ"); ("ի", "Ի"); ("լ", "Լ")
   ; ("խ", "Խ"); ("ծ", "Ծ"); ("կ", "Կ"); ("հ", "Հ"); ("ձ", "Ձ"); ("ղ", "Ղ")
   ; ("ճ", "Ճ"); ("մ", "Մ"); ("յ", "Յ"); ("ն", "Ն"); ("շ", "Շ"); ("ո", "Ո")
   ; ("չ", "Չ"); ("պ", "Պ"); ("ջ", "Ջ"); ("ռ", "Ռ"); ("ս", "Ս"); ("վ", "Վ")
   ; ("տ", "Տ"); ("ր", "Ր"); ("ց", "Ց"); ("ւ", "Ւ"); ("փ", "Փ"); ("ք", "Ք")
   ; ("օ", "Օ"); ("ֆ", "Ֆ"); ("և", "ԵՒ"); ("ა", "Ა"); ("ბ", "Ბ"); ("გ", "Გ")
   ; ("დ", "Დ"); ("ე", "Ე"); ("ვ", "Ვ"); ("ზ", "Ზ"); ("თ", "Თ"); ("ი", "Ი")
   ; ("კ", "Კ"); ("ლ", "Ლ"); ("მ", "Მ"); ("ნ", "Ნ"); ("ო", "Ო"); ("პ", "Პ")
   ; ("ჟ", "Ჟ"); ("რ", "Რ"); ("ს", "Ს"); ("ტ", "Ტ"); ("უ", "Უ"); ("ფ", "Ფ")
   ; ("ქ", "Ქ"); ("ღ", "Ღ"); ("ყ", "Ყ"); ("შ", "Შ"); ("ჩ", "Ჩ"); ("ც", "Ც")
   ; ("ძ", "Ძ"); ("წ", "Წ"); ("ჭ", "Ჭ"); ("ხ", "Ხ"); ("ჯ", "Ჯ"); ("ჰ", "Ჰ")
   ; ("ჱ", "Ჱ"); ("ჲ", "Ჲ"); ("ჳ", "Ჳ"); ("ჴ", "Ჴ"); ("ჵ", "Ჵ"); ("ჶ", "Ჶ")
   ; ("ჷ", "Ჷ"); ("ჸ", "Ჸ"); ("ჹ", "Ჹ"); ("ჺ", "Ჺ"); ("ჽ", "Ჽ"); ("ჾ", "Ჾ")
   ; ("ჿ", "Ჿ"); ("ᏸ", "Ᏸ"); ("ᏹ", "Ᏹ"); ("ᏺ", "Ᏺ"); ("ᏻ", "Ᏻ"); ("ᏼ", "Ᏼ")
   ; ("ᏽ", "Ᏽ"); ("ᲀ", "В"); ("ᲁ", "Д"); ("ᲂ", "О"); ("ᲃ", "С"); ("ᲄ", "Т")
   ; ("ᲅ", "Т"); ("ᲆ", "Ъ"); ("ᲇ", "Ѣ"); ("ᲈ", "Ꙋ"); ("ᵹ", "Ᵹ"); ("ᵽ", "Ᵽ")
   ; ("ᶎ", "Ᶎ"); ("ḁ", "Ḁ"); ("ḃ", "Ḃ"); ("ḅ", "Ḅ"); ("ḇ", "Ḇ"); ("ḉ", "Ḉ")
   ; ("ḋ", "Ḋ"); ("ḍ", "Ḍ"); ("ḏ", "Ḏ"); ("ḑ", "Ḑ"); ("ḓ", "Ḓ"); ("ḕ", "Ḕ")
   ; ("ḗ", "Ḗ"); ("ḙ", "Ḙ"); ("ḛ", "Ḛ"); ("ḝ", "Ḝ"); ("ḟ", "Ḟ"); ("ḡ", "Ḡ")
   ; ("ḣ", "Ḣ"); ("ḥ", "Ḥ"); ("ḧ", "Ḧ"); ("ḩ", "Ḩ"); ("ḫ", "Ḫ"); ("ḭ", "Ḭ")
   ; ("ḯ", "Ḯ"); ("ḱ", "Ḱ"); ("ḳ", "Ḳ"); ("ḵ", "Ḵ"); ("ḷ", "Ḷ"); ("ḹ", "Ḹ")
   ; ("ḻ", "Ḻ"); ("ḽ", "Ḽ"); ("ḿ", "Ḿ"); ("ṁ", "Ṁ"); ("ṃ", "Ṃ"); ("ṅ", "Ṅ")
   ; ("ṇ", "Ṇ"); ("ṉ", "Ṉ"); ("ṋ", "Ṋ"); ("ṍ", "Ṍ"); ("ṏ", "Ṏ"); ("ṑ", "Ṑ")
   ; ("ṓ", "Ṓ"); ("ṕ", "Ṕ"); ("ṗ", "Ṗ"); ("ṙ", "Ṙ"); ("ṛ", "Ṛ"); ("ṝ", "Ṝ")
   ; ("ṟ", "Ṟ"); ("ṡ", "Ṡ"); ("ṣ", "Ṣ"); ("ṥ", "Ṥ"); ("ṧ", "Ṧ"); ("ṩ", "Ṩ")
   ; ("ṫ", "Ṫ"); ("ṭ", "Ṭ"); ("ṯ", "Ṯ"); ("ṱ", "Ṱ"); ("ṳ", "Ṳ"); ("ṵ", "Ṵ")
   ; ("ṷ", "Ṷ"); ("ṹ", "Ṹ"); ("ṻ", "Ṻ"); ("ṽ", "Ṽ"); ("ṿ", "Ṿ"); ("ẁ", "Ẁ")
   ; ("ẃ", "Ẃ"); ("ẅ", "Ẅ"); ("ẇ", "Ẇ"); ("ẉ", "Ẉ"); ("ẋ", "Ẋ"); ("ẍ", "Ẍ")
   ; ("ẏ", "Ẏ"); ("ẑ", "Ẑ"); ("ẓ", "Ẓ"); ("ẕ", "Ẕ"); ("ẖ", "H̱")
   ; ("ẗ", "T̈"); ("ẘ", "W̊"); ("ẙ", "Y̊"); ("ẚ", "Aʾ"); ("ẛ", "Ṡ")
   ; ("ạ", "Ạ"); ("ả", "Ả"); ("ấ", "Ấ"); ("ầ", "Ầ"); ("ẩ", "Ẩ"); ("ẫ", "Ẫ")
   ; ("ậ", "Ậ"); ("ắ", "Ắ"); ("ằ", "Ằ"); ("ẳ", "Ẳ"); ("ẵ", "Ẵ"); ("ặ", "Ặ")
   ; ("ẹ", "Ẹ"); ("ẻ", "Ẻ"); ("ẽ", "Ẽ"); ("ế", "Ế"); ("ề", "Ề"); ("ể", "Ể")
   ; ("ễ", "Ễ"); ("ệ", "Ệ"); ("ỉ", "Ỉ"); ("ị", "Ị"); ("ọ", "Ọ"); ("ỏ", "Ỏ")
   ; ("ố", "Ố"); ("ồ", "Ồ"); ("ổ", "Ổ"); ("ỗ", "Ỗ"); ("ộ", "Ộ"); ("ớ", "Ớ")
   ; ("ờ", "Ờ"); ("ở", "Ở"); ("ỡ", "Ỡ"); ("ợ", "Ợ"); ("ụ", "Ụ"); ("ủ", "Ủ")
   ; ("ứ", "Ứ"); ("ừ", "Ừ"); ("ử", "Ử"); ("ữ", "Ữ"); ("ự", "Ự"); ("ỳ", "Ỳ")
   ; ("ỵ", "Ỵ"); ("ỷ", "Ỷ"); ("ỹ", "Ỹ"); ("ỻ", "Ỻ"); ("ỽ", "Ỽ"); ("ỿ", "Ỿ")
   ; ("ἀ", "Ἀ"); ("ἁ", "Ἁ"); ("ἂ", "Ἂ"); ("ἃ", "Ἃ"); ("ἄ", "Ἄ"); ("ἅ", "Ἅ")
   ; ("ἆ", "Ἆ"); ("ἇ", "Ἇ"); ("ἐ", "Ἐ"); ("ἑ", "Ἑ"); ("ἒ", "Ἒ"); ("ἓ", "Ἓ")
   ; ("ἔ", "Ἔ"); ("ἕ", "Ἕ"); ("ἠ", "Ἠ"); ("ἡ", "Ἡ"); ("ἢ", "Ἢ"); ("ἣ", "Ἣ")
   ; ("ἤ", "Ἤ"); ("ἥ", "Ἥ"); ("ἦ", "Ἦ"); ("ἧ", "Ἧ"); ("ἰ", "Ἰ"); ("ἱ", "Ἱ")
   ; ("ἲ", "Ἲ"); ("ἳ", "Ἳ"); ("ἴ", "Ἴ"); ("ἵ", "Ἵ"); ("ἶ", "Ἶ"); ("ἷ", "Ἷ")
   ; ("ὀ", "Ὀ"); ("ὁ", "Ὁ"); ("ὂ", "Ὂ"); ("ὃ", "Ὃ"); ("ὄ", "Ὄ"); ("ὅ", "Ὅ")
   ; ("ὐ", "Υ̓"); ("ὑ", "Ὑ"); ("ὒ", "Υ̓̀"); ("ὓ", "Ὓ"); ("ὔ", "Υ̓́")
   ; ("ὕ", "Ὕ"); ("ὖ", "Υ̓͂"); ("ὗ", "Ὗ"); ("ὠ", "Ὠ"); ("ὡ", "Ὡ")
   ; ("ὢ", "Ὢ"); ("ὣ", "Ὣ"); ("ὤ", "Ὤ"); ("ὥ", "Ὥ"); ("ὦ", "Ὦ"); ("ὧ", "Ὧ")
   ; ("ὰ", "Ὰ"); ("ά", "Ά"); ("ὲ", "Ὲ"); ("έ", "Έ"); ("ὴ", "Ὴ"); ("ή", "Ή")
   ; ("ὶ", "Ὶ"); ("ί", "Ί"); ("ὸ", "Ὸ"); ("ό", "Ό"); ("ὺ", "Ὺ"); ("ύ", "Ύ")
   ; ("ὼ", "Ὼ"); ("ώ", "Ώ"); ("ᾀ", "ἈΙ"); ("ᾁ", "ἉΙ"); ("ᾂ", "ἊΙ")
   ; ("ᾃ", "ἋΙ"); ("ᾄ", "ἌΙ"); ("ᾅ", "ἍΙ"); ("ᾆ", "ἎΙ"); ("ᾇ", "ἏΙ")
   ; ("ᾈ", "ἈΙ"); ("ᾉ", "ἉΙ"); ("ᾊ", "ἊΙ"); ("ᾋ", "ἋΙ"); ("ᾌ", "ἌΙ")
   ; ("ᾍ", "ἍΙ"); ("ᾎ", "ἎΙ"); ("ᾏ", "ἏΙ"); ("ᾐ", "ἨΙ"); ("ᾑ", "ἩΙ")
   ; ("ᾒ", "ἪΙ"); ("ᾓ", "ἫΙ"); ("ᾔ", "ἬΙ"); ("ᾕ", "ἭΙ"); ("ᾖ", "ἮΙ")
   ; ("ᾗ", "ἯΙ"); ("ᾘ", "ἨΙ"); ("ᾙ", "ἩΙ"); ("ᾚ", "ἪΙ"); ("ᾛ", "ἫΙ")
   ; ("ᾜ", "ἬΙ"); ("ᾝ", "ἭΙ"); ("ᾞ", "ἮΙ"); ("ᾟ", "ἯΙ"); ("ᾠ", "ὨΙ")
   ; ("ᾡ", "ὩΙ"); ("ᾢ", "ὪΙ"); ("ᾣ", "ὫΙ"); ("ᾤ", "ὬΙ"); ("ᾥ", "ὭΙ")
   ; ("ᾦ", "ὮΙ"); ("ᾧ", "ὯΙ"); ("ᾨ", "ὨΙ"); ("ᾩ", "ὩΙ"); ("ᾪ", "ὪΙ")
   ; ("ᾫ", "ὫΙ"); ("ᾬ", "ὬΙ"); ("ᾭ", "ὭΙ"); ("ᾮ", "ὮΙ"); ("ᾯ", "ὯΙ")
   ; ("ᾰ", "Ᾰ"); ("ᾱ", "Ᾱ"); ("ᾲ", "ᾺΙ"); ("ᾳ", "ΑΙ"); ("ᾴ", "ΆΙ")
   ; ("ᾶ", "Α͂"); ("ᾷ", "Α͂Ι"); ("ᾼ", "ΑΙ"); ("ι", "Ι"); ("ῂ", "ῊΙ")
   ; ("ῃ", "ΗΙ"); ("ῄ", "ΉΙ"); ("ῆ", "Η͂"); ("ῇ", "Η͂Ι"); ("ῌ", "ΗΙ")
   ; ("ῐ", "Ῐ"); ("ῑ", "Ῑ"); ("ῒ", "Ϊ̀"); ("ΐ", "Ϊ́"); ("ῖ", "Ι͂")
   ; ("ῗ", "Ϊ͂"); ("ῠ", "Ῠ"); ("ῡ", "Ῡ"); ("ῢ", "Ϋ̀"); ("ΰ", "Ϋ́")
   ; ("ῤ", "Ρ̓"); ("ῥ", "Ῥ"); ("ῦ", "Υ͂"); ("ῧ", "Ϋ͂"); ("ῲ", "ῺΙ")
   ; ("ῳ", "ΩΙ"); ("ῴ", "ΏΙ"); ("ῶ", "Ω͂"); ("ῷ", "Ω͂Ι"); ("ῼ", "ΩΙ")
   ; ("ⅎ", "Ⅎ"); ("ⅰ", "Ⅰ"); ("ⅱ", "Ⅱ"); ("ⅲ", "Ⅲ"); ("ⅳ", "Ⅳ"); ("ⅴ", "Ⅴ")
   ; ("ⅵ", "Ⅵ"); ("ⅶ", "Ⅶ"); ("ⅷ", "Ⅷ"); ("ⅸ", "Ⅸ"); ("ⅹ", "Ⅹ"); ("ⅺ", "Ⅺ")
   ; ("ⅻ", "Ⅻ"); ("ⅼ", "Ⅼ"); ("ⅽ", "Ⅽ"); ("ⅾ", "Ⅾ"); ("ⅿ", "Ⅿ"); ("ↄ", "Ↄ")
   ; ("ⓐ", "Ⓐ"); ("ⓑ", "Ⓑ"); ("ⓒ", "Ⓒ"); ("ⓓ", "Ⓓ"); ("ⓔ", "Ⓔ"); ("ⓕ", "Ⓕ")
   ; ("ⓖ", "Ⓖ"); ("ⓗ", "Ⓗ"); ("ⓘ", "Ⓘ"); ("ⓙ", "Ⓙ"); ("ⓚ", "Ⓚ"); ("ⓛ", "Ⓛ")
   ; ("ⓜ", "Ⓜ"); ("ⓝ", "Ⓝ"); ("ⓞ", "Ⓞ"); ("ⓟ", "Ⓟ"); ("ⓠ", "Ⓠ"); ("ⓡ", "Ⓡ")
   ; ("ⓢ", "Ⓢ"); ("ⓣ", "Ⓣ"); ("ⓤ", "Ⓤ"); ("ⓥ", "Ⓥ"); ("ⓦ", "Ⓦ"); ("ⓧ", "Ⓧ")
   ; ("ⓨ", "Ⓨ"); ("ⓩ", "Ⓩ"); ("ⰰ", "Ⰰ"); ("ⰱ", "Ⰱ"); ("ⰲ", "Ⰲ"); ("ⰳ", "Ⰳ")
   ; ("ⰴ", "Ⰴ"); ("ⰵ", "Ⰵ"); ("ⰶ", "Ⰶ"); ("ⰷ", "Ⰷ"); ("ⰸ", "Ⰸ"); ("ⰹ", "Ⰹ")
   ; ("ⰺ", "Ⰺ"); ("ⰻ", "Ⰻ"); ("ⰼ", "Ⰼ"); ("ⰽ", "Ⰽ"); ("ⰾ", "Ⰾ"); ("ⰿ", "Ⰿ")
   ; ("ⱀ", "Ⱀ"); ("ⱁ", "Ⱁ"); ("ⱂ", "Ⱂ"); ("ⱃ", "Ⱃ"); ("ⱄ", "Ⱄ"); ("ⱅ", "Ⱅ")
   ; ("ⱆ", "Ⱆ"); ("ⱇ", "Ⱇ"); ("ⱈ", "Ⱈ"); ("ⱉ", "Ⱉ"); ("ⱊ", "Ⱊ"); ("ⱋ", "Ⱋ")
   ; ("ⱌ", "Ⱌ"); ("ⱍ", "Ⱍ"); ("ⱎ", "Ⱎ"); ("ⱏ", "Ⱏ"); ("ⱐ", "Ⱐ"); ("ⱑ", "Ⱑ")
   ; ("ⱒ", "Ⱒ"); ("ⱓ", "Ⱓ"); ("ⱔ", "Ⱔ"); ("ⱕ", "Ⱕ"); ("ⱖ", "Ⱖ"); ("ⱗ", "Ⱗ")
   ; ("ⱘ", "Ⱘ"); ("ⱙ", "Ⱙ"); ("ⱚ", "Ⱚ"); ("ⱛ", "Ⱛ"); ("ⱜ", "Ⱜ"); ("ⱝ", "Ⱝ")
   ; ("ⱞ", "Ⱞ"); ("ⱟ", "Ⱟ"); ("ⱡ", "Ⱡ"); ("ⱥ", "Ⱥ"); ("ⱦ", "Ⱦ"); ("ⱨ", "Ⱨ")
   ; ("ⱪ", "Ⱪ"); ("ⱬ", "Ⱬ"); ("ⱳ", "Ⱳ"); ("ⱶ", "Ⱶ"); ("ⲁ", "Ⲁ"); ("ⲃ", "Ⲃ")
   ; ("ⲅ", "Ⲅ"); ("ⲇ", "Ⲇ"); ("ⲉ", "Ⲉ"); ("ⲋ", "Ⲋ"); ("ⲍ", "Ⲍ"); ("ⲏ", "Ⲏ")
   ; ("ⲑ", "Ⲑ"); ("ⲓ", "Ⲓ"); ("ⲕ", "Ⲕ"); ("ⲗ", "Ⲗ"); ("ⲙ", "Ⲙ"); ("ⲛ", "Ⲛ")
   ; ("ⲝ", "Ⲝ"); ("ⲟ", "Ⲟ"); ("ⲡ", "Ⲡ"); ("ⲣ", "Ⲣ"); ("ⲥ", "Ⲥ"); ("ⲧ", "Ⲧ")
   ; ("ⲩ", "Ⲩ"); ("ⲫ", "Ⲫ"); ("ⲭ", "Ⲭ"); ("ⲯ", "Ⲯ"); ("ⲱ", "Ⲱ"); ("ⲳ", "Ⲳ")
   ; ("ⲵ", "Ⲵ"); ("ⲷ", "Ⲷ"); ("ⲹ", "Ⲹ"); ("ⲻ", "Ⲻ"); ("ⲽ", "Ⲽ"); ("ⲿ", "Ⲿ")
   ; ("ⳁ", "Ⳁ"); ("ⳃ", "Ⳃ"); ("ⳅ", "Ⳅ"); ("ⳇ", "Ⳇ"); ("ⳉ", "Ⳉ"); ("ⳋ", "Ⳋ")
   ; ("ⳍ", "Ⳍ"); ("ⳏ", "Ⳏ"); ("ⳑ", "Ⳑ"); ("ⳓ", "Ⳓ"); ("ⳕ", "Ⳕ"); ("ⳗ", "Ⳗ")
   ; ("ⳙ", "Ⳙ"); ("ⳛ", "Ⳛ"); ("ⳝ", "Ⳝ"); ("ⳟ", "Ⳟ"); ("ⳡ", "Ⳡ"); ("ⳣ", "Ⳣ")
   ; ("ⳬ", "Ⳬ"); ("ⳮ", "Ⳮ"); ("ⳳ", "Ⳳ"); ("ⴀ", "Ⴀ"); ("ⴁ", "Ⴁ"); ("ⴂ", "Ⴂ")
   ; ("ⴃ", "Ⴃ"); ("ⴄ", "Ⴄ"); ("ⴅ", "Ⴅ"); ("ⴆ", "Ⴆ"); ("ⴇ", "Ⴇ"); ("ⴈ", "Ⴈ")
   ; ("ⴉ", "Ⴉ"); ("ⴊ", "Ⴊ"); ("ⴋ", "Ⴋ"); ("ⴌ", "Ⴌ"); ("ⴍ", "Ⴍ"); ("ⴎ", "Ⴎ")
   ; ("ⴏ", "Ⴏ"); ("ⴐ", "Ⴐ"); ("ⴑ", "Ⴑ"); ("ⴒ", "Ⴒ"); ("ⴓ", "Ⴓ"); ("ⴔ", "Ⴔ")
   ; ("ⴕ", "Ⴕ"); ("ⴖ", "Ⴖ"); ("ⴗ", "Ⴗ"); ("ⴘ", "Ⴘ"); ("ⴙ", "Ⴙ"); ("ⴚ", "Ⴚ")
   ; ("ⴛ", "Ⴛ"); ("ⴜ", "Ⴜ"); ("ⴝ", "Ⴝ"); ("ⴞ", "Ⴞ"); ("ⴟ", "Ⴟ"); ("ⴠ", "Ⴠ")
   ; ("ⴡ", "Ⴡ"); ("ⴢ", "Ⴢ"); ("ⴣ", "Ⴣ"); ("ⴤ", "Ⴤ"); ("ⴥ", "Ⴥ"); ("ⴧ", "Ⴧ")
   ; ("ⴭ", "Ⴭ"); ("ꙁ", "Ꙁ"); ("ꙃ", "Ꙃ"); ("ꙅ", "Ꙅ"); ("ꙇ", "Ꙇ"); ("ꙉ", "Ꙉ")
   ; ("ꙋ", "Ꙋ"); ("ꙍ", "Ꙍ"); ("ꙏ", "Ꙏ"); ("ꙑ", "Ꙑ"); ("ꙓ", "Ꙓ"); ("ꙕ", "Ꙕ")
   ; ("ꙗ", "Ꙗ"); ("ꙙ", "Ꙙ"); ("ꙛ", "Ꙛ"); ("ꙝ", "Ꙝ"); ("ꙟ", "Ꙟ"); ("ꙡ", "Ꙡ")
   ; ("ꙣ", "Ꙣ"); ("ꙥ", "Ꙥ"); ("ꙧ", "Ꙧ"); ("ꙩ", "Ꙩ"); ("ꙫ", "Ꙫ"); ("ꙭ", "Ꙭ")
   ; ("ꚁ", "Ꚁ"); ("ꚃ", "Ꚃ"); ("ꚅ", "Ꚅ"); ("ꚇ", "Ꚇ"); ("ꚉ", "Ꚉ"); ("ꚋ", "Ꚋ")
   ; ("ꚍ", "Ꚍ"); ("ꚏ", "Ꚏ"); ("ꚑ", "Ꚑ"); ("ꚓ", "Ꚓ"); ("ꚕ", "Ꚕ"); ("ꚗ", "Ꚗ")
   ; ("ꚙ", "Ꚙ"); ("ꚛ", "Ꚛ"); ("ꜣ", "Ꜣ"); ("ꜥ", "Ꜥ"); ("ꜧ", "Ꜧ"); ("ꜩ", "Ꜩ")
   ; ("ꜫ", "Ꜫ"); ("ꜭ", "Ꜭ"); ("ꜯ", "Ꜯ"); ("ꜳ", "Ꜳ"); ("ꜵ", "Ꜵ"); ("ꜷ", "Ꜷ")
   ; ("ꜹ", "Ꜹ"); ("ꜻ", "Ꜻ"); ("ꜽ", "Ꜽ"); ("ꜿ", "Ꜿ"); ("ꝁ", "Ꝁ"); ("ꝃ", "Ꝃ")
   ; ("ꝅ", "Ꝅ"); ("ꝇ", "Ꝇ"); ("ꝉ", "Ꝉ"); ("ꝋ", "Ꝋ"); ("ꝍ", "Ꝍ"); ("ꝏ", "Ꝏ")
   ; ("ꝑ", "Ꝑ"); ("ꝓ", "Ꝓ"); ("ꝕ", "Ꝕ"); ("ꝗ", "Ꝗ"); ("ꝙ", "Ꝙ"); ("ꝛ", "Ꝛ")
   ; ("ꝝ", "Ꝝ"); ("ꝟ", "Ꝟ"); ("ꝡ", "Ꝡ"); ("ꝣ", "Ꝣ"); ("ꝥ", "Ꝥ"); ("ꝧ", "Ꝧ")
   ; ("ꝩ", "Ꝩ"); ("ꝫ", "Ꝫ"); ("ꝭ", "Ꝭ"); ("ꝯ", "Ꝯ"); ("ꝺ", "Ꝺ"); ("ꝼ", "Ꝼ")
   ; ("ꝿ", "Ꝿ"); ("ꞁ", "Ꞁ"); ("ꞃ", "Ꞃ"); ("ꞅ", "Ꞅ"); ("ꞇ", "Ꞇ"); ("ꞌ", "Ꞌ")
   ; ("ꞑ", "Ꞑ"); ("ꞓ", "Ꞓ"); ("ꞔ", "Ꞔ"); ("ꞗ", "Ꞗ"); ("ꞙ", "Ꞙ"); ("ꞛ", "Ꞛ")
   ; ("ꞝ", "Ꞝ"); ("ꞟ", "Ꞟ"); ("ꞡ", "Ꞡ"); ("ꞣ", "Ꞣ"); ("ꞥ", "Ꞥ"); ("ꞧ", "Ꞧ")
   ; ("ꞩ", "Ꞩ"); ("ꞵ", "Ꞵ"); ("ꞷ", "Ꞷ"); ("ꞹ", "Ꞹ"); ("ꞻ", "Ꞻ"); ("ꞽ", "Ꞽ")
   ; ("ꞿ", "Ꞿ"); ("ꟁ", "Ꟁ"); ("ꟃ", "Ꟃ"); ("ꟈ", "Ꟈ"); ("ꟊ", "Ꟊ"); ("ꟑ", "Ꟑ")
   ; ("ꟗ", "Ꟗ"); ("ꟙ", "Ꟙ"); ("ꟶ", "Ꟶ"); ("ꭓ", "Ꭓ"); ("ꭰ", "Ꭰ"); ("ꭱ", "Ꭱ")
   ; ("ꭲ", "Ꭲ"); ("ꭳ", "Ꭳ"); ("ꭴ", "Ꭴ"); ("ꭵ", "Ꭵ"); ("ꭶ", "Ꭶ"); ("ꭷ", "Ꭷ")
   ; ("ꭸ", "Ꭸ"); ("ꭹ", "Ꭹ"); ("ꭺ", "Ꭺ"); ("ꭻ", "Ꭻ"); ("ꭼ", "Ꭼ"); ("ꭽ", "Ꭽ")
   ; ("ꭾ", "Ꭾ"); ("ꭿ", "Ꭿ"); ("ꮀ", "Ꮀ"); ("ꮁ", "Ꮁ"); ("ꮂ", "Ꮂ"); ("ꮃ", "Ꮃ")
   ; ("ꮄ", "Ꮄ"); ("ꮅ", "Ꮅ"); ("ꮆ", "Ꮆ"); ("ꮇ", "Ꮇ"); ("ꮈ", "Ꮈ"); ("ꮉ", "Ꮉ")
   ; ("ꮊ", "Ꮊ"); ("ꮋ", "Ꮋ"); ("ꮌ", "Ꮌ"); ("ꮍ", "Ꮍ"); ("ꮎ", "Ꮎ"); ("ꮏ", "Ꮏ")
   ; ("ꮐ", "Ꮐ"); ("ꮑ", "Ꮑ"); ("ꮒ", "Ꮒ"); ("ꮓ", "Ꮓ"); ("ꮔ", "Ꮔ"); ("ꮕ", "Ꮕ")
   ; ("ꮖ", "Ꮖ"); ("ꮗ", "Ꮗ"); ("ꮘ", "Ꮘ"); ("ꮙ", "Ꮙ"); ("ꮚ", "Ꮚ"); ("ꮛ", "Ꮛ")
   ; ("ꮜ", "Ꮜ"); ("ꮝ", "Ꮝ"); ("ꮞ", "Ꮞ"); ("ꮟ", "Ꮟ"); ("ꮠ", "Ꮠ"); ("ꮡ", "Ꮡ")
   ; ("ꮢ", "Ꮢ"); ("ꮣ", "Ꮣ"); ("ꮤ", "Ꮤ"); ("ꮥ", "Ꮥ"); ("ꮦ", "Ꮦ"); ("ꮧ", "Ꮧ")
   ; ("ꮨ", "Ꮨ"); ("ꮩ", "Ꮩ"); ("ꮪ", "Ꮪ"); ("ꮫ", "Ꮫ"); ("ꮬ", "Ꮬ"); ("ꮭ", "Ꮭ")
   ; ("ꮮ", "Ꮮ"); ("ꮯ", "Ꮯ"); ("ꮰ", "Ꮰ"); ("ꮱ", "Ꮱ"); ("ꮲ", "Ꮲ"); ("ꮳ", "Ꮳ")
   ; ("ꮴ", "Ꮴ"); ("ꮵ", "Ꮵ"); ("ꮶ", "Ꮶ"); ("ꮷ", "Ꮷ"); ("ꮸ", "Ꮸ"); ("ꮹ", "Ꮹ")
   ; ("ꮺ", "Ꮺ"); ("ꮻ", "Ꮻ"); ("ꮼ", "Ꮼ"); ("ꮽ", "Ꮽ"); ("ꮾ", "Ꮾ"); ("ꮿ", "Ꮿ")
   ; ("ﬀ", "FF"); ("ﬁ", "FI"); ("ﬂ", "FL"); ("ﬃ", "FFI"); ("ﬄ", "FFL")
   ; ("ﬅ", "ST"); ("ﬆ", "ST"); ("ﬓ", "ՄՆ"); ("ﬔ", "ՄԵ"); ("ﬕ", "ՄԻ")
   ; ("ﬖ", "ՎՆ"); ("ﬗ", "ՄԽ"); ("ａ", "Ａ"); ("ｂ", "Ｂ"); ("ｃ", "Ｃ")
   ; ("ｄ", "Ｄ"); ("ｅ", "Ｅ"); ("ｆ", "Ｆ"); ("ｇ", "Ｇ"); ("ｈ", "Ｈ"); ("ｉ", "Ｉ")
   ; ("ｊ", "Ｊ"); ("ｋ", "Ｋ"); ("ｌ", "Ｌ"); ("ｍ", "Ｍ"); ("ｎ", "Ｎ"); ("ｏ", "Ｏ")
   ; ("ｐ", "Ｐ"); ("ｑ", "Ｑ"); ("ｒ", "Ｒ"); ("ｓ", "Ｓ"); ("ｔ", "Ｔ"); ("ｕ", "Ｕ")
   ; ("ｖ", "Ｖ"); ("ｗ", "Ｗ"); ("ｘ", "Ｘ"); ("ｙ", "Ｙ"); ("ｚ", "Ｚ"); ("𐐨", "𐐀")
   ; ("𐐩", "𐐁"); ("𐐪", "𐐂"); ("𐐫", "𐐃"); ("𐐬", "𐐄"); ("𐐭", "𐐅"); ("𐐮", "𐐆")
   ; ("𐐯", "𐐇"); ("𐐰", "𐐈"); ("𐐱", "𐐉"); ("𐐲", "𐐊"); ("𐐳", "𐐋"); ("𐐴", "𐐌")
   ; ("𐐵", "𐐍"); ("𐐶", "𐐎"); ("𐐷", "𐐏"); ("𐐸", "𐐐"); ("𐐹", "𐐑"); ("𐐺", "𐐒")
   ; ("𐐻", "𐐓"); ("𐐼", "𐐔"); ("𐐽", "𐐕"); ("𐐾", "𐐖"); ("𐐿", "𐐗"); ("𐑀", "𐐘")
   ; ("𐑁", "𐐙"); ("𐑂", "𐐚"); ("𐑃", "𐐛"); ("𐑄", "𐐜"); ("𐑅", "𐐝"); ("𐑆", "𐐞")
   ; ("𐑇", "𐐟"); ("𐑈", "𐐠"); ("𐑉", "𐐡"); ("𐑊", "𐐢"); ("𐑋", "𐐣"); ("𐑌", "𐐤")
   ; ("𐑍", "𐐥"); ("𐑎", "𐐦"); ("𐑏", "𐐧"); ("𐓘", "𐒰"); ("𐓙", "𐒱"); ("𐓚", "𐒲")
   ; ("𐓛", "𐒳"); ("𐓜", "𐒴"); ("𐓝", "𐒵"); ("𐓞", "𐒶"); ("𐓟", "𐒷"); ("𐓠", "𐒸")
   ; ("𐓡", "𐒹"); ("𐓢", "𐒺"); ("𐓣", "𐒻"); ("𐓤", "𐒼"); ("𐓥", "𐒽"); ("𐓦", "𐒾")
   ; ("𐓧", "𐒿"); ("𐓨", "𐓀"); ("𐓩", "𐓁"); ("𐓪", "𐓂"); ("𐓫", "𐓃"); ("𐓬", "𐓄")
   ; ("𐓭", "𐓅"); ("𐓮", "𐓆"); ("𐓯", "𐓇"); ("𐓰", "𐓈"); ("𐓱", "𐓉"); ("𐓲", "𐓊")
   ; ("𐓳", "𐓋"); ("𐓴", "𐓌"); ("𐓵", "𐓍"); ("𐓶", "𐓎"); ("𐓷", "𐓏"); ("𐓸", "𐓐")
   ; ("𐓹", "𐓑"); ("𐓺", "𐓒"); ("𐓻", "𐓓"); ("𐖗", "𐕰"); ("𐖘", "𐕱"); ("𐖙", "𐕲")
   ; ("𐖚", "𐕳"); ("𐖛", "𐕴"); ("𐖜", "𐕵"); ("𐖝", "𐕶"); ("𐖞", "𐕷"); ("𐖟", "𐕸")
   ; ("𐖠", "𐕹"); ("𐖡", "𐕺"); ("𐖣", "𐕼"); ("𐖤", "𐕽"); ("𐖥", "𐕾"); ("𐖦", "𐕿")
   ; ("𐖧", "𐖀"); ("𐖨", "𐖁"); ("𐖩", "𐖂"); ("𐖪", "𐖃"); ("𐖫", "𐖄"); ("𐖬", "𐖅")
   ; ("𐖭", "𐖆"); ("𐖮", "𐖇"); ("𐖯", "𐖈"); ("𐖰", "𐖉"); ("𐖱", "𐖊"); ("𐖳", "𐖌")
   ; ("𐖴", "𐖍"); ("𐖵", "𐖎"); ("𐖶", "𐖏"); ("𐖷", "𐖐"); ("𐖸", "𐖑"); ("𐖹", "𐖒")
   ; ("𐖻", "𐖔"); ("𐖼", "𐖕"); ("𐳀", "𐲀"); ("𐳁", "𐲁"); ("𐳂", "𐲂"); ("𐳃", "𐲃")
   ; ("𐳄", "𐲄"); ("𐳅", "𐲅"); ("𐳆", "𐲆"); ("𐳇", "𐲇"); ("𐳈", "𐲈"); ("𐳉", "𐲉")
   ; ("𐳊", "𐲊"); ("𐳋", "𐲋"); ("𐳌", "𐲌"); ("𐳍", "𐲍"); ("𐳎", "𐲎"); ("𐳏", "𐲏")
   ; ("𐳐", "𐲐"); ("𐳑", "𐲑"); ("𐳒", "𐲒"); ("𐳓", "𐲓"); ("𐳔", "𐲔"); ("𐳕", "𐲕")
   ; ("𐳖", "𐲖"); ("𐳗", "𐲗"); ("𐳘", "𐲘"); ("𐳙", "𐲙"); ("𐳚", "𐲚"); ("𐳛", "𐲛")
   ; ("𐳜", "𐲜"); ("𐳝", "𐲝"); ("𐳞", "𐲞"); ("𐳟", "𐲟"); ("𐳠", "𐲠"); ("𐳡", "𐲡")
   ; ("𐳢", "𐲢"); ("𐳣", "𐲣"); ("𐳤", "𐲤"); ("𐳥", "𐲥"); ("𐳦", "𐲦"); ("𐳧", "𐲧")
   ; ("𐳨", "𐲨"); ("𐳩", "𐲩"); ("𐳪", "𐲪"); ("𐳫", "𐲫"); ("𐳬", "𐲬"); ("𐳭", "𐲭")
   ; ("𐳮", "𐲮"); ("𐳯", "𐲯"); ("𐳰", "𐲰"); ("𐳱", "𐲱"); ("𐳲", "𐲲"); ("𑣀", "𑢠")
   ; ("𑣁", "𑢡"); ("𑣂", "𑢢"); ("𑣃", "𑢣"); ("𑣄", "𑢤"); ("𑣅", "𑢥"); ("𑣆", "𑢦")
   ; ("𑣇", "𑢧"); ("𑣈", "𑢨"); ("𑣉", "𑢩"); ("𑣊", "𑢪"); ("𑣋", "𑢫"); ("𑣌", "𑢬")
   ; ("𑣍", "𑢭"); ("𑣎", "𑢮"); ("𑣏", "𑢯"); ("𑣐", "𑢰"); ("𑣑", "𑢱"); ("𑣒", "𑢲")
   ; ("𑣓", "𑢳"); ("𑣔", "𑢴"); ("𑣕", "𑢵"); ("𑣖", "𑢶"); ("𑣗", "𑢷"); ("𑣘", "𑢸")
   ; ("𑣙", "𑢹"); ("𑣚", "𑢺"); ("𑣛", "𑢻"); ("𑣜", "𑢼"); ("𑣝", "𑢽"); ("𑣞", "𑢾")
   ; ("𑣟", "𑢿"); ("𖹠", "𖹀"); ("𖹡", "𖹁"); ("𖹢", "𖹂"); ("𖹣", "𖹃"); ("𖹤", "𖹄")
   ; ("𖹥", "𖹅"); ("𖹦", "𖹆"); ("𖹧", "𖹇"); ("𖹨", "𖹈"); ("𖹩", "𖹉"); ("𖹪", "𖹊")
   ; ("𖹫", "𖹋"); ("𖹬", "𖹌"); ("𖹭", "𖹍"); ("𖹮", "𖹎"); ("𖹯", "𖹏"); ("𖹰", "𖹐")
   ; ("𖹱", "𖹑"); ("𖹲", "𖹒"); ("𖹳", "𖹓"); ("𖹴", "𖹔"); ("𖹵", "𖹕"); ("𖹶", "𖹖")
   ; ("𖹷", "𖹗"); ("𖹸", "𖹘"); ("𖹹", "𖹙"); ("𖹺", "𖹚"); ("𖹻", "𖹛"); ("𖹼", "𖹜")
   ; ("𖹽", "𖹝"); ("𖹾", "𖹞"); ("𖹿", "𖹟"); ("𞤢", "𞤀"); ("𞤣", "𞤁"); ("𞤤", "𞤂")
   ; ("𞤥", "𞤃"); ("𞤦", "𞤄"); ("𞤧", "𞤅"); ("𞤨", "𞤆"); ("𞤩", "𞤇"); ("𞤪", "𞤈")
   ; ("𞤫", "𞤉"); ("𞤬", "𞤊"); ("𞤭", "𞤋"); ("𞤮", "𞤌"); ("𞤯", "𞤍"); ("𞤰", "𞤎")
   ; ("𞤱", "𞤏"); ("𞤲", "𞤐"); ("𞤳", "𞤑"); ("𞤴", "𞤒"); ("𞤵", "𞤓"); ("𞤶", "𞤔")
   ; ("𞤷", "𞤕"); ("𞤸", "𞤖"); ("𞤹", "𞤗"); ("𞤺", "𞤘"); ("𞤻", "𞤙"); ("𞤼", "𞤚")
   ; ("𞤽", "𞤛"); ("𞤾", "𞤜"); ("𞤿", "𞤝"); ("𞥀", "𞤞"); ("𞥁", "𞤟"); ("𞥂", "𞤠")
   ; ("𞥃", "𞤡")].

Definition fold : list (string * string) :=
  [("µ", "μ"); ("À", "à"); ("Á", "á"); ("Â", "â"); ("Ã", "ã"); ("Ä", "ä")
   ; ("Å", "å"); ("Æ", "æ"); ("Ç", "ç"); ("È", "è"); ("É", "é"); ("Ê", "ê")
   ; ("Ë", "ë"); ("Ì", "ì"); ("Í", "í"); ("Î", "î"); ("Ï", "ï"); ("Ð", "ð")
   ; ("Ñ", "ñ"); ("Ò", "ò"); ("Ó", "ó"); ("Ô", "ô"); ("Õ", "õ"); ("Ö", "ö")
   ; ("Ø", "ø"); ("Ù", "ù"); ("Ú", "ú"); ("Û", "û"); ("Ü", "ü"); ("Ý", "ý")
   ; ("Þ", "þ"); ("ß", "ss"); ("Ā", "ā"); ("Ă", "ă"); ("Ą", "ą"); ("Ć", "ć")
   ; ("Ĉ", "ĉ"); ("Ċ", "ċ"); ("Č", "č"); ("Ď", "ď"); ("Đ", "đ"); ("Ē", "ē")
   ; ("Ĕ", "ĕ"); ("Ė", "ė"); ("Ę", "ę"); ("Ě", "ě"); ("Ĝ", "ĝ"); ("Ğ", "ğ")
   ; ("Ġ", "ġ"); ("Ģ", "ģ"); ("Ĥ", "ĥ"); ("Ħ", "ħ"); ("Ĩ", "ĩ"); ("Ī", "ī")
   ; ("Ĭ", "ĭ"); ("Į", "į"); ("İ", "i̇"); ("Ĳ", "ĳ"); ("Ĵ", "ĵ"); ("Ķ", "ķ")
   ; ("Ĺ", "ĺ"); ("Ļ", "ļ"); ("Ľ", "ľ"); ("Ŀ", "ŀ"); ("Ł", "ł"); ("Ń", "ń")
   ; ("Ņ", "ņ"); ("Ň", "ň"); ("ŉ", "ʼn"); ("Ŋ", "ŋ"); ("Ō", "ō"); ("Ŏ", "ŏ")
   ; ("Ő", "ő"); ("Œ", "œ"); ("Ŕ", "ŕ"); ("Ŗ", "ŗ"); ("Ř", "ř"); ("Ś", "ś")
   ; ("Ŝ", "ŝ"); ("Ş", "ş"); ("Š", "š"); ("Ţ", "ţ"); ("Ť", "ť"); ("Ŧ", "ŧ")
   ; ("Ũ", "ũ"); ("Ū", "ū"); ("Ŭ", "ŭ"); ("Ů", "ů"); ("Ű", "ű"); ("Ų", "ų")
   ; ("Ŵ", "ŵ"); ("Ŷ", "ŷ"); ("Ÿ", "ÿ"); ("Ź", "ź"); ("Ż", "ż"); ("Ž", "ž")
   ; ("ſ", "s"); ("Ɓ", "ɓ"); ("Ƃ", "ƃ"); ("Ƅ", "ƅ"); ("Ɔ", "ɔ"); ("Ƈ", "ƈ")
   ; ("Ɖ", "ɖ"); ("Ɗ", "ɗ"); ("Ƌ", "ƌ"); ("Ǝ", "ǝ"); ("Ə", "ə"); ("Ɛ", "ɛ")
   ; ("Ƒ", "ƒ"); ("Ɠ", "ɠ"); ("Ɣ", "ɣ"); ("Ɩ", "ɩ"); ("Ɨ", "ɨ"); ("Ƙ", "ƙ")
   ; ("Ɯ", "ɯ"); ("Ɲ", "ɲ"); ("Ɵ", "ɵ"); ("Ơ", "ơ"); ("Ƣ", "ƣ"); ("Ƥ", "ƥ")
   ; ("Ʀ", "ʀ"); ("Ƨ", "ƨ"); ("Ʃ", "ʃ"); ("Ƭ", "ƭ"); ("Ʈ", "ʈ"); ("Ư", "ư")
   ; ("Ʊ", "ʊ"); ("Ʋ", "ʋ"); ("Ƴ", "ƴ"); ("Ƶ", "ƶ"); ("Ʒ", "ʒ"); ("Ƹ", "ƹ")
   ; ("Ƽ", "ƽ"); ("Ǆ", "ǆ"); ("ǅ", "ǆ"); ("Ǉ", "ǉ"); ("ǈ", "ǉ"); ("Ǌ", "ǌ")
   ; ("ǋ", "ǌ"); ("Ǎ", "ǎ"); ("Ǐ", "ǐ"); ("Ǒ", "ǒ"); ("Ǔ", "ǔ"); ("Ǖ", "ǖ")
   ; ("Ǘ", "ǘ"); ("Ǚ", "ǚ"); ("Ǜ", "ǜ"); ("Ǟ", "ǟ"); ("Ǡ", "ǡ"); ("Ǣ", "ǣ")
   ; ("Ǥ", "ǥ"); ("Ǧ", "ǧ"); ("Ǩ", "ǩ"); ("Ǫ", "ǫ"); ("Ǭ", "ǭ"); ("Ǯ", "ǯ")
   ; ("ǰ", "ǰ"); ("Ǳ", "ǳ"); ("ǲ", "ǳ"); ("Ǵ", "ǵ"); ("Ƕ", "ƕ"); ("Ƿ", "ƿ")
   ; ("Ǹ", "ǹ"); ("Ǻ", "ǻ"); ("Ǽ", "ǽ"); ("Ǿ", "ǿ"); ("Ȁ", "ȁ"); ("Ȃ", "ȃ")
   ; ("Ȅ", "ȅ"); ("Ȇ", "ȇ"); ("Ȉ", "ȉ"); ("Ȋ", "ȋ"); ("Ȍ", "ȍ"); ("Ȏ", "ȏ")
   ; ("Ȑ", "ȑ"); ("Ȓ", "ȓ"); ("Ȕ", "ȕ"); ("Ȗ", "ȗ"); ("Ș", "ș"); ("Ț", "ț")
   ; ("Ȝ", "ȝ"); ("Ȟ", "ȟ"); ("Ƞ", "ƞ"); ("Ȣ", "ȣ"); ("Ȥ", "ȥ"); ("Ȧ", "ȧ")
   ; ("Ȩ", "ȩ"); ("Ȫ", "ȫ"); ("Ȭ", "ȭ"); ("Ȯ", "ȯ"); ("Ȱ", "ȱ"); ("Ȳ", "ȳ")
   ; ("Ⱥ", "ⱥ"); ("Ȼ", "ȼ"); ("Ƚ", "ƚ"); ("Ⱦ", "ⱦ"); ("Ɂ", "ɂ"); ("Ƀ", "ƀ")
   ; ("Ʉ", "ʉ"); ("Ʌ", "ʌ"); ("Ɇ", "ɇ"); ("Ɉ", "ɉ"); ("Ɋ", "ɋ"); ("Ɍ", "ɍ")
   ; ("Ɏ", "ɏ"); ("ͅ", "ι"); ("Ͱ", "ͱ"); ("Ͳ", "ͳ"); ("Ͷ", "ͷ"); ("Ϳ", "ϳ")
   ; ("Ά", "ά"); ("Έ", "έ"); ("Ή", "ή"); ("Ί", "ί"); ("Ό", "ό"); ("Ύ", "ύ")
   ; ("Ώ", "ώ"); ("ΐ", "ΐ"); ("Α", "α"); ("Β", "β"); ("Γ", "γ")
   ; ("Δ", "δ"); ("Ε", "ε"); ("Ζ", "ζ"); ("Η", "η"); ("Θ", "θ"); ("Ι", "ι")
   ; ("Κ", "κ"); ("Λ", "λ"); ("Μ", "μ"); ("Ν", "ν"); ("Ξ", "ξ"); ("Ο", "ο")
   ; ("Π", "π"); ("Ρ", "ρ"); ("Σ", "σ"); ("Τ", "τ"); ("Υ", "υ"); ("Φ", "φ")
   ; ("Χ", "χ"); ("Ψ", "ψ"); ("Ω", "ω"); ("Ϊ", "ϊ"); ("Ϋ", "ϋ")
   ; ("ΰ", "ΰ"); ("ς", "σ"); ("Ϗ", "ϗ"); ("ϐ", "β"); ("ϑ", "θ")
   ; ("ϕ", "φ"); ("ϖ", "π"); ("Ϙ", "ϙ"); ("Ϛ", "ϛ"); ("Ϝ", "ϝ"); ("Ϟ", "ϟ")
   ; ("Ϡ", "ϡ"); ("Ϣ", "ϣ"); ("Ϥ", "ϥ"); ("Ϧ", "ϧ"); ("Ϩ", "ϩ"); ("Ϫ", "ϫ")
   ; ("Ϭ", "ϭ"); ("Ϯ", "ϯ"); ("ϰ", "κ"); ("ϱ", "ρ"); ("ϴ", "θ"); ("ϵ", "ε")
   ; ("Ϸ", "ϸ"); ("Ϲ", "ϲ"); ("Ϻ", "ϻ"); ("Ͻ", "ͻ"); ("Ͼ", "ͼ"); ("Ͽ", "ͽ")
   ; ("Ѐ", "ѐ"); ("Ё", "ё"); ("Ђ", "ђ"); ("Ѓ", "ѓ"); ("Є", "є"); ("Ѕ", "ѕ")
   ; ("І", "і"); ("Ї", "ї"); ("Ј", "ј"); ("Љ", "љ"); ("Њ", "њ"); ("Ћ", "ћ")
   ; ("Ќ", "ќ"); ("Ѝ", "ѝ"); ("Ў", "ў"); ("Џ", "џ"); ("А", "а"); ("Б", "б")
   ; ("В", "в"); ("Г", "г"); ("Д", "д"); ("Е", "е"); ("Ж", "ж"); ("З", "з")
   ; ("И", "и"); ("Й", "й"); ("К", "к"); ("Л", "л"); ("М", "м"); ("Н", "н")
   ; ("О", "о"); ("П", "п"); ("Р", "р"); ("С", "с"); ("Т", "т"); ("У", "у")
   ; ("Ф", "ф"); ("Х", "х"); ("Ц", "ц"); ("Ч", "ч"); ("Ш", "ш"); ("Щ", "щ")
   ; ("Ъ", "ъ"); ("Ы", "ы"); ("Ь", "ь"); ("Э", "э"); ("Ю", "ю"); ("Я", "я")
   ; ("Ѡ", "ѡ"); ("Ѣ", "ѣ"); ("Ѥ", "ѥ"); ("Ѧ", "ѧ"); ("Ѩ", "ѩ"); ("Ѫ", "ѫ")
   ; ("Ѭ", "ѭ"); ("Ѯ", "ѯ"); ("Ѱ", "ѱ"); ("Ѳ", "ѳ"); ("Ѵ", "ѵ"); ("Ѷ", "ѷ")
   ; ("Ѹ", "ѹ"); ("Ѻ", "ѻ"); ("Ѽ", "ѽ"); ("Ѿ", "ѿ"); ("Ҁ", "ҁ"); ("Ҋ", "ҋ")
   ; ("Ҍ", "ҍ"); ("Ҏ", "ҏ"); ("Ґ", "ґ"); ("Ғ", "ғ"); ("Ҕ", "ҕ"); ("Җ", "җ")
   ; ("Ҙ", "ҙ"); ("Қ", "қ"); ("Ҝ", "ҝ"); ("Ҟ", "ҟ"); ("Ҡ", "ҡ"); ("Ң", "ң")
   ; ("Ҥ", "ҥ"); ("Ҧ", "ҧ"); ("Ҩ", "ҩ"); ("Ҫ", "ҫ"); ("Ҭ", "ҭ"); ("Ү", "ү")
   ; ("Ұ", "ұ"); ("Ҳ", "ҳ"); ("Ҵ", "ҵ"); ("Ҷ", "ҷ"); ("Ҹ", "ҹ"); ("Һ", "һ")
   ; ("Ҽ", "ҽ"); ("Ҿ", "ҿ"); ("Ӏ", "ӏ"); ("Ӂ", "ӂ"); ("Ӄ", "ӄ"); ("Ӆ", "ӆ")
   ; ("Ӈ", "ӈ"); ("Ӊ", "ӊ"); ("Ӌ", "ӌ"); ("Ӎ", "ӎ"); ("Ӑ", "ӑ"); ("Ӓ", "ӓ")
   ; ("Ӕ", "ӕ"); ("Ӗ", "ӗ"); ("Ә", "ә"); ("Ӛ", "ӛ"); ("Ӝ", "ӝ"); ("Ӟ", "ӟ")
   ; ("Ӡ", "ӡ"); ("Ӣ", "ӣ"); ("Ӥ", "ӥ"); ("Ӧ", "ӧ"); ("Ө", "ө"); ("Ӫ", "ӫ")
   ; ("Ӭ", "ӭ"); ("Ӯ", "ӯ"); ("Ӱ", "ӱ"); ("Ӳ", "ӳ"); ("Ӵ", "ӵ"); ("Ӷ", "ӷ")
   ; ("Ӹ", "ӹ"); ("Ӻ", "ӻ"); ("Ӽ", "ӽ"); ("Ӿ", "ӿ"); ("Ԁ", "ԁ"); ("Ԃ", "ԃ")
   ; ("Ԅ", "ԅ"); ("Ԇ", "ԇ"); ("Ԉ", "ԉ"); ("Ԋ", "ԋ"); ("Ԍ", "ԍ"); ("Ԏ", "ԏ")
   ; ("Ԑ", "ԑ"); ("Ԓ", "ԓ"); ("Ԕ", "ԕ"); ("Ԗ", "ԗ"); ("Ԙ", "ԙ"); ("Ԛ", "ԛ")
   ; ("Ԝ", "ԝ"); ("Ԟ", "ԟ"); ("Ԡ", "ԡ"); ("Ԣ", "ԣ"); ("Ԥ", "ԥ"); ("Ԧ", "ԧ")
   ; ("Ԩ", "ԩ"); ("Ԫ", "ԫ"); ("Ԭ", "ԭ"); ("Ԯ", "ԯ"); ("Ա", "ա"); ("Բ", "բ")
   ; ("Գ", "գ"); ("Դ", "դ"); ("Ե", "ե"); ("Զ", "զ"); ("Է", "է"); ("Ը", "ը")
   ; ("Թ", "թ"); ("Ժ", "ժ"); ("Ի", "ի"); ("Լ", "լ"); ("Խ", "խ"); ("Ծ", "ծ")
   ; ("Կ", "կ"); ("Հ", "հ"); ("Ձ", "ձ"); ("Ղ", "ղ"); ("Ճ", "ճ"); ("Մ", "մ")
   ; ("Յ", "յ"); ("Ն", "ն"); ("Շ", "շ"); ("Ո", "ո"); ("Չ", "չ"); ("Պ", "պ")
   ; ("Ջ", "ջ"); ("Ռ", "ռ"); ("Ս", "ս"); ("Վ", "վ"); ("Տ", "տ"); ("Ր", "ր")
   ; ("Ց", "ց"); ("Ւ", "ւ"); ("Փ", "փ"); ("Ք", "ք"); ("Օ", "օ"); ("Ֆ", "ֆ")
   ; ("և", "եւ"); ("Ⴀ", "ⴀ"); ("Ⴁ", "ⴁ"); ("Ⴂ", "ⴂ"); ("Ⴃ", "ⴃ"); ("Ⴄ", "ⴄ")
   ; ("Ⴅ", "ⴅ"); ("Ⴆ", "ⴆ"); ("Ⴇ", "ⴇ"); ("Ⴈ", "ⴈ"); ("Ⴉ", "ⴉ"); ("Ⴊ", "ⴊ")
   ; ("Ⴋ", "ⴋ"); ("Ⴌ", "ⴌ"); ("Ⴍ", "ⴍ"); ("Ⴎ", "ⴎ"); ("Ⴏ", "ⴏ"); ("Ⴐ", "ⴐ")
   ; ("Ⴑ", "ⴑ"); ("Ⴒ", "ⴒ"); ("Ⴓ", "ⴓ"); ("Ⴔ", "ⴔ"); ("Ⴕ", "ⴕ"); ("Ⴖ", "ⴖ")
   ; ("Ⴗ", "ⴗ"); ("Ⴘ", "ⴘ"); ("Ⴙ", "ⴙ"); ("Ⴚ", "ⴚ"); ("Ⴛ", "ⴛ"); ("Ⴜ", "ⴜ")
   ; ("Ⴝ", "ⴝ"); ("Ⴞ", "ⴞ"); ("Ⴟ", "ⴟ"); ("Ⴠ", "ⴠ"); ("Ⴡ", "ⴡ"); ("Ⴢ", "ⴢ")
   ; ("Ⴣ", "ⴣ"); ("Ⴤ", "ⴤ"); ("Ⴥ", "ⴥ"); ("Ⴧ", "ⴧ"); ("Ⴭ", "ⴭ"); ("ᏸ", "Ᏸ")
   ; ("ᏹ", "Ᏹ"); ("ᏺ", "Ᏺ"); ("ᏻ", "Ᏻ"); ("ᏼ", "Ᏼ"); ("ᏽ", "Ᏽ"); ("ᲀ", "в")
   ; ("ᲁ", "д"); ("ᲂ", "о"); ("ᲃ", "с"); ("ᲄ", "т"); ("ᲅ", "т"); ("ᲆ", "ъ")
   ; ("ᲇ", "ѣ"); ("ᲈ", "ꙋ"); ("Ა", "ა"); ("Ბ", "ბ"); ("Გ", "გ"); ("Დ", "დ")
   ; ("Ე", "ე"); ("Ვ", "ვ"); ("Ზ", "ზ"); ("Თ", "თ"); ("Ი", "ი"); ("Კ", "კ")
   ; ("Ლ", "ლ"); ("Მ", "მ"); ("Ნ", "ნ"); ("Ო", "ო"); ("Პ", "პ"); ("Ჟ", "ჟ")
   ; ("Რ", "რ"); ("Ს", "ს"); ("Ტ", "ტ"); ("Უ", "უ"); ("Ფ", "ფ"); ("Ქ", "ქ")
   ; ("Ღ", "ღ"); ("Ყ", "ყ"); ("Შ", "შ"); ("Ჩ", "ჩ"); ("Ც", "ც"); ("Ძ", "ძ")
   ; ("Წ", "წ"); ("Ჭ", "ჭ"); ("Ხ", "ხ"); ("Ჯ", "ჯ"); ("Ჰ", "ჰ"); ("Ჱ", "ჱ")
   ; ("Ჲ", "ჲ"); ("Ჳ", "ჳ"); ("Ჴ", "ჴ"); ("Ჵ", "ჵ"); ("Ჶ", "ჶ"); ("Ჷ", "ჷ")
   ; ("Ჸ", "ჸ"); ("Ჹ", "ჹ"); ("Ჺ", "ჺ"); ("Ჽ", "ჽ"); ("Ჾ", "ჾ"); ("Ჿ", "ჿ")
   ; ("Ḁ", "ḁ"); ("Ḃ", "ḃ"); ("Ḅ", "ḅ"); ("Ḇ", "ḇ"); ("Ḉ", "ḉ"); ("Ḋ", "ḋ")
   ; ("Ḍ", "ḍ"); ("Ḏ", "ḏ"); ("Ḑ", "ḑ"); ("Ḓ", "ḓ"); ("Ḕ", "ḕ"); ("Ḗ", "ḗ")
   ; ("Ḙ", "ḙ"); ("Ḛ", "ḛ"); ("Ḝ", "ḝ"); ("Ḟ", "ḟ"); ("Ḡ", "ḡ"); ("Ḣ", "ḣ")
   ; ("Ḥ", "ḥ"); ("Ḧ", "ḧ"); ("Ḩ", "ḩ"); ("Ḫ", "ḫ"); ("Ḭ", "ḭ"); ("Ḯ", "ḯ")
   ; ("Ḱ", "ḱ"); ("Ḳ", "ḳ"); ("Ḵ", "ḵ"); ("Ḷ", "ḷ"); ("Ḹ", "ḹ"); ("Ḻ", "ḻ")
   ; ("Ḽ", "ḽ"); ("Ḿ", "ḿ"); ("Ṁ", "ṁ"); ("Ṃ", "ṃ"); ("Ṅ", "ṅ"); ("Ṇ", "ṇ")
   ; ("Ṉ", "ṉ"); ("Ṋ", "ṋ"); ("Ṍ", "ṍ"); ("Ṏ", "ṏ"); ("Ṑ", "ṑ"); ("Ṓ", "ṓ")
   ; ("Ṕ", "ṕ"); ("Ṗ", "ṗ"); ("Ṙ", "ṙ"); ("Ṛ", "ṛ"); ("Ṝ", "ṝ"); ("Ṟ", "ṟ")
   ; ("Ṡ", "ṡ"); ("Ṣ", "ṣ"); ("Ṥ", "ṥ"); ("Ṧ", "ṧ"); ("Ṩ", "ṩ"); ("Ṫ", "ṫ")
   ; ("Ṭ", "ṭ"); ("Ṯ", "ṯ"); ("Ṱ", "ṱ"); ("Ṳ", "ṳ"); ("Ṵ", "ṵ"); ("Ṷ", "ṷ")
   ; ("Ṹ", "ṹ"); ("Ṻ", "ṻ"); ("Ṽ", "ṽ"); ("Ṿ", "ṿ"); ("Ẁ", "ẁ"); ("Ẃ", "ẃ")
   ; ("Ẅ", "ẅ"); ("Ẇ", "ẇ"); ("Ẉ", "ẉ"); ("Ẋ", "ẋ"); ("Ẍ", "ẍ"); ("Ẏ", "ẏ")
   ; ("Ẑ", "ẑ"); ("Ẓ", "ẓ"); ("Ẕ", "ẕ"); ("ẖ", "ẖ"); ("ẗ", "ẗ")
   ; ("ẘ", "ẘ"); ("ẙ", "ẙ"); ("ẚ", "aʾ"); ("ẛ", "ṡ"); ("ẞ", "ss")
   ; ("Ạ", "ạ"); ("Ả", "ả"); ("Ấ", "ấ"); ("Ầ", "ầ"); ("Ẩ", "ẩ"); ("Ẫ", "ẫ")
   ; ("Ậ", "ậ"); ("Ắ", "ắ"); ("Ằ", "ằ"); ("Ẳ", "ẳ"); ("Ẵ", "ẵ"); ("Ặ", "ặ")
   ; ("Ẹ", "ẹ"); ("Ẻ", "ẻ"); ("Ẽ", "ẽ"); ("Ế", "ế"); ("Ề", "ề"); ("Ể", "ể")
   ; ("Ễ", "ễ"); ("Ệ", "ệ"); ("Ỉ", "ỉ"); ("Ị", "ị"); ("Ọ", "ọ"); ("Ỏ", "ỏ")
   ; ("Ố", "ố"); ("Ồ", "ồ"); ("Ổ", "ổ"); ("Ỗ", "ỗ"); ("Ộ", "ộ"); ("Ớ", "ớ")
   ; ("Ờ", "ờ"); ("Ở", "ở"); ("Ỡ", "ỡ"); ("Ợ", "ợ"); ("Ụ", "ụ"); ("Ủ", "ủ")
   ; ("Ứ", "ứ"); ("Ừ", "ừ"); ("Ử", "ử"); ("Ữ", "ữ"); ("Ự", "ự"); ("Ỳ", "ỳ")
   ; ("Ỵ", "ỵ"); ("Ỷ", "ỷ"); ("Ỹ", "ỹ"); ("Ỻ", "ỻ"); ("Ỽ", "ỽ"); ("Ỿ", "ỿ")
   ; ("Ἀ", "ἀ"); ("Ἁ", "ἁ"); ("Ἂ", "ἂ"); ("Ἃ", "ἃ"); ("Ἄ", "ἄ"); ("Ἅ", "ἅ")
   ; ("Ἆ", "ἆ"); ("Ἇ", "ἇ"); ("Ἐ", "ἐ"); ("Ἑ", "ἑ"); ("Ἒ", "ἒ"); ("Ἓ", "ἓ")
   ; ("Ἔ", "ἔ"); ("Ἕ", "ἕ"); ("Ἠ", "ἠ"); ("Ἡ", "ἡ"); ("Ἢ", "ἢ"); ("Ἣ", "ἣ")
   ; ("Ἤ", "ἤ"); ("Ἥ", "ἥ"); ("Ἦ", "ἦ"); ("Ἧ", "ἧ"); ("Ἰ", "ἰ"); ("Ἱ", "ἱ")
   ; ("Ἲ", "ἲ"); ("Ἳ", "ἳ"); ("Ἴ", "ἴ"); ("Ἵ", "ἵ"); ("Ἶ", "ἶ"); ("Ἷ", "ἷ")
   ; ("Ὀ", "ὀ"); ("Ὁ", "ὁ"); ("Ὂ", "ὂ"); ("Ὃ", "ὃ"); ("Ὄ", "ὄ"); ("Ὅ", "ὅ")
   ; ("ὐ", "ὐ"); ("ὒ", "ὒ"); ("ὔ", "ὔ"); ("ὖ", "ὖ"); ("Ὑ", "ὑ")
   ; ("Ὓ", "ὓ"); ("Ὕ", "ὕ"); ("Ὗ", "ὗ"); ("Ὠ", "ὠ"); ("Ὡ", "ὡ"); ("Ὢ", "ὢ")
   ; ("Ὣ", "ὣ"); ("Ὤ", "ὤ"); ("Ὥ", "ὥ"); ("Ὦ", "ὦ"); ("Ὧ", "ὧ"); ("ᾀ", "ἀι")
   ; ("ᾁ", "ἁι"); ("ᾂ", "ἂι"); ("ᾃ", "ἃι"); ("ᾄ", "ἄι"); ("ᾅ", "ἅι")
   ; ("ᾆ", "ἆι"); ("ᾇ", "ἇι"); ("ᾈ", "ἀι"); ("ᾉ", "ἁι"); ("ᾊ", "ἂι")
   ; ("ᾋ", "ἃι"); ("ᾌ", "ἄι"); ("ᾍ", "ἅι"); ("ᾎ", "ἆι"); ("ᾏ", "ἇι")
   ; ("ᾐ", "ἠι"); ("ᾑ", "ἡι"); ("ᾒ", "ἢι"); ("ᾓ", "ἣι"); ("ᾔ", "ἤι")
   ; ("ᾕ", "ἥι"); ("ᾖ", "ἦι"); ("ᾗ", "ἧι"); ("ᾘ", "ἠι"); ("ᾙ", "ἡι")
   ; ("ᾚ", "ἢι"); ("ᾛ", "ἣι"); ("ᾜ", "ἤι"); ("ᾝ", "ἥι"); ("ᾞ", "ἦι")
   ; ("ᾟ", "ἧι"); ("ᾠ", "ὠι"); ("ᾡ", "ὡι"); ("ᾢ", "ὢι"); ("ᾣ", "ὣι")
   ; ("ᾤ", "ὤι"); ("ᾥ", "ὥι"); ("ᾦ", "ὦι"); ("ᾧ", "ὧι"); ("ᾨ", "ὠι")
   ; ("ᾩ", "ὡι"); ("ᾪ", "ὢι"); ("ᾫ", "ὣι"); ("ᾬ", "ὤι"); ("ᾭ", "ὥι")
   ; ("ᾮ", "ὦι"); ("ᾯ", "ὧι"); ("ᾲ", "ὰι"); ("ᾳ", "αι"); ("ᾴ", "άι")
   ; ("ᾶ", "ᾶ"); ("ᾷ", "ᾶι"); ("Ᾰ", "ᾰ"); ("Ᾱ", "ᾱ"); ("Ὰ", "ὰ")
   ; ("Ά", "ά"); ("ᾼ", "αι"); ("ι", "ι"); ("ῂ", "ὴι"); ("ῃ", "ηι")
   ; ("ῄ", "ήι"); ("ῆ", "ῆ"); ("ῇ", "ῆι"); ("Ὲ", "ὲ"); ("Έ", "έ")
   ; ("Ὴ", "ὴ"); ("Ή", "ή"); ("ῌ", "ηι"); ("ῒ", "ῒ"); ("ΐ", "ΐ")
   ; ("ῖ", "ῖ"); ("ῗ", "ῗ"); ("Ῐ", "ῐ"); ("Ῑ", "ῑ"); ("Ὶ", "ὶ")
   ; ("Ί", "ί"); ("ῢ", "ῢ"); ("ΰ", "ΰ"); ("ῤ", "ῤ"); ("ῦ", "ῦ")
   ; ("ῧ", "ῧ"); ("Ῠ", "ῠ"); ("Ῡ", "ῡ"); ("Ὺ", "ὺ"); ("Ύ", "ύ")
   ; ("Ῥ", "ῥ"); ("ῲ", "ὼι"); ("ῳ", "ωι"); ("ῴ", "ώι"); ("ῶ", "ῶ")
   ; ("ῷ", "ῶι"); ("Ὸ", "ὸ"); ("Ό", "ό"); ("Ὼ", "ὼ"); ("Ώ", "ώ")
   ; ("ῼ", "ωι"); ("Ω", "ω"); ("K", "k"); ("Å", "å"); ("Ⅎ", "ⅎ"); ("Ⅰ", "ⅰ")
   ; ("Ⅱ", "ⅱ"); ("Ⅲ", "ⅲ"); ("Ⅳ", "ⅳ"); ("Ⅴ", "ⅴ"); ("Ⅵ", "ⅵ"); ("Ⅶ", "ⅶ")
   ; ("Ⅷ", "ⅷ"); ("Ⅸ", "ⅸ"); ("Ⅹ", "ⅹ"); ("Ⅺ", "ⅺ"); ("Ⅻ", "ⅻ"); ("Ⅼ", "ⅼ")
   ; ("Ⅽ", "ⅽ"); ("Ⅾ", "ⅾ"); ("Ⅿ", "ⅿ"); ("Ↄ", "ↄ"); ("Ⓐ", "ⓐ"); ("Ⓑ", "ⓑ")
   ; ("Ⓒ", "ⓒ"); ("Ⓓ", "ⓓ"); ("Ⓔ", "ⓔ"); ("Ⓕ", "ⓕ"); ("Ⓖ", "ⓖ"); ("Ⓗ", "ⓗ")
   ; ("Ⓘ", "ⓘ"); ("Ⓙ", "ⓙ"); ("Ⓚ", "ⓚ"); ("Ⓛ", "ⓛ"); ("Ⓜ", "ⓜ"); ("Ⓝ", "ⓝ")
   ; ("Ⓞ", "ⓞ"); ("Ⓟ", "ⓟ"); ("Ⓠ", "ⓠ"); ("Ⓡ", "ⓡ"); ("Ⓢ", "ⓢ"); ("Ⓣ", "ⓣ")
   ; ("Ⓤ", "ⓤ"); ("Ⓥ", "ⓥ"); ("Ⓦ", "ⓦ"); ("Ⓧ", "ⓧ"); ("Ⓨ", "ⓨ"); ("Ⓩ", "ⓩ")
   ; ("Ⰰ", "ⰰ"); ("Ⰱ", "ⰱ"); ("Ⰲ", "ⰲ"); ("Ⰳ", "ⰳ"); ("Ⰴ", "ⰴ"); ("Ⰵ", "ⰵ")
   ; ("Ⰶ", "ⰶ"); ("Ⰷ", "ⰷ"); ("Ⰸ", "ⰸ"); ("Ⰹ", "ⰹ"); ("Ⰺ", "ⰺ"); ("Ⰻ", "ⰻ")
   ; ("Ⰼ", "ⰼ"); ("Ⰽ", "ⰽ"); ("Ⰾ", "ⰾ"); ("Ⰿ", "ⰿ"); ("Ⱀ", "ⱀ"); ("Ⱁ", "ⱁ")
   ; ("Ⱂ", "ⱂ"); ("Ⱃ", "ⱃ"); ("Ⱄ", "ⱄ"); ("Ⱅ", "ⱅ"); ("Ⱆ", "ⱆ"); ("Ⱇ", "ⱇ")
   ; ("Ⱈ", "ⱈ"); ("Ⱉ", "ⱉ"); ("Ⱊ", "ⱊ"); ("Ⱋ", "ⱋ"); ("Ⱌ", "ⱌ"); ("Ⱍ", "ⱍ")
   ; ("Ⱎ", "ⱎ"); ("Ⱏ", "ⱏ"); ("Ⱐ", "ⱐ"); ("Ⱑ", "ⱑ"); ("Ⱒ", "ⱒ"); ("Ⱓ", "ⱓ")
   ; ("Ⱔ", "ⱔ"); ("Ⱕ", "ⱕ"); ("Ⱖ", "ⱖ"); ("Ⱗ", "ⱗ"); ("Ⱘ", "ⱘ"); ("Ⱙ", "ⱙ")
   ; ("Ⱚ", "ⱚ"); ("Ⱛ", "ⱛ"); ("Ⱜ", "ⱜ"); ("Ⱝ", "ⱝ"); ("Ⱞ", "ⱞ"); ("Ⱟ", "ⱟ")
   ; ("Ⱡ", "ⱡ"); ("Ɫ", "ɫ"); ("Ᵽ", "ᵽ"); ("Ɽ", "ɽ"); ("Ⱨ", "ⱨ"); ("Ⱪ", "ⱪ")
   ; ("Ⱬ", "ⱬ"); ("Ɑ", "ɑ"); ("Ɱ", "ɱ"); ("Ɐ", "ɐ"); ("Ɒ", "ɒ"); ("Ⱳ", "ⱳ")
   ; ("Ⱶ", "ⱶ"); ("Ȿ", "ȿ"); ("Ɀ", "ɀ"); ("Ⲁ", "ⲁ"); ("Ⲃ", "ⲃ"); ("Ⲅ", "ⲅ")
   ; ("Ⲇ", "ⲇ"); ("Ⲉ", "ⲉ"); ("Ⲋ", "ⲋ"); ("Ⲍ", "ⲍ"); ("Ⲏ", "ⲏ"); ("Ⲑ", "ⲑ")
   ; ("Ⲓ", "ⲓ"); ("Ⲕ", "ⲕ"); ("Ⲗ", "ⲗ"); ("Ⲙ", "ⲙ"); ("Ⲛ", "ⲛ"); ("Ⲝ", "ⲝ")
   ; ("Ⲟ", "ⲟ"); ("Ⲡ", "ⲡ"); ("Ⲣ", "ⲣ"); ("Ⲥ", "ⲥ"); ("Ⲧ", "ⲧ"); ("Ⲩ", "ⲩ")
   ; ("Ⲫ", "ⲫ"); ("Ⲭ", "ⲭ"); ("Ⲯ", "ⲯ"); ("Ⲱ", "ⲱ"); ("Ⲳ", "ⲳ"); ("Ⲵ", "ⲵ")
   ; ("Ⲷ", "ⲷ"); ("Ⲹ", "ⲹ"); ("Ⲻ", "ⲻ"); ("Ⲽ", "ⲽ"); ("Ⲿ", "ⲿ"); ("Ⳁ", "ⳁ")
   ; ("Ⳃ", "ⳃ"); ("Ⳅ", "ⳅ"); ("Ⳇ", "ⳇ"); ("Ⳉ", "ⳉ"); ("Ⳋ", "ⳋ"); ("Ⳍ", "ⳍ")
   ; ("Ⳏ", "ⳏ"); ("Ⳑ", "ⳑ"); ("Ⳓ", "ⳓ"); ("Ⳕ", "ⳕ"); ("Ⳗ", "ⳗ"); ("Ⳙ", "ⳙ")
   ; ("Ⳛ", "ⳛ"); ("Ⳝ", "ⳝ"); ("Ⳟ", "ⳟ"); ("Ⳡ", "ⳡ"); ("Ⳣ", "ⳣ"); ("Ⳬ", "ⳬ")
   ; ("Ⳮ", "ⳮ"); ("Ⳳ", "ⳳ"); ("Ꙁ", "ꙁ"); ("Ꙃ", "ꙃ"); ("Ꙅ", "ꙅ"); ("Ꙇ", "ꙇ")
   ; ("Ꙉ", "ꙉ"); ("Ꙋ", "ꙋ"); ("Ꙍ", "ꙍ"); ("Ꙏ", "ꙏ"); ("Ꙑ", "ꙑ"); ("Ꙓ", "ꙓ")
   ; ("Ꙕ", "ꙕ"); ("Ꙗ", "ꙗ"); ("Ꙙ", "ꙙ"); ("Ꙛ", "ꙛ"); ("Ꙝ", "ꙝ"); ("Ꙟ", "ꙟ")
   ; ("Ꙡ", "ꙡ"); ("Ꙣ", "ꙣ"); ("Ꙥ", "ꙥ"); ("Ꙧ", "ꙧ"); ("Ꙩ", "ꙩ"); ("Ꙫ", "ꙫ")
   ; ("Ꙭ", "ꙭ"); ("Ꚁ", "ꚁ"); ("Ꚃ", "ꚃ"); ("Ꚅ", "ꚅ"); ("Ꚇ", "ꚇ"); ("Ꚉ", "ꚉ")
   ; ("Ꚋ", "ꚋ"); ("Ꚍ", "ꚍ"); ("Ꚏ", "ꚏ"); ("Ꚑ", "ꚑ"); ("Ꚓ", "ꚓ"); ("Ꚕ", "ꚕ")
   ; ("Ꚗ", "ꚗ"); ("Ꚙ", "ꚙ"); ("Ꚛ", "ꚛ"); ("Ꜣ", "ꜣ"); ("Ꜥ", "ꜥ"); ("Ꜧ", "ꜧ")
   ; ("Ꜩ", "ꜩ"); ("Ꜫ", "ꜫ"); ("Ꜭ", "ꜭ"); ("Ꜯ", "ꜯ"); ("Ꜳ", "ꜳ"); ("Ꜵ", "ꜵ")
   ; ("Ꜷ", "ꜷ"); ("Ꜹ", "ꜹ"); ("Ꜻ", "ꜻ"); ("Ꜽ", "ꜽ"); ("Ꜿ", "ꜿ"); ("Ꝁ", "ꝁ")
   ; ("Ꝃ", "ꝃ"); ("Ꝅ", "ꝅ"); ("Ꝇ", "ꝇ"); ("Ꝉ", "ꝉ"); ("Ꝋ", "ꝋ"); ("Ꝍ", "ꝍ")
   ; ("Ꝏ", "ꝏ"); ("Ꝑ", "ꝑ"); ("Ꝓ", "ꝓ"); ("Ꝕ", "ꝕ"); ("Ꝗ", "ꝗ"); ("Ꝙ", "ꝙ")
   ; ("Ꝛ", "ꝛ"); ("Ꝝ", "ꝝ"); ("Ꝟ", "ꝟ"); ("Ꝡ", "ꝡ"); ("Ꝣ", "ꝣ"); ("Ꝥ", "ꝥ")
   ; ("Ꝧ", "ꝧ"); ("Ꝩ", "ꝩ"); ("Ꝫ", "ꝫ"); ("Ꝭ", "ꝭ"); ("Ꝯ", "ꝯ"); ("Ꝺ", "ꝺ")
   ; ("Ꝼ", "ꝼ"); ("Ᵹ", "ᵹ"); ("Ꝿ", "ꝿ"); ("Ꞁ", "ꞁ"); ("Ꞃ", "ꞃ"); ("Ꞅ", "ꞅ")
   ; ("Ꞇ", "ꞇ"); ("Ꞌ", "ꞌ"); ("Ɥ", "ɥ"); ("Ꞑ", "ꞑ"); ("Ꞓ", "ꞓ"); ("Ꞗ", "ꞗ")
   ; ("Ꞙ", "ꞙ"); ("Ꞛ", "ꞛ"); ("Ꞝ", "ꞝ"); ("Ꞟ", "ꞟ"); ("Ꞡ", "ꞡ"); ("Ꞣ", "ꞣ")
   ; ("Ꞥ", "ꞥ"); ("Ꞧ", "ꞧ"); ("Ꞩ", "ꞩ"); ("Ɦ", "ɦ"); ("Ɜ", "ɜ"); ("Ɡ", "ɡ")
   ; ("Ɬ", "ɬ"); ("Ɪ", "ɪ"); ("Ʞ", "ʞ"); ("Ʇ", "ʇ"); ("Ʝ", "ʝ"); ("Ꭓ", "ꭓ")
   ; ("Ꞵ", "ꞵ"); ("Ꞷ", "ꞷ"); ("Ꞹ", "ꞹ"); ("Ꞻ", "ꞻ"); ("Ꞽ", "ꞽ"); ("Ꞿ", "ꞿ")
   ; ("Ꟁ", "ꟁ"); ("Ꟃ", "ꟃ"); ("Ꞔ", "ꞔ"); ("Ʂ", "ʂ"); ("Ᶎ", "ᶎ"); ("Ꟈ", "ꟈ")
   ; ("Ꟊ", "ꟊ"); ("Ꟑ", "ꟑ"); ("Ꟗ", "ꟗ"); ("Ꟙ", "ꟙ"); ("Ꟶ", "ꟶ"); ("ꭰ", "Ꭰ")
   ; ("ꭱ", "Ꭱ"); ("ꭲ", "Ꭲ"); ("ꭳ", "Ꭳ"); ("ꭴ", "Ꭴ"); ("ꭵ", "Ꭵ"); ("ꭶ", "Ꭶ")
   ; ("ꭷ", "Ꭷ"); ("ꭸ", "Ꭸ"); ("ꭹ", "Ꭹ"); ("ꭺ", "Ꭺ"); ("ꭻ", "Ꭻ"); ("ꭼ", "Ꭼ")
   ; ("ꭽ", "Ꭽ"); ("ꭾ", "Ꭾ"); ("ꭿ", "Ꭿ"); ("ꮀ", "Ꮀ"); ("ꮁ", "Ꮁ"); ("ꮂ", "Ꮂ")
   ; ("ꮃ", "Ꮃ"); ("ꮄ", "Ꮄ"); ("ꮅ", "Ꮅ"); ("ꮆ", "Ꮆ"); ("ꮇ", "Ꮇ"); ("ꮈ", "Ꮈ")
   ; ("ꮉ", "Ꮉ"); ("ꮊ", "Ꮊ"); ("ꮋ", "Ꮋ"); ("ꮌ", "Ꮌ"); ("ꮍ", "Ꮍ"); ("ꮎ", "Ꮎ")
   ; ("ꮏ", "Ꮏ"); ("ꮐ", "Ꮐ"); ("ꮑ", "Ꮑ"); ("ꮒ", "Ꮒ"); ("ꮓ", "Ꮓ"); ("ꮔ", "Ꮔ")
   ; ("ꮕ", "Ꮕ"); ("ꮖ", "Ꮖ"); ("ꮗ", "Ꮗ"); ("ꮘ", "Ꮘ"); ("ꮙ", "Ꮙ"); ("ꮚ", "Ꮚ")
   ; ("ꮛ", "Ꮛ"); ("ꮜ", "Ꮜ"); ("ꮝ", "Ꮝ"); ("ꮞ", "Ꮞ"); ("ꮟ", "Ꮟ"); ("ꮠ", "Ꮠ")
   ; ("ꮡ", "Ꮡ"); ("ꮢ", "Ꮢ"); ("ꮣ", "Ꮣ"); ("ꮤ", "Ꮤ"); ("ꮥ", "Ꮥ"); ("ꮦ", "Ꮦ")
   ; ("ꮧ", "Ꮧ"); ("ꮨ", "Ꮨ"); ("ꮩ", "Ꮩ"); ("ꮪ", "Ꮪ"); ("ꮫ", "Ꮫ"); ("ꮬ", "Ꮬ")
   ; ("ꮭ", "Ꮭ"); ("ꮮ", "Ꮮ"); ("ꮯ", "Ꮯ"); ("ꮰ", "Ꮰ"); ("ꮱ", "Ꮱ"); ("ꮲ", "Ꮲ")
   ; ("ꮳ", "Ꮳ"); ("ꮴ", "Ꮴ"); ("ꮵ", "Ꮵ"); ("ꮶ", "Ꮶ"); ("ꮷ", "Ꮷ"); ("ꮸ", "Ꮸ")
   ; ("ꮹ", "Ꮹ"); ("ꮺ", "Ꮺ"); ("ꮻ", "Ꮻ"); ("ꮼ", "Ꮼ"); ("ꮽ", "Ꮽ"); ("ꮾ", "Ꮾ")
   ; ("ꮿ", "Ꮿ"); ("ﬀ", "ff"); ("ﬁ", "fi"); ("ﬂ", "fl"); ("ﬃ", "ffi")
   ; ("ﬄ", "ffl"); ("ﬅ", "st"); ("ﬆ", "st"); ("ﬓ", "մն"); ("ﬔ", "մե")
   ; ("ﬕ", "մի"); ("ﬖ", "վն"); ("ﬗ", "մխ"); ("Ａ", "ａ"); ("Ｂ", "ｂ")
   ; ("Ｃ", "ｃ"); ("Ｄ", "ｄ"); ("Ｅ", "ｅ"); ("Ｆ", "ｆ"); ("Ｇ", "ｇ"); ("Ｈ", "ｈ")
   ; ("Ｉ", "ｉ"); ("Ｊ", "ｊ"); ("Ｋ", "ｋ"); ("Ｌ", "ｌ"); ("Ｍ", "ｍ"); ("Ｎ", "ｎ")
   ; ("Ｏ", "ｏ"); ("Ｐ", "ｐ"); ("Ｑ", "ｑ"); ("Ｒ", "ｒ"); ("Ｓ", "ｓ"); ("Ｔ", "ｔ")
   ; ("Ｕ", "ｕ"); ("Ｖ", "ｖ"); ("Ｗ", "ｗ"); ("Ｘ", "ｘ"); ("Ｙ", "ｙ"); ("Ｚ", "ｚ")
   ; ("𐐀", "𐐨"); ("𐐁", "𐐩"); ("𐐂", "𐐪"); ("𐐃", "𐐫"); ("𐐄", "𐐬"); ("𐐅", "𐐭")
   ; ("𐐆", "𐐮"); ("𐐇", "𐐯"); ("𐐈", "𐐰"); ("𐐉", "𐐱"); ("𐐊", "𐐲"); ("𐐋", "𐐳")
   ; ("𐐌", "𐐴"); ("𐐍", "𐐵"); ("𐐎", "𐐶"); ("𐐏", "𐐷"); ("𐐐", "𐐸"); ("𐐑", "𐐹")
   ; ("𐐒", "𐐺"); ("𐐓", "𐐻"); ("𐐔", "𐐼"); ("𐐕", "𐐽"); ("𐐖", "𐐾"); ("𐐗", "𐐿")
   ; ("𐐘", "𐑀"); ("𐐙", "𐑁"); ("𐐚", "𐑂"); ("𐐛", "𐑃"); ("𐐜", "𐑄"); ("𐐝", "𐑅")
   ; ("𐐞", "𐑆"); ("𐐟", "𐑇"); ("𐐠", "𐑈"); ("𐐡", "𐑉"); ("𐐢", "𐑊"); ("𐐣", "𐑋")
   ; ("𐐤", "𐑌"); ("𐐥", "𐑍"); ("𐐦", "𐑎"); ("𐐧", "𐑏"); ("𐒰", "𐓘"); ("𐒱", "𐓙")
   ; ("𐒲", "𐓚"); ("𐒳", "𐓛"); ("𐒴", "𐓜"); ("𐒵", "𐓝"); ("𐒶", "𐓞"); ("𐒷", "𐓟")
   ; ("𐒸", "𐓠"); ("𐒹", "𐓡"); ("𐒺", "𐓢"); ("𐒻", "𐓣"); ("𐒼", "𐓤"); ("𐒽", "𐓥")
   ; ("𐒾", "𐓦"); ("𐒿", "𐓧"); ("𐓀", "𐓨"); ("𐓁", "𐓩"); ("𐓂", "𐓪"); ("𐓃", "𐓫")
   ; ("𐓄", "𐓬"); ("𐓅", "𐓭"); ("𐓆", "𐓮"); ("𐓇", "𐓯"); ("𐓈", "𐓰"); ("𐓉", "𐓱")
   ; ("𐓊", "𐓲"); ("𐓋", "𐓳"); ("𐓌", "𐓴"); ("𐓍", "𐓵"); ("𐓎", "𐓶"); ("𐓏", "𐓷")
   ; ("𐓐", "𐓸"); ("𐓑", "𐓹"); ("𐓒", "𐓺"); ("𐓓", "𐓻"); ("𐕰", "𐖗"); ("𐕱", "𐖘")
   ; ("𐕲", "𐖙"); ("𐕳", "𐖚"); ("𐕴", "𐖛"); ("𐕵", "𐖜"); ("𐕶", "𐖝"); ("𐕷", "𐖞")
   ; ("𐕸", "𐖟"); ("𐕹", "𐖠"); ("𐕺", "𐖡"); ("𐕼", "𐖣"); ("𐕽", "𐖤"); ("𐕾", "𐖥")
   ; ("𐕿", "𐖦"); ("𐖀", "𐖧"); ("𐖁", "𐖨"); ("𐖂", "𐖩"); ("𐖃", "𐖪"); ("𐖄", "𐖫")
   ; ("𐖅", "𐖬"); ("𐖆", "𐖭"); ("𐖇", "𐖮"); ("𐖈", "𐖯"); ("𐖉", "𐖰"); ("𐖊", "𐖱")
   ; ("𐖌", "𐖳"); ("𐖍", "𐖴"); ("𐖎", "𐖵"); ("𐖏", "𐖶"); ("𐖐", "𐖷"); ("𐖑", "𐖸")
   ; ("𐖒", "𐖹"); ("𐖔", "𐖻"); ("𐖕", "𐖼"); ("𐲀", "𐳀"); ("𐲁", "𐳁"); ("𐲂", "𐳂")
   ; ("𐲃", "𐳃"); ("𐲄", "𐳄"); ("𐲅", "𐳅"); ("𐲆", "𐳆"); ("𐲇", "𐳇"); ("𐲈", "𐳈")
   ; ("𐲉", "𐳉"); ("𐲊", "𐳊"); ("𐲋", "𐳋"); ("𐲌", "𐳌"); ("𐲍", "𐳍"); ("𐲎", "𐳎")
   ; ("𐲏", "𐳏"); ("𐲐", "𐳐"); ("𐲑", "𐳑"); ("𐲒", "𐳒"); ("𐲓", "𐳓"); ("𐲔", "𐳔")
   ; ("𐲕", "𐳕"); ("𐲖", "𐳖"); ("𐲗", "𐳗"); ("𐲘", "𐳘"); ("𐲙", "𐳙"); ("𐲚", "𐳚")
   ; ("𐲛", "𐳛"); ("𐲜", "𐳜"); ("𐲝", "𐳝"); ("𐲞", "𐳞"); ("𐲟", "𐳟"); ("𐲠", "𐳠")
   ; ("𐲡", "𐳡"); ("𐲢", "𐳢"); ("𐲣", "𐳣"); ("𐲤", "𐳤"); ("𐲥", "𐳥"); ("𐲦", "𐳦")
   ; ("𐲧", "𐳧"); ("𐲨", "𐳨"); ("𐲩", "𐳩"); ("𐲪", "𐳪"); ("𐲫", "𐳫"); ("𐲬", "𐳬")
   ; ("𐲭", "𐳭"); ("𐲮", "𐳮"); ("𐲯", "𐳯"); ("𐲰", "𐳰"); ("𐲱", "𐳱"); ("𐲲", "𐳲")
   ; ("𑢠", "𑣀"); ("𑢡", "𑣁"); ("𑢢", "𑣂"); ("𑢣", "𑣃"); ("𑢤", "𑣄"); ("𑢥", "𑣅")
   ; ("𑢦", "𑣆"); ("𑢧", "𑣇"); ("𑢨", "𑣈"); ("𑢩", "𑣉"); ("𑢪", "𑣊"); ("𑢫", "𑣋")
   ; ("𑢬", "𑣌"); ("𑢭", "𑣍"); ("𑢮", "𑣎"); ("𑢯", "𑣏"); ("𑢰", "𑣐"); ("𑢱", "𑣑")
   ; ("𑢲", "𑣒"); ("𑢳", "𑣓"); ("𑢴", "𑣔"); ("𑢵", "𑣕"); ("𑢶", "𑣖"); ("𑢷", "𑣗")
   ; ("𑢸", "𑣘"); ("𑢹", "𑣙"); ("𑢺", "𑣚"); ("𑢻", "𑣛"); ("𑢼", "𑣜"); ("𑢽", "𑣝")
   ; ("𑢾", "𑣞"); ("𑢿", "𑣟"); ("𖹀", "𖹠"); ("𖹁", "𖹡"); ("𖹂", "𖹢"); ("𖹃", "𖹣")
   ; ("𖹄", "𖹤"); ("𖹅", "𖹥"); ("𖹆", "𖹦"); ("𖹇", "𖹧"); ("𖹈", "𖹨"); ("𖹉", "𖹩")
   ; ("𖹊", "𖹪"); ("𖹋", "𖹫"); ("𖹌", "𖹬"); ("𖹍", "𖹭"); ("𖹎", "𖹮"); ("𖹏", "𖹯")
   ; ("𖹐", "𖹰"); ("𖹑", "𖹱"); ("𖹒", "𖹲"); ("𖹓", "𖹳"); ("𖹔", "𖹴"); ("𖹕", "𖹵")
   ; ("𖹖", "𖹶"); ("𖹗", "𖹷"); ("𖹘", "𖹸"); ("𖹙", "𖹹"); ("𖹚", "𖹺"); ("𖹛", "𖹻")
   ; ("𖹜", "𖹼"); ("𖹝", "𖹽"); ("𖹞", "𖹾"); ("𖹟", "𖹿"); ("𞤀", "𞤢"); ("𞤁", "𞤣")
   ; ("𞤂", "𞤤"); ("𞤃", "𞤥"); ("𞤄", "𞤦"); ("𞤅", "𞤧"); ("𞤆", "𞤨"); ("𞤇", "𞤩")
   ; ("𞤈", "𞤪"); ("𞤉", "𞤫"); ("𞤊", "𞤬"); ("𞤋", "𞤭"); ("𞤌", "𞤮"); ("𞤍", "𞤯")
   ; ("𞤎", "𞤰"); ("𞤏", "𞤱"); ("𞤐", "𞤲"); ("𞤑", "𞤳"); ("𞤒", "𞤴"); ("𞤓", "𞤵")
   ; ("𞤔", "𞤶"); ("𞤕", "𞤷"); ("𞤖", "𞤸"); ("𞤗", "𞤹"); ("𞤘", "𞤺"); ("𞤙", "𞤻")
   ; ("𞤚", "𞤼"); ("𞤛", "𞤽"); ("𞤜", "𞤾"); ("𞤝", "𞤿"); ("𞤞", "𞥀"); ("𞤟", "𞥁")
   ; ("𞤠", "𞥂"); ("𞤡", "𞥃")].

End CaseData.

(** ** Strings *)

Module Str.

Definition code (c : ascii) : nat := nat_of_ascii c.

Definition is_lower (c : ascii) : bool :=
  (97 <=? code c) && (code c <=? 122).

Definition is_upper (c : ascii) : bool :=
  (65 <=? code c) && (code c <=? 90).

Definition upper_char (c : ascii) : ascii :=
  if is_lower c then ascii_of_nat (code c - 32) else c.

Definition lower_char (c : ascii) : ascii :=
  if is_upper c then ascii_of_nat (code c + 32) else c.

(** A string holds the UTF-8 bytes of a text.  The bytes of one character
    are a lead byte, which tells their number, and continuation bytes. *)
Definition is_cont (b : ascii) : bool :=
  (128 <=? code b) && (code b <? 192).

(** The number of bytes a lead byte announces; [0] for a byte that cannot
    lead. *)
Definition width (b : ascii) : nat :=
  if code b <? 128 then 1
  else if code b <? 192 then 0
  else if code b <? 224 then 2
  else if code b <? 240 then 3
  else if code b <? 248 then 4
  else 0.

(** The characters of a string, each as its bytes.  A byte that is not
    followed by the continuation bytes it announces stands alone. *)
Fixpoint groups (s : string) : list string :=
  match s with
  | EmptyString => []
  | String b1 s1 =>
      match width b1, s1 with
      | 2, String b2 s2 =>
          if is_cont b2
          then String b1 (String b2 EmptyString) :: groups s2
          else String b1 EmptyString :: groups s1
      | 3, String b2 (String b3 s3) =>
          if is_cont b2 && is_cont b3
          then String b1 (String b2 (String b3 EmptyString)) :: groups s3
          else String b1 EmptyString :: groups s1
      | 4, String b2 (String b3 (String b4 s4)) =>
          if is_cont b2 && is_cont b3 && is_cont b4
          then String b1 (String b2 (String b3 (String b4 EmptyString)))
               :: groups s4
          else String b1 EmptyString :: groups s1
      | _, _ => String b1 EmptyString :: groups s1
      end
  end.

(** A group that is a character: several bytes, or one ASCII byte. *)
Definition proper (g : string) : bool :=
  match g with
  | String b EmptyString => code b <? 128
  | _ => true
  end.

(** The strings that are the UTF-8 form of a text: no byte stands alone
    unless it is ASCII. *)
Definition well_formed (s : string) : bool := forallb proper (groups s).

Definition join (l : list string) : string := foldr String.append "" l.

Fixpoint assoc (g : string) (t : list (string * string)) : option string :=
  match t with
  | [] => None
  | (k, v) :: t' => if String.eqb k g then Some v else assoc g t'
  end.

(** A map of characters: by arithmetic on a single byte, from a table
    otherwise; a character without entry is left as it is. *)
Definition char_map (c : ascii -> ascii) (t : list (string * string))
    (g : string) : string :=
  match g with
  | String b EmptyString => String (c b) EmptyString
  | _ => default g (assoc g t)
  end.

(** The upper-case form of one character. *)
Definition upper_group : string -> string :=
  char_map upper_char CaseData.upper.

(** [String.prototype.toUpperCase]: every character is replaced by its
    upper-case form, which may be several characters. *)
Definition toUpperCase (s : string) : string :=
  join (map upper_group (groups s)).

(** Case folding, the yardstick for "differs only by case". *)
Definition fold_group : string -> string :=
  char_map lower_char CaseData.fold.

Definition fold_case (s : string) : string :=
  join (map fold_group (groups s)).

(** Whether a character is one of [cs], and whether the text of a string
    holds one of them. *)
Definition among (cs : list string) (g : string) : bool :=
  existsb (String.eqb g) cs.

Definition has_any (cs : list string) (s : string) : bool :=
  existsb (among cs) (groups s).

(** The UTF-8 bytes of the character with a given code point. *)
Definition byte (n : N) : ascii := ascii_of_N n.

Definition utf8 (n : N) : string :=
  (if n <? 128 then String (byte n) EmptyString
   else if n <? 2048 then
     String (byte (192 + n / 64))
       (String (byte (128 + n mod 64)) EmptyString)
   else if n <? 65536 then
     String (byte (224 + n / 4096))
       (String (byte (128 + (n / 64) mod 64))
          (String (byte (128 + n mod 64)) EmptyString))
   else
     String (byte (240 + n / 262144))
       (String (byte (128 + (n / 4096) mod 64))
          (String (byte (128 + (n / 64) mod 64))
             (String (byte (128 + n mod 64)) EmptyString))))%N.


(** The characters whose folded form has another upper-case form than
    they have: capital I with dot above (U+0130), the capital theta
    symbol (U+03F4), capital sharp s (U+1E9E), and the ohm (U+2126),
    kelvin (U+212A) and angstrom (U+212B) signs. *)
Definition own_upper_case : list string :=
  map utf8 [304; 1012; 7838; 8486; 8490; 8491]%N.

(** The check that mapping a character with the first table and then its
    image with the second gives what the second table gives for the
    character itself, for all characters of the first table but those
    excepted. *)
Definition agree (except : string -> bool) (c2 : ascii -> ascii)
    (t1 t2 : list (string * string)) : bool :=
  forallb
    (fun p =>
       except (fst p)
       || (well_formed (snd p)
           && String.eqb (join (map (char_map c2 t2) (groups (snd p))))
                         (char_map c2 t2 (fst p))))
    t1.

(** The class [\s]: tab, line feed, vertical tab, form feed, carriage
    return and space. *)
Definition is_space (c : ascii) : bool :=
  ((9 <=? code c) && (code c <=? 13)) || (code c =? 32).

(** [String.prototype.slice(start, end)] on non-negative indices: both
    ends are clamped to the length, an inverted range is empty. *)
Definition slice (s : string) (from to : nat) : string :=
  substring from (to - from) s.

(** [s.replace(/\s/g, '')]. *)
Fixpoint strip_spaces (s : string) : string :=
  match s with
  | EmptyString => EmptyString
  | String c s' =>
      if is_space c then strip_spaces s' else String c (strip_spaces s')
  end.

Fixpoint all_space (s : string) : bool :=
  match s with
  | EmptyString => true
  | String c s' => is_space c && all_space s'
  end.

End Str.

(** ** JavaScript values handed to a rule as its option *)

Inductive JsVal : Type :=
| JUndefined
| JBool (b : bool)
| JNum (n : nat)
| JStr (s : string).

Module Js.

(** Truthiness of a value used as a condition. *)
Definition truthy (v : JsVal) : bool :=
  match v with
  | JUndefined => false
  | JBool b => b
  | JNum n => negb (n =? 0)
  | JStr s => negb (String.eqb s "")
  end.

(** The string a value becomes under [+] with a string operand. *)
Definition to_string (v : JsVal) : string :=
  match v with
  | JUndefined => "undefined"
  | JBool true => "true"
  | JBool false => "false"
  | JNum n => pretty n
  | JStr s => s
  end.

(** [a !== b] with a number on the left. *)
Definition num_strict_ne (a : nat) (v : JsVal) : bool :=
  match v with
  | JNum b => negb (a =? b)
  | _ => true
  end.

End Js.

(** ** Syntax trees (unist, mdast) *)

Record Point : Type := MkPoint {
  line : nat;
  column : nat;
  offset : option nat
}.

Record Position : Type := MkPosition {
  pos_start : Point;
  pos_end : Point
}.

(** A node carries its [type] tag, an optional [position], and the fields
    the rules read: [depth] (headings), [ordered] (lists), [value] (html
    and text literals; the empty string when absent), [alt] (images; the
    empty string when absent) and [children]. *)
#[warnings="-register-all"]
Inductive Node : Type := MkNode {
  type : string;
  position : option Position;
  depth : nat;
  ordered : bool;
  value : string;
  alt : string;
  children : list Node
}.

(** Induction over trees: the children of a node satisfy the property. *)
Section NodeInduction.

Variable P : Node -> Prop.
Hypothesis step :
  forall t p d o v a cs, Forall P cs -> P (MkNode t p d o v a cs).

Fixpoint Node_ind_children (node : Node) : P node :=
  match node with
  | MkNode t p d o v a cs =>
      step t p d o v a cs
        ((fix all (l : list Node) : Forall P l :=
            match l with
            | [] => @List.Forall_nil _ P
            | c :: l' =>
                @List.Forall_cons _ P c l' (Node_ind_children c) (all l')
            end) cs)
  end.

End NodeInduction.

Module Unist.

(** [generated] of unist-util-generated: no position, or a start or end
    point whose line or column is missing or zero. *)
Definition generated (node : Node) : bool :=
  match position node with
  | None => true
  | Some p =>
      (line (pos_start p) =? 0) || (column (pos_start p) =? 0)
      || (line (pos_end p) =? 0) || (column (pos_end p) =? 0)
  end.

(** A point all of whose fields are [null]; a line or column of [0]
    stands for [null]. *)
Definition null_point : Point :=
  {| line := 0; column := 0; offset := None |}.

(** [pointStart] and [pointEnd] of unist-util-position 4, used by the
    rules that dereference the result unguarded: always a point, with
    [null] fields where the node has none. *)
Definition pointStart (node : option Node) : Point :=
  match node with
  | Some n =>
      match position n with
      | Some p => pos_start p
      | None => null_point
      end
  | None => null_point
  end.

Definition pointEnd (node : option Node) : Point :=
  match node with
  | Some n =>
      match position n with
      | Some p => pos_end p
      | None => null_point
      end
  | None => null_point
  end.

(** [pointStart] of unist-util-position 5, used by the rule that tests
    the result with [!start]: a point only when line and column are
    positive numbers. *)
Definition pointStart5 (node : Node) : option Point :=
  match position node with
  | Some p =>
      if (0 <? line (pos_start p)) && (0 <? column (pos_start p))
      then Some (pos_start p)
      else None
  | None => None
  end.

(** [stringifyPosition] on a point: a missing line or column prints
    as [1]. *)
Definition index (v : nat) : nat := if v =? 0 then 1 else v.

Definition stringifyPosition (p : Point) : string :=
  pretty (index (line p)) +:+ ":" +:+ pretty (index (column p)).

(** [toString] of mdast-util-to-string: the node's own value when it has
    one, otherwise its alternative text when it has one, otherwise the
    text of its children, concatenated. *)
Fixpoint toString (node : Node) : string :=
  match node with
  | MkNode _ _ _ _ v a cs =>
      if negb (String.eqb v "") then v
      else if negb (String.eqb a "") then a
      else
        (fix all (l : list Node) : string :=
           match l with
           | [] => ""
           | c :: l' => toString c +:+ all l'
           end) cs
  end.

(** The offsets given to [String.prototype.slice]: [null] counts
    as [0]. *)
Definition offset_or_0 (p : Point) : nat := default 0 (offset p).

End Unist.

(** ** The file a rule reports to (vfile) *)

Inductive Place : Type :=
| AtNode (node : Node)
| AtPoint (point : Point)
| NoPlace.

Record Message : Type := MkMessage {
  reason : string;
  place : Place;
  fatal : bool
}.

(** What a rule body can throw: the message [file.fail] raises, or the
    [TypeError] of a property read on [null]. *)
Inductive Exn : Type :=
| VFileFailure (m : Message)
| TypeError.

(** What a visitor hands back to the walker.  [CONTINUE] is the
    [undefined] of a visitor that returns nothing; [THROW] is an exception
    escaping the visitor. *)
Inductive Signal : Type :=
| CONTINUE
| EXIT
| THROW (e : Exn).

(** The result of running a rule body: the exception that escaped it, if
    any, and the messages of the file afterwards. *)
Record Outcome : Type := MkOutcome {
  thrown : option Exn;
  messages : list Message
}.

Module VFile.

(** [file.message(reason, place)] appends a warning. *)
Definition message (r : string) (p : Place) (file : list Message)
  : list Message :=
  file ++ [MkMessage r p false].

(** [file.fail(reason)] appends the message marked fatal and throws
    it. *)
Definition fail (r : string) (file : list Message) : Outcome :=
  let m := MkMessage r NoPlace true in
  MkOutcome (Some (VFileFailure m)) (file ++ [m]).

End VFile.

(** ** Walking the tree (unist-util-visit-parents, unist-util-visit) *)

Module Walker.

Section Visit.

Context {S : Type}.
Variable test : Node -> bool.
Variable visitor : Node -> list Node -> S -> Signal * S.

(** One node: call the visitor when the test passes, then, unless it
    asked to stop, the children from left to right with this node
    pushed on the ancestor chain. *)
Fixpoint visit_node (parents : list Node) (node : Node) (s : S)
  : Signal * S :=
  match node with
  | MkNode _ _ _ _ _ _ cs =>
      let r := if test node then visitor node parents s
               else (CONTINUE, s) in
      match fst r with
      | CONTINUE =>
          (fix each (l : list Node) (s : S) : Signal * S :=
             match l with
             | [] => (CONTINUE, s)
             | c :: l' =>
                 let r' := visit_node (parents ++ [node]) c s in
                 match fst r' with
                 | CONTINUE => each l' (snd r')
                 | _ => r'
                 end
             end) cs (snd r)
      | _ => r
      end
  end.

Definition visitParents (tree : Node) (s : S) : Signal * S :=
  visit_node [] tree s.

End Visit.

(** [visit(tree, test, visitor)]: the visitor sees the node only. *)
Definition visit {S : Type} (test : Node -> bool)
    (visitor : Node -> S -> Signal * S) (tree : Node) (s : S)
  : Signal * S :=
  visitParents test (fun node _ => visitor node) tree s.

(** A string test such as ['heading'] selects by [type]; a call without
    test visits every node. *)
Definition is_type (t : string) (node : Node) : bool :=
  String.eqb (type node) t.

Definition any (node : Node) : bool := true.

(** The visits of a full traversal, in order: each node with its
    ancestor chain. *)
Fixpoint visits (parents : list Node) (node : Node)
  : list (Node * list Node) :=
  match node with
  | MkNode _ _ _ _ _ _ cs =>
      (node, parents) ::
      (fix each (l : list Node) : list (Node * list Node) :=
         match l with
         | [] => []
         | c :: l' => visits (parents ++ [node]) c ++ each l'
         end) cs
  end.

(** The nodes of the tree in document order. *)
Definition preorder (tree : Node) : list Node :=
  map fst (visits [] tree).

(** The visitor behind the test: nodes that fail it are passed over. *)
Definition guarded {S : Type} (test : Node -> bool)
    (visitor : Node -> list Node -> S -> Signal * S)
    (node : Node) (parents : list Node) (s : S) : Signal * S :=
  if test node then visitor node parents s else (CONTINUE, s).

(** Running a visitor over a sequence of visits, stopping at the first
    signal other than [CONTINUE]. *)
Fixpoint run_visits {S : Type}
    (visitor : Node -> list Node -> S -> Signal * S)
    (l : list (Node * list Node)) (s : S) : Signal * S :=
  match l with
  | [] => (CONTINUE, s)
  | (n, ps) :: l' =>
      let r := visitor n ps s in
      match fst r with
      | CONTINUE => run_visits visitor l' (snd r)
      | _ => r
      end
  end.

(** The same for a visitor that looks at the node only. *)
Fixpoint run_nodes {S : Type} (visitor : Node -> S -> Signal * S)
    (l : list Node) (s : S) : Signal * S :=
  match l with
  | [] => (CONTINUE, s)
  | n :: l' =>
      let r := visitor n s in
      match fst r with
      | CONTINUE => run_nodes visitor l' (snd r)
      | _ => r
      end
  end.

End Walker.

(** What is left of a walk once the rule body returns: the exception, if
    one escaped, and the file. *)
Definition outcome_of {S : Type} (file_of : S -> list Message)
    (r : Signal * S) : Outcome :=
  MkOutcome (match fst r with THROW e => Some e | _ => None end)
            (file_of (snd r)).

(** ** no-duplicate-headings-in-section *)

Module NoDuplicateHeadingsInSection.

(** [stack] is an array of scope objects; a scope maps the upper-cased
    text of a heading to the heading node.  Array slots never written
    (holes) read as [undefined]: [None].  The keys are upper-cased, and
    every name an object inherits from its prototype has a lower-case
    letter, so a scope behaves as a plain finite map. *)
Abbreviation Scope := (gmap string Node).
Abbreviation Stack := (list (option Scope)).

(** [stack[index] = x]: writing at or past the length grows the array,
    leaving holes in between. *)
Definition array_set {A : Type} (l : list (option A)) (i : nat) (x : A)
  : list (option A) :=
  if i <? length l then <[i := Some x]> l
  else l ++ replicate (i - length l) None ++ [Some x].

(** [stack[index]]. *)
Definition array_get {A : Type} (l : list (option A)) (i : nat)
  : option A :=
  match l !! i with
  | Some (Some x) => Some x
  | _ => None
  end.

(** The key under which a heading is recorded and looked up. *)
Definition key (node : Node) : string :=
  Str.toUpperCase (Unist.toString node).

Definition duplicate_reason (duplicate : Node) : string :=
  "Do not use headings with similar content per section ("
  +:+ Unist.stringifyPosition (Unist.pointStart (Some duplicate))
  +:+ ")".

(** The visitor.  [scope] is the object held in [stack[index]], created
    there when the slot is empty, so the assignment [scope[value] = node]
    is seen through the stack; [stack.slice(0, depth)] keeps the slots
    [0 .. depth - 1].  With [depth = 0] the index is [-1]: no array slot
    is read or written and the slice is empty. *)
Definition onHeading (node : Node) (st : Stack * list Message)
  : Signal * (Stack * list Message) :=
  let stack := fst st in
  let file := snd st in
  let value := key node in
  match depth node with
  | 0 => (CONTINUE, ([], file))
  | S index =>
      let scope := default ∅ (array_get stack index) in
      let duplicate := scope !! value in
      let file' :=
        match duplicate with
        | Some d =>
            if negb (Unist.generated node)
            then VFile.message (duplicate_reason d) (AtNode node) file
            else file
        | None => file
        end in
      let stack' := array_set stack index (<[value := node]> scope) in
      (CONTINUE, (take (S index) stack', file'))
  end.

Definition remarkLintNoDuplicateHeadingsInSection (tree : Node)
    (file : list Message) : Outcome :=
  outcome_of snd
    (Walker.visit (Walker.is_type "heading") onHeading tree ([], file)).

(** The heading nodes of a tree in document order. *)
Definition headings (tree : Node) : list Node :=
  filter (fun n => Walker.is_type "heading" n = true)
         (Walker.preorder tree).

(** The visitor applied to a sequence of headings, from a given stack
    and file. *)
Definition run (hs : list Node) (st : Stack * list Message)
  : Stack * list Message :=
  foldl (fun st h => snd (onHeading h st)) st hs.

(** The messages the rule has produced once the headings [hs] have been
    visited. *)
Definition emitted (hs : list Node) : list Message :=
  snd (run hs ([], [])).

(** The messages added by the visits of [hs] when the headings [before]
    were visited before them. *)
Definition emitted_after (before hs : list Node) : list Message :=
  snd (run hs (fst (run before ([], [])), [])).

(** The messages added by the visit of [h] when the headings [before]
    were visited before it. *)
Definition reported (before : list Node) (h : Node) : list Message :=
  emitted_after before [h].

(** The heading a new heading of depth [d] and key [k] is compared
    with, given the headings visited so far, most recent first: the
    nearest one of that depth and key, unless a heading of smaller depth
    comes before it is reached. *)
Fixpoint seen_rev (recent : list Node) (d : nat) (k : string)
  : option Node :=
  match recent with
  | [] => None
  | h :: older =>
      if depth h <? d then None
      else if (depth h =? d) && String.eqb (key h) k then Some h
      else seen_rev older d k
  end.

Definition seen (hs : list Node) (d : nat) (k : string) : option Node :=
  seen_rev (rev hs) d k.

(** What the stack holds for depth [d] and key [k]. *)
Definition recorded (stack : Stack) (d : nat) (k : string)
  : option Node :=
  match d with
  | 0 => None
  | S index => array_get stack index ≫= (fun scope => scope !! k)
  end.

End NoDuplicateHeadingsInSection.

(** ** no-heading-indent *)

Module NoHeadingIndent.

(** [pluralize(word, count)] for a regular noun. *)
Definition pluralize (word : string) (count : nat) : string :=
  if count =? 1 then word else word +:+ "s".

Definition indent_reason (actual : nat) : string :=
  "Unexpected `" +:+ pretty actual +:+ "` "
  +:+ pluralize "space" actual
  +:+ " before heading, expected `0` spaces, remove"
  +:+ " `" +:+ pretty actual +:+ "` "
  +:+ pluralize "space" actual.

Definition onHeading (node : Node) (parents : list Node)
    (file : list Message) : Signal * list Message :=
  let parent := last parents in
  let start := Unist.pointStart5 node in
  match start, parent with
  | Some st, Some p =>
      if negb (String.eqb (type p) "root") then (CONTINUE, file)
      else
        let actual := column st - 1 in
        if actual =? 0 then (CONTINUE, file)
        else (CONTINUE,
              VFile.message (indent_reason actual) (AtPoint st) file)
  | _, _ => (CONTINUE, file)
  end.

Definition remarkLintNoHeadingIndent (tree : Node) (file : list Message)
  : Outcome :=
  outcome_of id
    (Walker.visitParents (Walker.is_type "heading") onHeading tree file).

(** The messages added by the visit of one heading. *)
Definition reported (node : Node) (parents : list Node) : list Message :=
  snd (onHeading node parents []).

(** The visits of the heading nodes of a tree, in document order. *)
Definition heading_visits (tree : Node) : list (Node * list Node) :=
  filter (fun v => Walker.is_type "heading" (fst v) = true)
         (Walker.visits [] tree).

End NoHeadingIndent.

(** ** first-heading-level *)

Module FirstHeadingLevel.

(** The digits [1] to [6], the class of the capture group. *)
Definition rank_digit (c : ascii) : option nat :=
  if (49 <=? Str.code c) && (Str.code c <=? 54)
  then Some (Str.code c - 48) else None.

(** The pattern [/<h([1-6])/] tried at the start of [s]: the number
    the capture group denotes. *)
Definition re_here (s : string) : option nat :=
  match s with
  | String "<" (String "h" (String d _)) => rank_digit d
  | _ => None
  end.

(** [s.match(re)]: the pattern has no anchor and no flag, so the
    leftmost position where it matches is taken. *)
Fixpoint re_match (s : string) : option nat :=
  match s with
  | EmptyString => None
  | String _ s' =>
      match re_here s with
      | Some r => Some r
      | None => re_match s'
      end
  end.

(** [infer(node)]. *)
Definition infer (node : Node) : option nat :=
  re_match (value node).

(** [option && option !== true ? option : 1], with [opt] for the
    rule's [option]. *)
Definition preferred_of (opt : JsVal) : JsVal :=
  match opt with
  | JBool true => JNum 1
  | v => if Js.truthy v then v else JNum 1
  end.

Definition rank_of (node : Node) : option nat :=
  if String.eqb (type node) "heading" then Some (depth node)
  else if String.eqb (type node) "html" then infer node
  else None.

Definition level_reason (preferred : JsVal) : string :=
  "First heading level should be `" +:+ Js.to_string preferred +:+ "`".

Definition onNode (preferred : JsVal) (node : Node)
    (file : list Message) : Signal * list Message :=
  if negb (Unist.generated node) then
    match rank_of node with
    | Some rank =>
        (EXIT,
         if Js.num_strict_ne rank preferred
         then VFile.message (level_reason preferred) (AtNode node) file
         else file)
    | None => (CONTINUE, file)
    end
  else (CONTINUE, file).

Definition remarkLintFirstHeadingLevel (tree : Node) (opt : JsVal)
    (file : list Message) : Outcome :=
  let preferred := preferred_of opt in
  outcome_of id (Walker.visit Walker.any (onNode preferred) tree file).

End FirstHeadingLevel.

(** ** unordered-list-marker-style *)

Module UnorderedListMarkerStyle.

(** The table [styles].  Its key [undefined] is the property name the
    value [undefined] turns into when used as an index.  Names found
    only on the prototype chain hold functions or objects, never
    [true], so they read like absent keys under [!== true]. *)
Definition styles : gmap string bool :=
  <["-" := true]> (<["*" := true]> (<["+" := true]>
    (<["undefined" := true]> ∅))).

(** A variable holding [undefined] or a string. *)
Definition property_key (preferred : option string) : string :=
  default "undefined" preferred.

Definition truthy (preferred : option string) : bool :=
  match preferred with
  | Some s => negb (String.eqb s "")
  | None => false
  end.

(** [typeof option === 'string' && option !== 'consistent'
     ? option : undefined]. *)
Definition preferred_of (opt : JsVal) : option string :=
  match opt with
  | JStr s => if String.eqb s "consistent" then None else Some s
  | _ => None
  end.

Definition incorrect_reason (preferred : option string) : string :=
  "Incorrect unordered list item marker style `"
  +:+ property_key preferred
  +:+ "`: use either `'-'`, `'*'`, or `'+'`".

(** The text of the fatal error as the specification words it. *)
Definition spec_incorrect_reason (v : string) : string :=
  "Incorrect unordered list item marker style `" +:+ v
  +:+ "`: use either '-', '*', or '+'".

Definition marker_reason (preferred : string) : string :=
  "Marker style should be `" +:+ preferred +:+ "`".

(** The pattern [/\[[x ]?]\s*$/i] tried at the start of [s]. *)
Definition checkbox_here (s : string) : bool :=
  match s with
  | String "[" (String c s2) =>
      (match c, s2 with
       | ("x" | "X" | " ")%char, String "]" s3 => Str.all_space s3
       | _, _ => false
       end)
      || (if Ascii.eqb c "]" then Str.all_space s2 else false)
  | _ => false
  end.

(** [s.replace(/\[[x ]?]\s*$/i, '')]: the leftmost match runs to the
    end of the string and is removed. *)
Fixpoint strip_checkbox (s : string) : string :=
  match s with
  | EmptyString => EmptyString
  | String c s' =>
      if checkbox_here s then EmptyString
      else String c (strip_checkbox s')
  end.

Definition marker_of (value : string) (child : Node) : string :=
  Str.strip_spaces
    (strip_checkbox
       (Str.slice value
          (Unist.offset_or_0 (Unist.pointStart (Some child)))
          (Unist.offset_or_0 (Unist.pointStart (head (children child)))))).

(** The body of the [while] loop for one list item. *)
Definition onItem (value : string) (st : option string * list Message)
    (child : Node) : option string * list Message :=
  let preferred := fst st in
  let file := snd st in
  if negb (Unist.generated child) then
    let marker := marker_of value child in
    if truthy preferred then
      if negb (String.eqb marker (property_key preferred))
      then (preferred,
            VFile.message (marker_reason (property_key preferred))
                          (AtNode child) file)
      else st
    else (Some marker, file)
  else st.

Definition onList (value : string) (node : Node)
    (st : option string * list Message)
  : Signal * (option string * list Message) :=
  if ordered node then (CONTINUE, st)
  else (CONTINUE, foldl (onItem value) st (children node)).

Definition remarkLintUnorderedListMarkerStyle (tree : Node)
    (value : string) (opt : JsVal) (file : list Message) : Outcome :=
  let preferred := preferred_of opt in
  if negb (bool_decide (styles !! property_key preferred = Some true))
  then VFile.fail (incorrect_reason preferred) file
  else
    outcome_of snd
      (Walker.visit (Walker.is_type "list") (onList value) tree
         (preferred, file)).

End UnorderedListMarkerStyle.

(** ** definition-spacing *)

Module DefinitionSpacing.

Definition is_bracket (c : ascii) : bool :=
  Ascii.eqb c "[" || Ascii.eqb c "]".

Definition is_backslash (c : ascii) : bool := Str.code c =? 92.

(** The repeated group [(?:\\[\s\S]|[^[\]])] of the pattern [label],
    once at least one round has matched, followed by the closing
    bracket: another round is tried first (the escape alternative before
    the plain one), the closing bracket last, as a backtracking matcher
    does.  The result is what the rounds consumed. *)
Fixpoint label_rest (s : string) : option string :=
  match s with
  | EmptyString => None
  | String c s1 =>
      let escaped :=
        if is_backslash c then
          match s1 with
          | String c2 s2 =>
              (fun g => String c (String c2 g)) <$> label_rest s2
          | EmptyString => None
          end
        else None in
      match escaped with
      | Some g => Some g
      | None =>
          let plain :=
            if is_bracket c then None
            else String c <$> label_rest s1 in
          match plain with
          | Some g => Some g
          | None => if Ascii.eqb c "]" then Some EmptyString else None
          end
      end
  end.

(** The first round of the group, which the [+] demands. *)
Definition label_group (s : string) : option string :=
  match s with
  | EmptyString => None
  | String c s1 =>
      let escaped :=
        if is_backslash c then
          match s1 with
          | String c2 s2 =>
              (fun g => String c (String c2 g)) <$> label_rest s2
          | EmptyString => None
          end
        else None in
      match escaped with
      | Some g => Some g
      | None =>
          if is_bracket c then None
          else String c <$> label_rest s1
      end
  end.

Fixpoint skip_spaces (s : string) : string :=
  match s with
  | EmptyString => EmptyString
  | String c s' => if Str.is_space c then skip_spaces s' else s
  end.

(** [s.match(label)], reduced to what the rule reads of it: [None] for
    [null], otherwise the first capture group. *)
Definition label_match (s : string) : option string :=
  match skip_spaces s with
  | String "[" s1 => label_group s1
  | _ => None
  end.

(** The class [[ \t\n]]. *)
Definition is_blank (c : ascii) : bool :=
  (Str.code c =? 32) || (Str.code c =? 9) || (Str.code c =? 10).

(** [/[ \t\n]{2,}/.test(s)]. *)
Fixpoint consecutive_whitespace (s : string) : bool :=
  match s with
  | String c1 ((String c2 _) as s') =>
      (is_blank c1 && is_blank c2) || consecutive_whitespace s'
  | _ => false
  end.

Definition spacing_reason : string :=
  "Do not use consecutive whitespace in definition labels".

Definition is_definition (node : Node) : bool :=
  String.eqb (type node) "definition"
  || String.eqb (type node) "footnoteDefinition".

(** The visitor: reading index [1] of a [null] match throws. *)
Definition onNode (value : string) (node : Node) (file : list Message)
  : Signal * list Message :=
  if is_definition node && negb (Unist.generated node) then
    let start := Unist.offset_or_0 (Unist.pointStart (Some node)) in
    let end_ := Unist.offset_or_0 (Unist.pointEnd (Some node)) in
    match label_match (Str.slice value start end_) with
    | None => (THROW TypeError, file)
    | Some group =>
        if consecutive_whitespace group
        then (CONTINUE, VFile.message spacing_reason (AtNode node) file)
        else (CONTINUE, file)
    end
  else (CONTINUE, file).

Definition remarkLintDefinitionSpacing (tree : Node) (value : string)
    (file : list Message) : Outcome :=
  outcome_of id (Walker.visit Walker.any (onNode value) tree file).

End DefinitionSpacing.

(** ** The rules behind one interface *)

(** The body of a rule: the tree, the source text of the file, the
    option, and the messages the file holds already. *)
Definition RuleBody : Type :=
  Node -> string -> JsVal -> list Message -> Outcome.

(** ** Variables, from one call of a rule to the next

    The variables the rules read and assign are the cells of a store
    that lasts as long as the program.  A declaration at the top of a
    module is evaluated once, when the module is loaded: [const styles]
    (index.js:215).  A declaration in the body of a rule is evaluated at
    each call and makes a new variable: [let stack] of
    no-duplicate-headings-in-section (index.js:72) and [let preferred] of
    unordered-list-marker-style (index.js:226).  The visitors are
    closures over these variables.  The other declarations ([re],
    [label], [value], and [preferred] of first-heading-level) are
    constants whose value is never changed after it is made: the two
    patterns have no [g] or [y] flag, so that [match] and [test] start at
    the first character whatever their [lastIndex] is, and leave it as it
    is. *)

Module Env.

Inductive Binding : Type :=
| StylesObject (o : gmap string bool)
| StackVar (stack : NoDuplicateHeadingsInSection.Stack)
| PreferredVar (preferred : option string).

Abbreviation Store := (list Binding).

(** A declaration: the variable is a new cell. *)
Definition declare (b : Binding) (store : Store) : nat * Store :=
  (length store, store ++ [b]).

(** An assignment, or a change of the object the variable holds. *)
Definition assign (x : nat) (b : Binding) (store : Store) : Store :=
  <[x := b]> store.

(** The store once the modules are loaded. *)
Definition styles_var : nat := 0.

Definition loaded : Store :=
  [StylesObject UnorderedListMarkerStyle.styles].

(** The object [styles] is as it was made. *)
Definition intact (store : Store) : Prop :=
  store !! styles_var = Some (StylesObject UnorderedListMarkerStyle.styles).

Definition read_styles (store : Store) : gmap string bool :=
  match store !! styles_var with
  | Some (StylesObject o) => o
  | _ => ∅
  end.

Definition read_stack (x : nat) (store : Store)
  : NoDuplicateHeadingsInSection.Stack :=
  match store !! x with
  | Some (StackVar stack) => stack
  | _ => []
  end.

Definition read_preferred (x : nat) (store : Store) : option string :=
  match store !! x with
  | Some (PreferredVar preferred) => preferred
  | _ => None
  end.

(** A visitor that is a closure over the variable [x]: what its body
    does to the value of the variable is done to the cell. *)
Definition closure {X : Type} (read : nat -> Store -> X)
    (var : X -> Binding) (x : nat)
    (body : Node -> X * list Message -> Signal * (X * list Message))
    (node : Node) (st : Store * list Message)
  : Signal * (Store * list Message) :=
  let r := body node (read x (fst st), snd st) in
  (fst r, (assign x (var (fst (snd r))) (fst st), snd (snd r))).

(** A call of a rule: the tree, the source text, the option, and the
    store and the messages of the file at the time of the call; it gives
    the outcome and the store it leaves. *)
Definition Call : Type :=
  Node -> string -> JsVal -> Store * list Message -> Outcome * Store.

Definition remarkLintNoDuplicateHeadingsInSection : Call :=
  fun tree _ _ st =>
    let stack := declare (StackVar []) (fst st) in
    let r :=
      Walker.visit (Walker.is_type "heading")
        (closure read_stack StackVar (fst stack)
           NoDuplicateHeadingsInSection.onHeading)
        tree (snd stack, snd st) in
    (outcome_of snd r, fst (snd r)).

Definition remarkLintUnorderedListMarkerStyle : Call :=
  fun tree value opt st =>
    let preferred :=
      declare (PreferredVar (UnorderedListMarkerStyle.preferred_of opt))
              (fst st) in
    let x := fst preferred in
    let store := snd preferred in
    if negb (bool_decide
               (read_styles store
                  !! UnorderedListMarkerStyle.property_key
                       (read_preferred x store)
                = Some true))
    then (VFile.fail
            (UnorderedListMarkerStyle.incorrect_reason
               (read_preferred x store))
            (snd st),
          store)
    else
      let r :=
        Walker.visit (Walker.is_type "list")
          (closure read_preferred PreferredVar x
             (UnorderedListMarkerStyle.onList value))
          tree (store, snd st) in
      (outcome_of snd r, fst (snd r)).

(** A rule whose body declares no variable that is assigned. *)
Definition without_variable (body : RuleBody) : Call :=
  fun tree value opt st => (body tree value opt (snd st), fst st).

Definition remarkLintNoHeadingIndent : Call :=
  without_variable
    (fun tree _ _ => NoHeadingIndent.remarkLintNoHeadingIndent tree).

Definition remarkLintFirstHeadingLevel : Call :=
  without_variable
    (fun tree _ opt => FirstHeadingLevel.remarkLintFirstHeadingLevel tree opt).

Definition remarkLintDefinitionSpacing : Call :=
  without_variable
    (fun tree value _ =>
       DefinitionSpacing.remarkLintDefinitionSpacing tree value).

(** The five rules: each body, which is handed the messages of the file
    only, with its call. *)
Definition all_rules : list (RuleBody * Call) :=
  [ ((fun tree _ _ =>
        NoDuplicateHeadingsInSection.remarkLintNoDuplicateHeadingsInSection
          tree),
     remarkLintNoDuplicateHeadingsInSection);
    ((fun tree _ _ => NoHeadingIndent.remarkLintNoHeadingIndent tree),
     remarkLintNoHeadingIndent);
    ((fun tree _ opt =>
        FirstHeadingLevel.remarkLintFirstHeadingLevel tree opt),
     remarkLintFirstHeadingLevel);
    (UnorderedListMarkerStyle.remarkLintUnorderedListMarkerStyle,
     remarkLintUnorderedListMarkerStyle);
    ((fun tree value _ =>
        DefinitionSpacing.remarkLintDefinitionSpacing tree value),
     remarkLintDefinitionSpacing) ].

End Env.

(** ** Building trees *)

Module Build.

Definition point (l c o : nat) : Point := MkPoint l c (Some o).

Definition at_ (l1 c1 o1 l2 c2 o2 : nat) : option Position :=
  Some (MkPosition (point l1 c1 o1) (point l2 c2 o2)).

Definition text (pos : option Position) (v : string) : Node :=
  MkNode "text" pos 0 false v "" [].

Definition heading (pos : option Position) (d : nat) (v : string)
  : Node :=
  MkNode "heading" pos d false "" "" [text pos v].

Definition html (pos : option Position) (v : string) : Node :=
  MkNode "html" pos 0 false v "" [].

Definition parent (t : string) (pos : option Position)
    (cs : list Node) : Node :=
  MkNode t pos 0 false "" "" cs.

Definition root (cs : list Node) : Node := parent "root" None cs.

Definition list_ (pos : option Position) (ord : bool) (cs : list Node)
  : Node :=
  MkNode "list" pos 0 ord "" "" cs.

End Build.

(** ** Sample documents *)

Module Sample.

Import Build.

(** An authored heading on line [l], starting in column 1. *)
Definition h (l d : nat) (v : string) : Node :=
  heading (at_ l 1 0 l 9 0) d v.

(** A generated heading. *)
Definition g (d : nat) (v : string) : Node := heading None d v.

(** A heading on line [l] that starts in column [c]. *)
Definition indented (l c : nat) (v : string) : Node :=
  heading (at_ l c 0 l (c + 9) 0) 1 v.

(** A definition whose source text is the whole of a one-line file of
    [n] characters. *)
Definition definition (n : nat) : Node :=
  MkNode "definition" (at_ 1 1 0 1 (S n) n) 0 false "" "" [].


Definition elan_upper : string := Str.utf8 201 +:+ "lan".

Definition elan_lower : string := Str.utf8 233 +:+ "lan".

(** A store in which earlier calls have left their variables. *)
Definition used : Env.Store :=
  Env.loaded
  ++ [Env.StackVar [Some {["BRAVO" := heading None 1 "Bravo"]}];
      Env.PreferredVar (Some "+")].

End Sample.

(** ** Reporting as appending *)

(** [shift] puts messages in front of the file a visitor state holds.  A
    visitor that commutes with it never looks at the messages already
    reported. *)
Definition commutes {S : Type} (shift : list Message -> S -> S)
    (visitor : Node -> list Node -> S -> Signal * S) : Prop :=
  forall node parents file s,
    visitor node parents (shift file s) =
    (fst (visitor node parents s), shift file (snd (visitor node parents s))).

Definition shift_pair {X : Type} (file : list Message)
    (s : X * list Message) : X * list Message :=
  (fst s, file ++ snd s).

(** A rule that only appends to the file it is given, and whose messages
    and exception do not depend on what the file holds. *)
Definition appends_only (r : RuleBody) : Prop :=
  forall tree value opt file,
    r tree value opt file =
    MkOutcome (thrown (r tree value opt []))
              (file ++ messages (r tree value opt [])).

(** ** What the remaining theorems are stated with *)

Module MarkerItems.

Import UnorderedListMarkerStyle.

(** The lists the visitor works on: unordered ones. *)
Definition unordered_list (node : Node) : bool :=
  Walker.is_type "list" node && negb (ordered node).

(** The children of the unordered lists of a tree, in the order the
    [while] loops meet them. *)
Definition items (tree : Node) : list Node :=
  flat_map children (filter (fun n => unordered_list n = true)
                            (Walker.preorder tree)).

(** The source text between the start of an item and the start of its
    first child. *)
Definition item_head (value : string) (child : Node) : string :=
  Str.slice value
    (Unist.offset_or_0 (Unist.pointStart (Some child)))
    (Unist.offset_or_0 (Unist.pointStart (head (children child)))).

(** Whether a string holds the character [c]. *)
Fixpoint has_char (c : ascii) (s : string) : bool :=
  match s with
  | EmptyString => false
  | String c' s' => Ascii.eqb c' c || has_char c s'
  end.

(** Whether a string holds a white-space character. *)
Fixpoint has_space (s : string) : bool :=
  match s with
  | EmptyString => false
  | String c s' => Str.is_space c || has_space s'
  end.

End MarkerItems.

Module DefinitionLabels.

Import DefinitionSpacing.

(** The source text of a node, from its start to its end offset. *)
Definition source_of (value : string) (node : Node) : string :=
  Str.slice value
    (Unist.offset_or_0 (Unist.pointStart (Some node)))
    (Unist.offset_or_0 (Unist.pointEnd (Some node))).

(** The nodes the visitor looks into. *)
Definition checked (node : Node) : bool :=
  is_definition node && negb (Unist.generated node).

(** A label without brackets and backslashes. *)
Fixpoint plain (s : string) : bool :=
  match s with
  | EmptyString => true
  | String c s' => negb (is_bracket c) && negb (is_backslash c) && plain s'
  end.

End DefinitionLabels.

Module MarkerSample.

Import Build.

Definition nl : string := String (ascii_of_nat 10) "".

(** Three items with the markers [*], [-] and [+], one per line. *)
Definition source : string := "* Foo" +:+ nl +:+ "- Bar" +:+ nl +:+ "+ Baz".

(** The item on line [l], whose text starts at offset [o]. *)
Definition item (l o : nat) : Node :=
  parent "listItem" (at_ l 1 o l 6 (o + 5))
    [parent "paragraph" (at_ l 3 (o + 2) l 6 (o + 5)) []].

Definition tree : Node :=
  root [list_ (at_ 1 1 0 3 6 17) false [item 1 0; item 2 6; item 3 12]].

(** A list of two items, the first of which holds a list of one item. *)
Definition nested_source : string :=
  "* Foo" +:+ nl +:+ "  + Bar" +:+ nl +:+ "* Baz".

Definition inner : Node :=
  parent "listItem" (at_ 2 3 8 2 8 13)
    [parent "paragraph" (at_ 2 5 10 2 8 13) []].

Definition outer : Node :=
  parent "listItem" (at_ 1 1 0 2 8 13)
    [parent "paragraph" (at_ 1 3 2 1 6 5) [];
     list_ (at_ 2 3 8 2 8 13) false [inner]].

Definition nested_tree : Node :=
  root [list_ (at_ 1 1 0 3 6 19) false [outer; item 3 14]].

(** Three items with the marker [*]. *)
Definition uniform_source : string :=
  "* Foo" +:+ nl +:+ "* Bar" +:+ nl +:+ "* Baz".

End MarkerSample.

(** * Proofs *)

(** ** The walker visits the nodes in document order *)

Section RunVisits.

Context {S : Type}.
Variable visitor : Node -> list Node -> S -> Signal * S.

Lemma run_visits_app l1 l2 s :
  Walker.run_visits visitor (l1 ++ l2) s =
  match fst (Walker.run_visits visitor l1 s) with
  | CONTINUE =>
      Walker.run_visits visitor l2 (snd (Walker.run_visits visitor l1 s))
  | _ => Walker.run_visits visitor l1 s
  end.
Proof.
  revert s. induction l1 as [|[n ps] l1 IH]; intros s; simpl.
  - reflexivity.
  - destruct (visitor n ps s) as [sig s1]; simpl.
    destruct sig; simpl; auto.
Qed.

End RunVisits.

Section WalkerFacts.

Context {S : Type}.
Variable test : Node -> bool.
Variable visitor : Node -> list Node -> S -> Signal * S.

Lemma visit_node_visits node : forall parents s,
  Walker.visit_node test visitor parents node s =
  Walker.run_visits (Walker.guarded test visitor)
                    (Walker.visits parents node) s.
Proof.
  induction node as [t p d o v a cs IH] using Node_ind_children.
  intros parents s.
  set (node := MkNode t p d o v a cs).
  change (Walker.visits parents node) with
    ((node, parents) ::
     (fix each (l : list Node) : list (Node * list Node) :=
        match l with
        | [] => []
        | c :: l' => Walker.visits (parents ++ [node]) c ++ each l'
        end) cs).
  change (Walker.visit_node test visitor parents node s) with
    (let r := if test node then visitor node parents s
              else (CONTINUE, s) in
     match fst r with
     | CONTINUE =>
         (fix each (l : list Node) (s : S) : Signal * S :=
            match l with
            | [] => (CONTINUE, s)
            | c :: l' =>
                let r' := Walker.visit_node test visitor
                            (parents ++ [node]) c s in
                match fst r' with
                | CONTINUE => each l' (snd r')
                | _ => r'
                end
            end) cs (snd r)
     | _ => r
     end).
  change (if test node then visitor node parents s else (CONTINUE, s))
    with (Walker.guarded test visitor node parents s).
  cbn [Walker.run_visits]. cbv zeta.
  destruct (Walker.guarded test visitor node parents s) as [sig s1];
    simpl fst; simpl snd.
  destruct sig; try reflexivity.
  clear s. clearbody node. revert s1.
  induction IH as [|c l' Hc _ IHl]; intros s1.
  - reflexivity.
  - rewrite run_visits_app, <- Hc.
    destruct (Walker.visit_node test visitor (parents ++ [node]) c s1)
      as [sig s2]; simpl.
    destruct sig; auto.
Qed.

Lemma visitParents_visits tree s :
  Walker.visitParents test visitor tree s =
  Walker.run_visits (Walker.guarded test visitor)
                    (Walker.visits [] tree) s.
Proof. apply visit_node_visits. Qed.

End WalkerFacts.

Lemma run_visits_nodes {S : Type} (visitor : Node -> S -> Signal * S)
    (l : list (Node * list Node)) (s : S) :
  Walker.run_visits (fun node _ => visitor node) l s =
  Walker.run_nodes visitor (map fst l) s.
Proof.
  revert s. induction l as [|[n ps] l IH]; intros s; simpl; [reflexivity|].
  destruct (visitor n s) as [[] s1]; simpl; auto.
Qed.

Lemma guarded_any {S : Type}
    (visitor : Node -> list Node -> S -> Signal * S) :
  Walker.guarded Walker.any visitor = visitor.
Proof. reflexivity. Qed.

(** A walk without test is a run over the nodes in document order. *)
Lemma visit_any_preorder {S : Type} (visitor : Node -> S -> Signal * S)
    (tree : Node) (s : S) :
  Walker.visit Walker.any visitor tree s =
  Walker.run_nodes visitor (Walker.preorder tree) s.
Proof.
  unfold Walker.visit, Walker.preorder.
  rewrite visitParents_visits, guarded_any. apply run_visits_nodes.
Qed.

(** A run passes over a prefix of nodes the visitor leaves alone. *)
Lemma run_nodes_skip {S : Type} (visitor : Node -> S -> Signal * S)
    (pre post : list Node) (s : S) :
  Forall (fun n => visitor n s = (CONTINUE, s)) pre ->
  Walker.run_nodes visitor (pre ++ post) s =
  Walker.run_nodes visitor post s.
Proof.
  induction 1 as [|n pre Hn _ IH]; simpl; [reflexivity|].
  rewrite Hn. simpl. exact IH.
Qed.


(** ** Messages are only ever appended *)

Section Frame.

Context {S : Type}.
Variable shift : list Message -> S -> S.
Variable visitor : Node -> list Node -> S -> Signal * S.
Hypothesis visitor_commutes : commutes shift visitor.

Lemma run_visits_shift l : forall file s,
  Walker.run_visits visitor l (shift file s) =
  (fst (Walker.run_visits visitor l s),
   shift file (snd (Walker.run_visits visitor l s))).
Proof.
  induction l as [|[n ps] l IH]; intros file s; simpl; [reflexivity|].
  rewrite (visitor_commutes n ps file s). simpl.
  destruct (visitor n ps s) as [[] s1]; simpl; auto.
Qed.

End Frame.

Lemma guarded_commutes {S : Type} (shift : list Message -> S -> S)
    (test : Node -> bool) visitor :
  commutes shift visitor -> commutes shift (Walker.guarded test visitor).
Proof.
  intros H node parents file s. unfold Walker.guarded.
  destruct (test node); [apply H | reflexivity].
Qed.

Lemma walk_shift {S : Type} (shift : list Message -> S -> S) test visitor
    tree file s :
  commutes shift visitor ->
  Walker.visitParents test visitor tree (shift file s) =
  (fst (Walker.visitParents test visitor tree s),
   shift file (snd (Walker.visitParents test visitor tree s))).
Proof.
  intros H. rewrite !visitParents_visits.
  apply run_visits_shift, guarded_commutes, H.
Qed.

Lemma message_app r p (file more : list Message) :
  VFile.message r p (file ++ more) = file ++ VFile.message r p more.
Proof. unfold VFile.message. now rewrite app_assoc. Qed.

Lemma dup_onHeading_commutes :
  commutes shift_pair
    (fun node _ => NoDuplicateHeadingsInSection.onHeading node).
Proof.
  intros node _ file [stack more].
  unfold NoDuplicateHeadingsInSection.onHeading, shift_pair; simpl.
  destruct (depth node); [reflexivity|]. simpl.
  destruct (_ !! _); [|reflexivity].
  destruct (negb _); [|reflexivity].
  now rewrite message_app.
Qed.

Lemma indent_onHeading_commutes :
  commutes (@app Message) NoHeadingIndent.onHeading.
Proof.
  intros node parents file more. unfold NoHeadingIndent.onHeading.
  destruct (Unist.pointStart5 node); [|reflexivity].
  destruct (last parents); [|reflexivity].
  destruct (negb _); [reflexivity|].
  destruct (_ =? 0); [reflexivity|].
  simpl. now rewrite message_app.
Qed.

Lemma level_onNode_commutes preferred :
  commutes (@app Message)
    (fun node _ => FirstHeadingLevel.onNode preferred node).
Proof.
  intros node _ file more. unfold FirstHeadingLevel.onNode.
  destruct (negb _); [|reflexivity].
  destruct (FirstHeadingLevel.rank_of node); [|reflexivity].
  destruct (Js.num_strict_ne _ _); [|reflexivity].
  simpl. now rewrite message_app.
Qed.

Lemma marker_onItem_shift value file st child :
  UnorderedListMarkerStyle.onItem value (shift_pair file st) child =
  shift_pair file (UnorderedListMarkerStyle.onItem value st child).
Proof.
  destruct st as [preferred more].
  unfold UnorderedListMarkerStyle.onItem, shift_pair; simpl.
  destruct (negb (Unist.generated child)); [|reflexivity].
  destruct (UnorderedListMarkerStyle.truthy preferred); [|reflexivity].
  destruct (negb (String.eqb _ _)); [|reflexivity].
  simpl. now rewrite message_app.
Qed.

Lemma marker_items_shift value file cs : forall st,
  foldl (UnorderedListMarkerStyle.onItem value) (shift_pair file st) cs =
  shift_pair file (foldl (UnorderedListMarkerStyle.onItem value) st cs).
Proof.
  induction cs as [|c cs IH]; intros st; simpl; [reflexivity|].
  now rewrite marker_onItem_shift, IH.
Qed.

Lemma marker_onList_commutes value :
  commutes shift_pair
    (fun node _ => UnorderedListMarkerStyle.onList value node).
Proof.
  intros node _ file st. unfold UnorderedListMarkerStyle.onList.
  destruct (ordered node); [reflexivity|].
  simpl. now rewrite marker_items_shift.
Qed.

Lemma spacing_onNode_commutes value :
  commutes (@app Message) (fun node _ => DefinitionSpacing.onNode value node).
Proof.
  intros node _ file more. unfold DefinitionSpacing.onNode.
  destruct (_ && _); [|reflexivity].
  destruct (DefinitionSpacing.label_match _); [|reflexivity].
  destruct (DefinitionSpacing.consecutive_whitespace _); [|reflexivity].
  simpl. now rewrite message_app.
Qed.

Lemma dup_appends_only :
  appends_only
    (fun tree _ _ =>
       NoDuplicateHeadingsInSection.remarkLintNoDuplicateHeadingsInSection
         tree).
Proof.
  intros tree _ _ file.
  unfold NoDuplicateHeadingsInSection.remarkLintNoDuplicateHeadingsInSection.
  unfold Walker.visit.
  replace ([], file) with
    (shift_pair file
       (([] : NoDuplicateHeadingsInSection.Stack), [] : list Message))
    by (unfold shift_pair; simpl; now rewrite app_nil_r).
  rewrite (walk_shift shift_pair) by apply dup_onHeading_commutes.
  reflexivity.
Qed.

Lemma indent_appends_only :
  appends_only (fun tree _ _ => NoHeadingIndent.remarkLintNoHeadingIndent tree).
Proof.
  intros tree _ _ file. unfold NoHeadingIndent.remarkLintNoHeadingIndent.
  rewrite <- (app_nil_r file) at 1.
  rewrite (walk_shift (@app Message)) by apply indent_onHeading_commutes.
  reflexivity.
Qed.

Lemma level_appends_only :
  appends_only
    (fun tree _ opt => FirstHeadingLevel.remarkLintFirstHeadingLevel tree opt).
Proof.
  intros tree _ opt file.
  unfold FirstHeadingLevel.remarkLintFirstHeadingLevel, Walker.visit.
  rewrite <- (app_nil_r file) at 1.
  rewrite (walk_shift (@app Message)) by apply level_onNode_commutes.
  reflexivity.
Qed.

Lemma marker_appends_only :
  appends_only UnorderedListMarkerStyle.remarkLintUnorderedListMarkerStyle.
Proof.
  intros tree value opt file.
  unfold UnorderedListMarkerStyle.remarkLintUnorderedListMarkerStyle.
  destruct (negb _); [reflexivity|]. unfold Walker.visit.
  replace (UnorderedListMarkerStyle.preferred_of opt, file) with
    (shift_pair file
       (UnorderedListMarkerStyle.preferred_of opt, [] : list Message))
    by (unfold shift_pair; simpl; now rewrite app_nil_r).
  rewrite (walk_shift shift_pair) by apply marker_onList_commutes.
  reflexivity.
Qed.

Lemma spacing_appends_only :
  appends_only
    (fun tree value _ =>
       DefinitionSpacing.remarkLintDefinitionSpacing tree value).
Proof.
  intros tree value _ file.
  unfold DefinitionSpacing.remarkLintDefinitionSpacing, Walker.visit.
  rewrite <- (app_nil_r file) at 1.
  rewrite (walk_shift (@app Message)) by apply spacing_onNode_commutes.
  reflexivity.
Qed.

(** ** Variables: a call and the next *)

Section Calls.

(** A walk with a closure over a variable is the walk with its body, and
    leaves in the variable what the body leaves as its state. *)
Lemma run_visits_closure {X : Type} (read : nat -> Env.Store -> X)
    (var : X -> Env.Binding) x test body :
  (forall store v, store !! x = Some (var v) -> read x store = v) ->
  forall l store v file,
    store !! x = Some (var v) ->
    let r := Walker.run_visits
               (Walker.guarded test (fun node _ => body node))
               l (v, file) in
    Walker.run_visits
      (Walker.guarded test
         (fun node _ => Env.closure read var x body node))
      l (store, file)
    = (fst r, (<[x := var (fst (snd r))]> store, snd (snd r))).
Proof.
  intros Hread. induction l as [|[n ps] l IH]; intros store v file Hx.
  - cbv zeta. cbn [Walker.run_visits fst snd].
    now rewrite list_insert_id.
  - cbv zeta in *. cbn [Walker.run_visits].
    assert (G : Walker.guarded test
                  (fun node _ => Env.closure read var x body node)
                  n ps (store, file)
                = let b := Walker.guarded test (fun node _ => body node)
                             n ps (v, file) in
                  (fst b, (<[x := var (fst (snd b))]> store, snd (snd b)))).
    { unfold Walker.guarded. destruct (test n).
      - unfold Env.closure, Env.assign. cbn [fst snd].
        now rewrite (Hread store v Hx).
      - cbv zeta. cbn [fst snd]. now rewrite list_insert_id. }
    rewrite G. cbv zeta.
    destruct (Walker.guarded test (fun node _ => body node) n ps (v, file))
      as [sig [v' file']].
    cbn [fst snd]. destruct sig; try reflexivity.
    rewrite (IH (<[x := var v']> store) v' file').
    + now rewrite list_insert_insert_eq.
    + apply list_lookup_insert_eq. now apply lookup_lt_Some in Hx.
Qed.

Lemma visit_closure {X : Type} (read : nat -> Env.Store -> X)
    (var : X -> Env.Binding) test body tree store v file :
  (forall store' v', store' !! length store = Some (var v') ->
                     read (length store) store' = v') ->
  let r := Walker.visit test body tree (v, file) in
  Walker.visit test (Env.closure read var (length store) body) tree
    (store ++ [var v], file)
  = (fst r, (store ++ [var (fst (snd r))], snd (snd r))).
Proof.
  intros Hread. cbv zeta. unfold Walker.visit.
  rewrite !visitParents_visits.
  rewrite (run_visits_closure read var (length store) test body Hread
             _ (store ++ [var v]) v file).
  - cbv zeta. f_equal. f_equal.
    rewrite insert_app_r_alt by lia.
    now rewrite Nat.sub_diag.
  - rewrite lookup_app_r by lia. now rewrite Nat.sub_diag.
Qed.

Lemma read_stack_var store v x :
  store !! x = Some (Env.StackVar v) -> Env.read_stack x store = v.
Proof. intros H. unfold Env.read_stack. now rewrite H. Qed.

Lemma read_preferred_var store v x :
  store !! x = Some (Env.PreferredVar v) -> Env.read_preferred x store = v.
Proof. intros H. unfold Env.read_preferred. now rewrite H. Qed.

(** What a call gives is what the body of the rule gives on the messages
    of the file, and the store it leaves is the store it found with one
    more variable at most. *)
Lemma call_body body call :
  In (body, call) Env.all_rules ->
  forall tree value opt store file,
    Env.intact store ->
    fst (call tree value opt (store, file)) = body tree value opt file
    /\ store `prefix_of` snd (call tree value opt (store, file)).
Proof.
  intros Hin tree value opt store file Hok.
  unfold Env.all_rules in Hin. simpl in Hin.
  destruct Hin as [E|[E|[E|[E|[E|[]]]]]]; inversion E; subst body call;
    clear E;
    try (split; [reflexivity|exists []; symmetry; apply app_nil_r]).
  - unfold Env.remarkLintNoDuplicateHeadingsInSection, Env.declare.
    cbv zeta. cbn [fst snd].
    rewrite (visit_closure Env.read_stack Env.StackVar)
      by (intros; now apply read_stack_var).
    cbv zeta. split; [reflexivity|]. cbn [fst snd]. now eexists.
  - unfold Env.remarkLintUnorderedListMarkerStyle, Env.declare.
    cbv zeta. cbn [fst snd].
    assert (Hp : Env.read_preferred (length store)
                   (store ++ [Env.PreferredVar
                                (UnorderedListMarkerStyle.preferred_of opt)])
                 = UnorderedListMarkerStyle.preferred_of opt).
    { apply read_preferred_var. rewrite lookup_app_r by lia.
      now rewrite Nat.sub_diag. }
    assert (Hs : Env.read_styles
                   (store ++ [Env.PreferredVar
                                (UnorderedListMarkerStyle.preferred_of opt)])
                 = UnorderedListMarkerStyle.styles).
    { unfold Env.read_styles.
      now rewrite (lookup_app_l_Some _ _ _ _ Hok). }
    rewrite Hp, Hs.
    unfold UnorderedListMarkerStyle.remarkLintUnorderedListMarkerStyle.
    cbv zeta.
    destruct (negb _).
    + split; [reflexivity|]. cbn [snd]. now eexists.
    + rewrite (visit_closure Env.read_preferred Env.PreferredVar)
        by (intros; now apply read_preferred_var).
      cbv zeta. split; [reflexivity|]. cbn [fst snd]. now eexists.
Qed.

Lemma rule_appends_only body call :
  In (body, call) Env.all_rules -> appends_only body.
Proof.
  intros Hin. unfold Env.all_rules in Hin. simpl in Hin.
  destruct Hin as [E|[E|[E|[E|[E|[]]]]]]; inversion E; subst body call.
  - apply dup_appends_only.
  - apply indent_appends_only.
  - apply level_appends_only.
  - apply marker_appends_only.
  - apply spacing_appends_only.
Qed.

Lemma intact_prefix store store' :
  Env.intact store -> store `prefix_of` store' -> Env.intact store'.
Proof.
  intros H [k ->]. unfold Env.intact. now apply lookup_app_l_Some.
Qed.

(** C9.  Every rule, called a second time on the same tree, source text
    and option, in the store and with the file the first call left,
    gives what the first call gave: it appends the same messages in the
    same order and throws the same exception or none.  What a call gives
    is what the body of the rule gives when it is handed the messages of
    the file only, whatever variables earlier calls have left in the
    store; and a call writes no variable that was there before it: the
    store it leaves is the store it found, with the variable the call
    declared, if any, after it. *)
Theorem rules_deterministic_across_runs body call tree value opt store
    file :
  In (body, call) Env.all_rules ->
  Env.intact store ->
  let first := call tree value opt (store, file) in
  let second := call tree value opt (snd first, messages (fst first)) in
  let emitted := messages (body tree value opt []) in
  fst first = body tree value opt file
  /\ messages (fst first) = file ++ emitted
  /\ messages (fst second) = (file ++ emitted) ++ emitted
  /\ thrown (fst second) = thrown (fst first)
  /\ store `prefix_of` snd first
  /\ snd first `prefix_of` snd second.
Proof.
  intros Hin Hok. cbv zeta.
  destruct (call_body body call Hin tree value opt store file Hok)
    as [E1 P1].
  pose proof (intact_prefix _ _ Hok P1) as Hok1.
  destruct (call_body body call Hin tree value opt
              (snd (call tree value opt (store, file)))
              (messages (fst (call tree value opt (store, file)))) Hok1)
    as [E2 P2].
  pose proof (rule_appends_only body call Hin) as Happ.
  rewrite E2, E1.
  rewrite (Happ tree value opt
             (messages (body tree value opt file))).
  rewrite (Happ tree value opt file). cbn [messages thrown].
  repeat split; [exact P1|].
  rewrite E1 in P2. rewrite (Happ tree value opt file) in P2.
  exact P2.
Qed.

Lemma rules_deterministic_across_runs_witness :
  let tree := Build.root [Sample.h 1 1 "Bravo"; Sample.h 3 1 "Bravo"] in
  let report :=
    MkMessage "Do not use headings with similar content per section (1:1)"
              (AtNode (Sample.h 3 1 "Bravo")) false in
  let first :=
    Env.remarkLintNoDuplicateHeadingsInSection tree "" JUndefined
      (Sample.used, []) in
  let second :=
    Env.remarkLintNoDuplicateHeadingsInSection tree "" JUndefined
      (snd first, messages (fst first)) in
  messages (fst first) = [report]
  /\ messages (fst second) = [report; report]
  /\ thrown (fst second) = thrown (fst first)
  /\ Sample.used `prefix_of` snd first
  /\ snd first `prefix_of` snd second.
Proof.
  cbv zeta.
  apply (proj2 (rules_deterministic_across_runs
    (fun tree _ _ =>
       NoDuplicateHeadingsInSection.remarkLintNoDuplicateHeadingsInSection
         tree)
    Env.remarkLintNoDuplicateHeadingsInSection
    (Build.root [Sample.h 1 1 "Bravo"; Sample.h 3 1 "Bravo"])
    "" JUndefined Sample.used [] (or_introl eq_refl) eq_refl)).
Defined.

End Calls.

(** ** no-duplicate-headings-in-section: what the stack remembers *)

Section DuplicateHeadings.

Import NoDuplicateHeadingsInSection.

Lemma array_get_set_take {A : Type} (l : list (option A)) i x j :
  array_get (take (S i) (array_set l i x)) j =
  if j =? i then Some x
  else if j <? i then array_get l j else None.
Proof.
  unfold array_get, array_set.
  destruct (Nat.ltb_spec i (length l)) as [Hi|Hi].
  - destruct (Nat.eqb_spec j i) as [->|Hne].
    + rewrite lookup_take_lt by lia.
      now rewrite list_lookup_insert_eq by lia.
    + destruct (Nat.ltb_spec j i) as [Hj|Hj].
      * rewrite lookup_take_lt by lia.
        now rewrite list_lookup_insert_ne by lia.
      * now rewrite lookup_take_ge by lia.
  - rewrite take_ge
      by (rewrite !length_app, length_replicate; simpl; lia).
    destruct (Nat.eqb_spec j i) as [->|Hne].
    + rewrite lookup_app_r by lia.
      rewrite lookup_app_r by (rewrite length_replicate; lia).
      rewrite length_replicate.
      now replace (i - length l - (i - length l)) with 0 by lia.
    + destruct (Nat.ltb_spec j i) as [Hj|Hj].
      * destruct (decide (j < length l)) as [Hl|Hl].
        -- now rewrite lookup_app_l by lia.
        -- rewrite lookup_app_r by lia.
           rewrite lookup_app_l by (rewrite length_replicate; lia).
           rewrite lookup_replicate_2 by lia.
           now rewrite (lookup_ge_None_2 l j) by lia.
      * rewrite lookup_ge_None_2; [reflexivity|].
        rewrite !length_app, length_replicate; simpl; lia.
Qed.

(** One visit: slots deeper than the heading are dropped, its own slot
    gains the heading under its key, shallower slots are kept. *)
Lemma recorded_onHeading h stack file d k :
  1 <= d -> 1 <= depth h ->
  recorded (fst (snd (onHeading h (stack, file)))) d k =
  if depth h <? d then None
  else if (depth h =? d) && String.eqb (key h) k then Some h
  else recorded stack d k.
Proof.
  intros Hd Hh. unfold onHeading. simpl.
  destruct (depth h) as [|index] eqn:Eh; [lia|].
  destruct d as [|j]; [lia|]. simpl.
  rewrite array_get_set_take.
  destruct (Nat.eqb_spec j index) as [->|Hne].
  - rewrite Nat.ltb_irrefl, Nat.eqb_refl. simpl.
    destruct (String.eqb_spec (key h) k) as [->|Hk].
    + now rewrite lookup_insert_eq.
    + rewrite lookup_insert_ne by done.
      destruct (array_get stack index); reflexivity.
  - destruct (Nat.ltb_spec j index) as [Hj|Hj].
    + replace (S index <? S j) with false
        by (symmetry; apply Nat.ltb_ge; lia).
      replace (index =? j) with false
        by (symmetry; apply Nat.eqb_neq; lia).
      reflexivity.
    + replace (S index <? S j) with true
        by (symmetry; apply Nat.ltb_lt; lia).
      reflexivity.
Qed.

Lemma recorded_onHeading_0 h stack file d k :
  depth h = 0 -> recorded (fst (snd (onHeading h (stack, file)))) d k = None.
Proof.
  intros Hh. unfold onHeading. simpl. rewrite Hh. simpl.
  destruct d; reflexivity.
Qed.

Lemma run_snoc hs h st : run (hs ++ [h]) st = snd (onHeading h (run hs st)).
Proof. unfold run. now rewrite foldl_app. Qed.

(** The stack after a run records, for each depth and key, the heading
    that [seen] finds. *)
Lemma recorded_run hs file d k :
  1 <= d -> recorded (fst (run hs ([], file))) d k = seen hs d k.
Proof.
  intros Hd. induction hs as [|h hs IH] using rev_ind.
  - destruct d; [lia|]. reflexivity.
  - rewrite run_snoc. unfold seen. rewrite rev_unit. simpl.
    destruct (run hs ([], file)) as [stack file'] eqn:E. simpl in IH.
    destruct (depth h) as [|n] eqn:Eh.
    + rewrite recorded_onHeading_0 by done.
      now replace (0 <? d) with true by (symmetry; apply Nat.ltb_lt; lia).
    + rewrite recorded_onHeading by lia. rewrite Eh, IH. reflexivity.
Qed.

Lemma reported_seen before h :
  1 <= depth h ->
  reported before h =
  match seen before (depth h) (key h) with
  | Some d =>
      if negb (Unist.generated h)
      then [MkMessage (duplicate_reason d) (AtNode h) false]
      else []
  | None => []
  end.
Proof.
  intros Hh. unfold reported.
  rewrite <- (recorded_run before [] (depth h) (key h)) by done.
  unfold emitted_after. simpl.
  destruct (run before ([], [])) as [stack file]. simpl.
  unfold onHeading, recorded. simpl.
  destruct (depth h) as [|index]; [lia|]. simpl.
  destruct (array_get stack index) as [scope|]; simpl.
  - destruct (scope !! key h); [|reflexivity].
    destruct (negb _); reflexivity.
  - rewrite lookup_empty. reflexivity.
Qed.

Lemma seen_rev_skip mid older d k :
  Forall (fun x => d <= depth x) mid ->
  Forall (fun x => depth x = d -> key x <> k) mid ->
  seen_rev (mid ++ older) d k = seen_rev older d k.
Proof.
  induction 1 as [|x mid Hx _ IH]; intros Hk; [reflexivity|].
  apply Forall_cons in Hk as [Hxk Hk]. simpl.
  replace (depth x <? d) with false by (symmetry; apply Nat.ltb_ge; lia).
  destruct (Nat.eqb_spec (depth x) d) as [E|E]; simpl; [|auto].
  destruct (String.eqb_spec (key x) k) as [E'|E']; [|auto].
  now destruct (Hxk E).
Qed.

Lemma seen_rev_cut later x older d k :
  depth x < d ->
  Forall (fun y => depth y = d -> key y <> k) later ->
  seen_rev (later ++ x :: older) d k = None.
Proof.
  intros Hx. induction 1 as [|y later Hy _ IH]; simpl.
  - now replace (depth x <? d) with true by (symmetry; apply Nat.ltb_lt; lia).
  - destruct (depth y <? d); [reflexivity|].
    destruct (Nat.eqb_spec (depth y) d) as [E|E]; simpl; [|auto].
    destruct (String.eqb_spec (key y) k) as [E'|E']; [|auto].
    now destruct (Hy E).
Qed.

Lemma onHeading_shift h stack file more :
  onHeading h (stack, file ++ more) =
  (fst (onHeading h (stack, more)),
   (fst (snd (onHeading h (stack, more))),
    file ++ snd (snd (onHeading h (stack, more))))).
Proof. exact (dup_onHeading_commutes h [] file (stack, more)). Qed.

Lemma run_shift hs : forall stack file,
  run hs (stack, file) =
  (fst (run hs (stack, [])), file ++ snd (run hs (stack, []))).
Proof.
  induction hs as [|h hs IH] using rev_ind; intros stack file.
  - simpl. now rewrite app_nil_r.
  - rewrite !run_snoc, IH.
    destruct (run hs (stack, [])) as [stack1 more]. simpl.
    now rewrite onHeading_shift.
Qed.

Lemma emitted_app l1 l2 :
  emitted (l1 ++ l2) = emitted l1 ++ emitted_after l1 l2.
Proof.
  unfold emitted, emitted_after, run at 1. rewrite foldl_app.
  fold (run l1 ([], [])). fold (run l2 (run l1 ([], []))).
  destruct (run l1 ([], [])) as [stack file]. now rewrite run_shift.
Qed.

Lemma emitted_after_cons before h hs :
  emitted_after before (h :: hs) =
  reported before h ++ emitted_after (before ++ [h]) hs.
Proof.
  unfold reported, emitted_after. rewrite run_snoc. simpl.
  destruct (run before ([], [])) as [stack file]. simpl.
  rewrite <- (app_nil_r file), onHeading_shift.
  destruct (onHeading h (stack, [])) as [sig [stack1 more]]. simpl.
  fold (run hs (stack1, more)).
  now rewrite (run_shift hs stack1 more).
Qed.

Lemma onHeading_continues h st : fst (onHeading h st) = CONTINUE.
Proof. unfold onHeading. now destruct (depth h). Qed.

Lemma run_visits_headings l : forall st,
  Walker.run_visits
    (Walker.guarded (Walker.is_type "heading") (fun n _ => onHeading n))
    l st =
  (CONTINUE,
   run (filter (fun n => Walker.is_type "heading" n = true) (map fst l)) st).
Proof.
  induction l as [|[n ps] l IH]; intros st; [reflexivity|].
  simpl. unfold Walker.guarded at 1 3.
  rewrite filter_cons. destruct (Walker.is_type "heading" n) eqn:E.
  - rewrite decide_True by done. rewrite onHeading_continues, IH.
    reflexivity.
  - rewrite decide_False by (intros ?; congruence). simpl. apply IH.
Qed.

(** The rule reports what the visits of the headings of the tree, in
    document order, report. *)
Lemma rule_emitted tree file :
  remarkLintNoDuplicateHeadingsInSection tree file =
  MkOutcome None (file ++ emitted (headings tree)).
Proof.
  rewrite (dup_appends_only tree "" JUndefined file).
  unfold remarkLintNoDuplicateHeadingsInSection, Walker.visit.
  rewrite visitParents_visits.
  rewrite run_visits_headings. reflexivity.
Qed.

End DuplicateHeadings.

(** ** no-duplicate-headings-in-section: sections and generated headings *)

Section DuplicateHeadingProperties.

Import NoDuplicateHeadingsInSection.

(** C1, as amended.  Take two headings [h1] and [h2] of equal depth and
    equal normalized text, [h2] being the next heading of that depth and
    text after [h1].  The rule's messages are those of the visits before
    [h2], then what the visit of [h2] reports, then those of the later
    visits.  If [h2] is not generated and no heading of strictly smaller
    depth lies between the two, the visit of [h2] reports exactly one
    message, citing the start of [h1]; headings of equal or greater depth
    in between do not change this.  If a heading of strictly smaller
    depth lies between them, the visit of [h2] reports nothing. *)
Theorem duplicate_heading_same_section tree file pre h1 mid h2 post :
  headings tree = pre ++ h1 :: mid ++ h2 :: post ->
  depth h1 = depth h2 ->
  1 <= depth h2 ->
  key h1 = key h2 ->
  Forall (fun x => depth x = depth h2 -> key x <> key h2) mid ->
  messages (remarkLintNoDuplicateHeadingsInSection tree file) =
    file ++ emitted (pre ++ h1 :: mid)
         ++ reported (pre ++ h1 :: mid) h2
         ++ emitted_after (pre ++ h1 :: mid ++ [h2]) post
  /\ (Unist.generated h2 = false ->
      Forall (fun x => depth h2 <= depth x) mid ->
      reported (pre ++ h1 :: mid) h2 =
      [MkMessage
         ("Do not use headings with similar content per section ("
          +:+ Unist.stringifyPosition (Unist.pointStart (Some h1))
          +:+ ")")
         (AtNode h2) false])
  /\ (Exists (fun x => depth x < depth h2) mid ->
      reported (pre ++ h1 :: mid) h2 = []).
Proof.
  intros Hhs Hd Hpos Hk Hnext. split; [|split].
  - rewrite rule_emitted, Hhs. simpl. f_equal.
    replace (pre ++ h1 :: mid ++ h2 :: post)
      with ((pre ++ h1 :: mid) ++ h2 :: post)
      by now rewrite <- app_assoc.
    rewrite emitted_app, emitted_after_cons.
    now rewrite <- (app_assoc pre (h1 :: mid) [h2]).
  - intros Hgen Hdeep. rewrite reported_seen by done.
    unfold seen. rewrite rev_app_distr. simpl. rewrite <- app_assoc.
    rewrite seen_rev_skip;
      [| now apply Forall_rev | now apply Forall_rev].
    simpl. rewrite Hd, Hk, Nat.ltb_irrefl, Nat.eqb_refl, String.eqb_refl.
    simpl. rewrite Hgen. reflexivity.
  - intros Hshallow. rewrite reported_seen by done.
    apply Exists_exists in Hshallow as [x [Hin Hx]].
    apply list_elem_of_In, in_split in Hin as [m1 [m2 ->]].
    apply Forall_app in Hnext as [_ Hnext].
    apply Forall_cons in Hnext as [_ Hnext].
    unfold seen. rewrite rev_app_distr. simpl.
    rewrite rev_app_distr. simpl. rewrite <- !app_assoc. simpl.
    rewrite (seen_rev_cut (rev m2) x);
      [reflexivity | done | now apply Forall_rev].
Qed.

Lemma duplicate_heading_same_section_witness :
  reported [Sample.h 1 2 "Golf"; Sample.h 3 2 "Hotel"] (Sample.h 5 2 "golf")
  = [MkMessage "Do not use headings with similar content per section (1:1)"
               (AtNode (Sample.h 5 2 "golf")) false]
  /\ reported [Sample.h 1 2 "Golf"; Sample.h 3 1 "Hotel"]
              (Sample.h 5 2 "golf") = [].
Proof.
  split.
  - apply (duplicate_heading_same_section
             (Build.root [Sample.h 1 2 "Golf"; Sample.h 3 2 "Hotel";
                          Sample.h 5 2 "golf"])
             [] [] (Sample.h 1 2 "Golf") [Sample.h 3 2 "Hotel"]
             (Sample.h 5 2 "golf") []).
    + reflexivity.
    + reflexivity.
    + simpl. lia.
    + reflexivity.
    + repeat constructor. intros _. vm_compute. discriminate.
    + reflexivity.
    + repeat constructor.
  - apply (duplicate_heading_same_section
             (Build.root [Sample.h 1 2 "Golf"; Sample.h 3 1 "Hotel";
                          Sample.h 5 2 "golf"])
             [] [] (Sample.h 1 2 "Golf") [Sample.h 3 1 "Hotel"]
             (Sample.h 5 2 "golf") []).
    + reflexivity.
    + reflexivity.
    + simpl. lia.
    + reflexivity.
    + repeat constructor. intros _. vm_compute. discriminate.
    + constructor. simpl. lia.
Defined.

(** C1 as stated fails: a heading of equal depth between the two does
    not silence the second one. *)
Lemma equal_depth_heading_between_still_reported :
  ~ (forall tree pre h1 mid h2 post,
       headings tree = pre ++ h1 :: mid ++ h2 :: post ->
       depth h1 = depth h2 ->
       key h1 = key h2 ->
       Exists (fun x => depth x <= depth h2) mid ->
       reported (pre ++ h1 :: mid) h2 = []).
Proof.
  intros H.
  specialize (H (Build.root [Sample.h 1 2 "Golf"; Sample.h 3 2 "Hotel";
                             Sample.h 5 2 "Golf"])
                [] (Sample.h 1 2 "Golf") [Sample.h 3 2 "Hotel"]
                (Sample.h 5 2 "Golf") []).
  assert (E : reported [Sample.h 1 2 "Golf"; Sample.h 3 2 "Hotel"]
                       (Sample.h 5 2 "Golf") <> [])
    by (vm_compute; discriminate).
  apply E, H; try reflexivity.
  constructor. simpl. lia.
Qed.

(** C2, as amended.  The visit of a generated heading reports nothing,
    whatever came before it.  The heading is recorded all the same: an
    authored heading of the same depth and normalized text that comes
    next is reported, and the message cites the generated heading.  It
    also closes the sections open below its depth: a deeper heading that
    comes next is not reported. *)
Theorem generated_heading_recorded_not_reported g :
  Unist.generated g = true ->
  (forall before, reported before g = [])
  /\ (forall before h,
        1 <= depth g ->
        depth h = depth g ->
        key h = key g ->
        Unist.generated h = false ->
        reported (before ++ [g]) h =
        [MkMessage
           ("Do not use headings with similar content per section ("
            +:+ Unist.stringifyPosition (Unist.pointStart (Some g))
            +:+ ")")
           (AtNode h) false])
  /\ (forall before h,
        depth g < depth h ->
        reported (before ++ [g]) h = []).
Proof.
  intros Hg. split; [|split].
  - intros before. destruct (depth g) as [|n] eqn:E.
    + unfold reported, emitted_after. simpl. unfold onHeading.
      now rewrite E.
    + rewrite reported_seen by lia. rewrite Hg. simpl.
      now destruct (seen _ _ _).
  - intros before h Hpos Hd Hk Hh. rewrite reported_seen by lia.
    unfold seen. rewrite rev_unit. simpl.
    rewrite Hd, Hk, Nat.ltb_irrefl, Nat.eqb_refl, String.eqb_refl. simpl.
    now rewrite Hh.
  - intros before h Hd. rewrite reported_seen by lia.
    unfold seen. rewrite rev_unit. simpl.
    now replace (depth g <? depth h) with true
      by (symmetry; apply Nat.ltb_lt; lia).
Qed.

Lemma generated_heading_recorded_not_reported_witness :
  reported [Sample.h 1 2 "Golf"] (Sample.g 2 "Golf") = []
  /\ reported ([] ++ [Sample.g 2 "Golf"]) (Sample.h 3 2 "Golf")
     = [MkMessage "Do not use headings with similar content per section (1:1)"
                  (AtNode (Sample.h 3 2 "Golf")) false].
Proof.
  split.
  - apply (generated_heading_recorded_not_reported (Sample.g 2 "Golf")).
    reflexivity.
  - apply (proj1 (proj2 (generated_heading_recorded_not_reported
                           (Sample.g 2 "Golf") eq_refl)));
      [simpl; lia | reflexivity | reflexivity | reflexivity].
Defined.

(** C2 as stated fails: leaving a generated heading out of the
    traversal changes what the rule reports. *)
Lemma generated_heading_not_skipped :
  ~ (forall before g after,
       Unist.generated g = true ->
       emitted (before ++ g :: after) = emitted (before ++ after)).
Proof.
  intros H.
  specialize (H [] (Sample.g 2 "Golf") [Sample.h 3 2 "Golf"] eq_refl).
  vm_compute in H. discriminate H.
Qed.

End DuplicateHeadingProperties.

(** ** first-heading-level *)

Section FirstHeadingLevelProperties.

Import FirstHeadingLevel.

Lemma onNode_passes preferred file x :
  Unist.generated x = true \/ rank_of x = None ->
  onNode preferred x file = (CONTINUE, file).
Proof.
  unfold onNode. intros [H|H]; rewrite H; simpl; [reflexivity|].
  now destruct (negb _).
Qed.

(** C3, as amended.  Nodes that are generated or carry no rank are
    passed over.  The walk exits at the first node in document order
    that is not generated and carries a rank: one message is reported
    there exactly when its rank is not the preferred one, and nothing
    after that node is looked at (the outcome does not mention [post]).
    A tree without such a node yields no message. *)
Theorem first_heading_level_first_authored_rank tree opt file :
  (forall pre n post rank,
      Walker.preorder tree = pre ++ n :: post ->
      Forall (fun x => Unist.generated x = true \/ rank_of x = None) pre ->
      Unist.generated n = false ->
      rank_of n = Some rank ->
      fst (Walker.visit Walker.any (onNode (preferred_of opt)) tree file)
      = EXIT
      /\ remarkLintFirstHeadingLevel tree opt file =
         MkOutcome None
           (if Js.num_strict_ne rank (preferred_of opt)
            then file ++
                 [MkMessage
                    ("First heading level should be `"
                     +:+ Js.to_string (preferred_of opt) +:+ "`")
                    (AtNode n) false]
            else file))
  /\ (Forall (fun x => Unist.generated x = true \/ rank_of x = None)
             (Walker.preorder tree) ->
      remarkLintFirstHeadingLevel tree opt file = MkOutcome None file).
Proof.
  split.
  - intros pre n post rank Hpre Hskip Hgen Hrank.
    unfold remarkLintFirstHeadingLevel. rewrite visit_any_preorder, Hpre.
    rewrite run_nodes_skip
      by (eapply Forall_impl; [exact Hskip|];
          intros x Hx; now apply onNode_passes).
    simpl. unfold onNode. rewrite Hgen, Hrank. simpl.
    split; [reflexivity|].
    now destruct (Js.num_strict_ne _ _).
  - intros Hall. unfold remarkLintFirstHeadingLevel. rewrite visit_any_preorder.
    rewrite <- (app_nil_r (Walker.preorder tree)).
    rewrite run_nodes_skip
      by (eapply Forall_impl; [exact Hall|];
          intros x Hx; now apply onNode_passes).
    reflexivity.
Qed.

Lemma first_heading_level_first_authored_rank_witness :
  remarkLintFirstHeadingLevel
    (Build.root [Build.html (Build.at_ 1 1 0 1 13 12) "<div></div>";
                    Sample.g 1 "Alpha"; Sample.h 3 2 "Bravo";
                    Sample.h 5 3 "Charlie"])
       JUndefined []
  = MkOutcome None
      [MkMessage "First heading level should be `1`"
                 (AtNode (Sample.h 3 2 "Bravo")) false]
  /\ remarkLintFirstHeadingLevel (Build.root [Sample.g 1 "Alpha"]) (JNum 2) []
     = MkOutcome None [].
Proof.
  split.
  - apply (proj1 (first_heading_level_first_authored_rank
                    (Build.root
                       [Build.html (Build.at_ 1 1 0 1 13 12) "<div></div>";
                        Sample.g 1 "Alpha"; Sample.h 3 2 "Bravo";
                        Sample.h 5 3 "Charlie"])
                    JUndefined [])
                 [Build.root
                    [Build.html (Build.at_ 1 1 0 1 13 12) "<div></div>";
                     Sample.g 1 "Alpha"; Sample.h 3 2 "Bravo";
                     Sample.h 5 3 "Charlie"];
                  Build.html (Build.at_ 1 1 0 1 13 12) "<div></div>";
                  Sample.g 1 "Alpha"; Build.text None "Alpha"]
                 (Sample.h 3 2 "Bravo")
                 [Build.text (Build.at_ 3 1 0 3 9 0) "Bravo";
                  Sample.h 5 3 "Charlie";
                  Build.text (Build.at_ 5 1 0 5 9 0) "Charlie"]
                 2).
    + reflexivity.
    + repeat (apply List.Forall_cons || apply List.Forall_nil);
        first [left; reflexivity | right; reflexivity].
    + reflexivity.
    + reflexivity.
  - apply (proj2 (first_heading_level_first_authored_rank
                    (Build.root [Sample.g 1 "Alpha"]) (JNum 2) [])).
    repeat (apply List.Forall_cons || apply List.Forall_nil);
      first [left; reflexivity | right; reflexivity].
Defined.

(** C3 as stated fails: a generated heading does not end the walk. *)
Lemma generated_heading_does_not_stop_walk :
  ~ (forall tree opt pre n post rank,
       Walker.preorder tree = pre ++ n :: post ->
       Forall (fun x => rank_of x = None) pre ->
       rank_of n = Some rank ->
       messages (remarkLintFirstHeadingLevel tree opt []) =
       if negb (Unist.generated n)
          && Js.num_strict_ne rank (preferred_of opt)
       then [MkMessage (level_reason (preferred_of opt)) (AtNode n) false]
       else []).
Proof.
  intros H.
  specialize (H (Build.root [Sample.g 1 "Alpha"; Sample.h 3 2 "Bravo"])
                JUndefined
                [Build.root [Sample.g 1 "Alpha"; Sample.h 3 2 "Bravo"]]
                (Sample.g 1 "Alpha")
                [Build.text None "Alpha"; Sample.h 3 2 "Bravo";
                 Build.text (Build.at_ 3 1 0 3 9 0) "Bravo"]
                1 eq_refl).
  assert (Hpre : Forall (fun x => rank_of x = None)
                   [Build.root [Sample.g 1 "Alpha"; Sample.h 3 2 "Bravo"]])
    by (repeat constructor).
  specialize (H Hpre eq_refl). vm_compute in H. discriminate H.
Qed.

End FirstHeadingLevelProperties.

Section HtmlRankProperties.

Import FirstHeadingLevel.

(** Whether the pattern matches at the start depends on the first three
    characters only, and an incomplete tag at the end never matches. *)
Lemma re_here_prefix c before d after :
  re_here (String c (before +:+ "<h")) = None ->
  re_here (String c (before +:+ String "<" (String "h" (String d after))))
  = None.
Proof.
  destruct before as [|b1 [|b2 before]]; simpl.
  - intros _. destruct c as [[] [] [] [] [] [] [] []]; reflexivity.
  - intros _. destruct c as [[] [] [] [] [] [] [] []]; try reflexivity;
      destruct b1 as [[] [] [] [] [] [] [] []]; reflexivity.
  - auto.
Qed.

Lemma re_here_prefix_inv c before d after :
  re_here (String c (before +:+ String "<" (String "h" (String d after))))
  = None ->
  re_here (String c (before +:+ "<h")) = None.
Proof.
  destruct before as [|b1 [|b2 before]]; simpl.
  - intros _. destruct c as [[] [] [] [] [] [] [] []]; reflexivity.
  - intros _. destruct c as [[] [] [] [] [] [] [] []]; try reflexivity;
      destruct b1 as [[] [] [] [] [] [] [] []]; reflexivity.
  - auto.
Qed.

Lemma re_match_found s : forall rank,
  re_match s = Some rank ->
  exists before d after,
    s = before +:+ String "<" (String "h" (String d after))
    /\ rank_digit d = Some rank
    /\ re_match (before +:+ "<h") = None.
Proof.
  induction s as [|c s IH]; intros rank; [discriminate|].
  cbn [re_match]. destruct (re_here (String c s)) as [r|] eqn:E.
  - intros [= ->]. unfold re_here in E.
    destruct c as [[] [] [] [] [] [] [] []]; try discriminate.
    destruct s as [|c2 s]; [discriminate|].
    destruct c2 as [[] [] [] [] [] [] [] []]; try discriminate.
    destruct s as [|d s]; [discriminate|].
    exists EmptyString, d, s. auto.
  - intros H. destruct (IH _ H) as (before & d & after & -> & Hd & Hnone).
    exists (String c before), d, after. repeat split; [done|].
    change (String c before +:+ "<h") with (String c (before +:+ "<h")).
    cbn [re_match]. now rewrite (re_here_prefix_inv _ _ _ _ E).
Qed.

Lemma re_match_leftmost before : forall d after rank,
  rank_digit d = Some rank ->
  re_match (before +:+ "<h") = None ->
  re_match (before +:+ String "<" (String "h" (String d after)))
  = Some rank.
Proof.
  induction before as [|c before IH]; intros d after rank Hd Hnone.
  - simpl. now rewrite Hd.
  - change (String c before +:+ "<h")
      with (String c (before +:+ "<h")) in Hnone.
    change (String c before +:+ String "<" (String "h" (String d after)))
      with (String c (before +:+ String "<" (String "h" (String d after)))).
    cbn [re_match] in Hnone |- *.
    destruct (re_here (String c (before +:+ "<h"))) eqn:E; [discriminate|].
    rewrite (re_here_prefix _ _ d after E). now apply IH.
Qed.

(** C4, as amended.  An html node determines the first heading rank
    exactly when its value contains [<h] followed by a digit from 1 to 6
    at any position, leading or not; the rank is the digit of the
    leftmost such place. *)
Theorem html_rank_from_leftmost_tag node rank :
  type node = "html" ->
  rank_of node = Some rank <->
  exists before d after,
    value node = before +:+ String "<" (String "h" (String d after))
    /\ rank_digit d = Some rank
    /\ re_match (before +:+ "<h") = None.
Proof.
  intros Ht. unfold rank_of, infer. rewrite Ht. simpl. split.
  - apply re_match_found.
  - intros (before & d & after & -> & Hd & Hnone).
    now apply re_match_leftmost.
Qed.

Lemma html_rank_from_leftmost_tag_witness :
  rank_of (Build.html (Build.at_ 1 1 0 1 23 22) "<div><h2>Bravo</h2></div>")
  = Some 2.
Proof.
  apply (html_rank_from_leftmost_tag
           (Build.html (Build.at_ 1 1 0 1 23 22) "<div><h2>Bravo</h2></div>")
           2).
  - reflexivity.
  - exists "<div>", "2"%char, ">Bravo</h2></div>".
    repeat split.
Defined.

(** C4 as stated fails: a tag that is not leading gives a rank too. *)
Lemma html_rank_not_only_leading :
  ~ (forall node rank,
       type node = "html" ->
       rank_of node = Some rank ->
       exists d after,
         value node = String "<" (String "h" (String d after))).
Proof.
  intros H.
  destruct (H (Build.html (Build.at_ 1 1 0 1 23 22)
                          "<div><h2>Bravo</h2></div>")
              2 eq_refl eq_refl) as (d & after & E).
  discriminate E.
Qed.

End HtmlRankProperties.

(** ** unordered-list-marker-style *)

Lemma run_visits_continues {S : Type}
    (visitor : Node -> list Node -> S -> Signal * S) l :
  (forall n ps s, fst (visitor n ps s) = CONTINUE) ->
  forall s, fst (Walker.run_visits visitor l s) = CONTINUE.
Proof.
  intros Hv. induction l as [|[n ps] l IH]; intros s; simpl; [reflexivity|].
  specialize (Hv n ps s). destruct (visitor n ps s) as [sig s1].
  simpl in *. subst sig. apply IH.
Qed.

Section MarkerStyleProperties.

Import UnorderedListMarkerStyle.

Lemma styles_true s :
  styles !! s = Some true <->
  s = "-" \/ s = "*" \/ s = "+" \/ s = "undefined".
Proof.
  unfold styles. split.
  - intros H.
    destruct (decide (s = "-")) as [|N1]; [tauto|].
    destruct (decide (s = "*")) as [|N2]; [tauto|].
    destruct (decide (s = "+")) as [|N3]; [tauto|].
    destruct (decide (s = "undefined")) as [|N4]; [tauto|].
    rewrite !lookup_insert_ne, lookup_empty in H by done. discriminate.
  - intros [ -> | [ -> | [ -> | -> ] ] ]; reflexivity.
Qed.

Lemma walk_never_throws tree value st :
  fst (Walker.visit (Walker.is_type "list") (onList value) tree st)
  = CONTINUE.
Proof.
  unfold Walker.visit. rewrite visitParents_visits.
  apply run_visits_continues. intros n ps s. unfold Walker.guarded.
  destruct (Walker.is_type "list" n); [|reflexivity].
  unfold onList. now destruct (ordered n).
Qed.

(** C5, as amended.  A string option other than ["consistent"], ["-"],
    ["*"] and ["+"] (the string ["undefined"] is left aside) makes the
    rule throw the fatal message at once: the outcome holds that one
    message and does not depend on the tree, so no node is visited and
    no per-node message is reported.  An option that is not a string is
    treated as an absent one, and the rule does not throw. *)
Theorem marker_style_fails_fast_on_invalid_string tree value file :
  (forall s,
      s <> "consistent" -> s <> "-" -> s <> "*" -> s <> "+" ->
      s <> "undefined" ->
      remarkLintUnorderedListMarkerStyle tree value (JStr s) file =
      MkOutcome
        (Some (VFileFailure
                 (MkMessage (incorrect_reason (Some s)) NoPlace true)))
        (file ++ [MkMessage (incorrect_reason (Some s)) NoPlace true]))
  /\ (forall opt,
        (forall s, opt <> JStr s) ->
        remarkLintUnorderedListMarkerStyle tree value opt file
        = remarkLintUnorderedListMarkerStyle tree value JUndefined file
        /\ thrown (remarkLintUnorderedListMarkerStyle tree value opt file)
           = None).
Proof.
  split.
  - intros s Hc H1 H2 H3 H4.
    unfold remarkLintUnorderedListMarkerStyle, preferred_of.
    destruct (String.eqb_spec s "consistent") as [|_]; [done|].
    simpl. rewrite bool_decide_eq_false_2; [reflexivity|].
    rewrite styles_true. tauto.
  - intros opt Hopt.
    assert (E : preferred_of opt = None).
    { destruct opt as [| | |s]; try reflexivity. now destruct (Hopt s). }
    unfold remarkLintUnorderedListMarkerStyle. rewrite E.
    change (negb (bool_decide (styles !! property_key None = Some true)))
      with false.
    cbv iota. split; [reflexivity|].
    unfold outcome_of. cbn [thrown]. now rewrite walk_never_throws.
Qed.

Lemma marker_style_fails_fast_on_invalid_string_witness :
  remarkLintUnorderedListMarkerStyle (Build.root []) "" (JStr "x") []
  = MkOutcome
      (Some (VFileFailure
         (MkMessage
            "Incorrect unordered list item marker style `x`: use either `'-'`, `'*'`, or `'+'`"
            NoPlace true)))
      [MkMessage
         "Incorrect unordered list item marker style `x`: use either `'-'`, `'*'`, or `'+'`"
         NoPlace true]
  /\ thrown (remarkLintUnorderedListMarkerStyle (Build.root []) "" (JNum 1) [])
     = None.
Proof.
  split.
  - apply (proj1 (marker_style_fails_fast_on_invalid_string
                    (Build.root []) "" []) "x"); discriminate.
  - apply (proj2 (marker_style_fails_fast_on_invalid_string
                    (Build.root []) "" []) (JNum 1)).
    discriminate.
Defined.

(** C5 as stated fails: a number is outside the accepted values, yet
    the rule does not throw on it. *)
Lemma marker_style_number_does_not_fail :
  ~ (forall tree value opt file,
       opt <> JUndefined -> opt <> JStr "consistent" ->
       opt <> JStr "-" -> opt <> JStr "*" -> opt <> JStr "+" ->
       exists m,
         remarkLintUnorderedListMarkerStyle tree value opt file =
         MkOutcome (Some (VFileFailure m)) (file ++ [m])).
Proof.
  intros H.
  destruct (H (Build.root []) "" (JNum 1) []) as [m E]; try discriminate.
Qed.

(** C6, as amended.  When the rule throws, the option is a string [v]
    and the message thrown, which is fatal and is the only one added to
    the file, reads: Incorrect unordered list item marker style `v`: use
    either `'-'`, `'*'`, or `'+'` (each marker quoted and set in
    backticks). *)
Theorem marker_style_failure_text tree value opt file m :
  thrown (remarkLintUnorderedListMarkerStyle tree value opt file)
  = Some (VFileFailure m) ->
  exists v,
    opt = JStr v
    /\ reason m =
       "Incorrect unordered list item marker style `" +:+ v
       +:+ "`: use either `'-'`, `'*'`, or `'+'`"
    /\ fatal m = true
    /\ messages (remarkLintUnorderedListMarkerStyle tree value opt file)
       = file ++ [m].
Proof.
  unfold remarkLintUnorderedListMarkerStyle.
  destruct (negb (bool_decide
              (styles !! property_key (preferred_of opt) = Some true))) eqn:E.
  - simpl. intros [= <-].
    destruct opt as [| | |v]; try discriminate E.
    exists v. unfold preferred_of in *.
    destruct (String.eqb v "consistent"); [discriminate E|].
    auto.
  - unfold outcome_of. rewrite walk_never_throws. discriminate.
Qed.

Lemma marker_style_failure_text_witness :
  exists v,
    JStr "x" = JStr v
    /\ reason (MkMessage (incorrect_reason (Some "x")) NoPlace true) =
       "Incorrect unordered list item marker style `" +:+ v
       +:+ "`: use either `'-'`, `'*'`, or `'+'`"
    /\ fatal (MkMessage (incorrect_reason (Some "x")) NoPlace true) = true
    /\ messages
         (remarkLintUnorderedListMarkerStyle (Build.root []) "" (JStr "x") [])
       = [] ++ [MkMessage (incorrect_reason (Some "x")) NoPlace true].
Proof.
  apply (marker_style_failure_text (Build.root []) "" (JStr "x") []).
  reflexivity.
Defined.

(** C6 as stated fails: the text thrown is not the one the
    specification gives, which has no backticks around the markers. *)
Lemma marker_style_failure_text_differs :
  ~ (forall tree value opt file m,
       thrown (remarkLintUnorderedListMarkerStyle tree value opt file)
       = Some (VFileFailure m) ->
       exists v, opt = JStr v /\ reason m = spec_incorrect_reason v).
Proof.
  intros H.
  destruct (H (Build.root []) "" (JStr "x") [] _ eq_refl) as (v & [= <-] & E).
  vm_compute in E. discriminate E.
Qed.

End MarkerStyleProperties.

(** ** no-heading-indent *)

Section HeadingIndentProperties.

Import NoHeadingIndent.

Lemma indent_onHeading_reported node parents file :
  onHeading node parents file = (CONTINUE, file ++ reported node parents).
Proof.
  unfold reported.
  rewrite <- (app_nil_r file) at 1.
  rewrite (indent_onHeading_commutes node parents file []).
  f_equal. unfold onHeading.
  destruct (Unist.pointStart5 node); [|reflexivity].
  destruct (last parents); [|reflexivity].
  destruct (negb _); [reflexivity|].
  now destruct (_ =? 0).
Qed.

Lemma indent_run_visits l : forall file,
  Walker.run_visits (Walker.guarded (Walker.is_type "heading") onHeading)
                    l file =
  (CONTINUE,
   file ++ flat_map (fun v => reported (fst v) (snd v))
             (filter (fun v => Walker.is_type "heading" (fst v) = true) l)).
Proof.
  induction l as [|[n ps] l IH]; intros file.
  - simpl. now rewrite app_nil_r.
  - simpl. unfold Walker.guarded at 1 3. rewrite filter_cons. simpl.
    destruct (Walker.is_type "heading" n) eqn:E.
    + rewrite decide_True by done.
      rewrite indent_onHeading_reported. simpl.
      now rewrite IH, app_assoc.
    + rewrite decide_False by (intros ?; congruence). simpl. apply IH.
Qed.

(** C7.  The rule reports, in document order, what the visits of the
    heading nodes report.  The visit of a heading whose parent is the
    root and whose start column is [c] reports nothing when [c - 1] is
    zero and otherwise exactly one message, which names [c - 1] as the
    number of spaces found and to remove, with [space] for one and
    [spaces] otherwise.  The visit of a heading whose parent is not the
    root, or that has no parent, reports nothing. *)
Theorem heading_indent_checked_under_root_only tree file :
  remarkLintNoHeadingIndent tree file =
    MkOutcome None
      (file ++ flat_map (fun v => reported (fst v) (snd v))
                 (heading_visits tree))
  /\ (forall node parents parent start,
        last parents = Some parent ->
        type parent = "root" ->
        Unist.pointStart5 node = Some start ->
        reported node parents =
        if column start - 1 =? 0 then []
        else
          [MkMessage
             ("Unexpected `" +:+ pretty (column start - 1) +:+ "` "
              +:+ (if column start - 1 =? 1 then "space" else "spaces")
              +:+ " before heading, expected `0` spaces, remove `"
              +:+ pretty (column start - 1) +:+ "` "
              +:+ (if column start - 1 =? 1 then "space" else "spaces"))
             (AtPoint start) false])
  /\ (forall node parents,
        (forall parent, last parents = Some parent ->
                        type parent <> "root") ->
        reported node parents = []).
Proof.
  split; [|split].
  - unfold remarkLintNoHeadingIndent.
    rewrite visitParents_visits, indent_run_visits.
    reflexivity.
  - intros node parents parent start Hlast Hroot Hstart.
    unfold reported, onHeading. rewrite Hstart, Hlast, Hroot. simpl.
    destruct (column start - 1 =? 0); [reflexivity|].
    reflexivity.
  - intros node parents Hparent. unfold reported, onHeading.
    destruct (Unist.pointStart5 node); [|reflexivity].
    destruct (last parents) as [parent|] eqn:E; [|reflexivity].
    specialize (Hparent parent eq_refl).
    destruct (String.eqb_spec (type parent) "root"); [done|reflexivity].
Qed.

Lemma heading_indent_checked_under_root_only_witness :
  reported (Sample.indented 1 4 "Mercury")
           [Build.root [Sample.indented 1 4 "Mercury"]]
  = [MkMessage
       "Unexpected `3` spaces before heading, expected `0` spaces, remove `3` spaces"
       (AtPoint (Build.point 1 4 0)) false]
  /\ reported (Sample.indented 1 4 "Mercury")
              [Build.root []; Build.parent "blockquote" None []]
     = [].
Proof.
  split.
  - apply (proj1 (proj2 (heading_indent_checked_under_root_only
                           (Build.root []) []))
                 (Sample.indented 1 4 "Mercury")
                 [Build.root [Sample.indented 1 4 "Mercury"]]
                 (Build.root [Sample.indented 1 4 "Mercury"])
                 (Build.point 1 4 0));
      reflexivity.
  - apply (proj2 (proj2 (heading_indent_checked_under_root_only
                           (Build.root []) []))).
    intros parent [= <-]. discriminate.
Defined.

End HeadingIndentProperties.

(** ** Characters of a text *)

Section Utf8Groups.

Import Str.

Lemma width_ascii b : width b = 1 -> (code b <? 128) = true.
Proof.
  unfold width. destruct (code b <? 128); [reflexivity|].
  destruct (code b <? 192); [discriminate|].
  destruct (code b <? 224); [discriminate|].
  destruct (code b <? 240); [discriminate|].
  destruct (code b <? 248); discriminate.
Qed.

Lemma width_not_ascii b : width b <> 1 -> (code b <? 128) = false.
Proof.
  unfold width. destruct (code b <? 128); [now intros []|reflexivity].
Qed.

Lemma width_ascii_inv b : (code b <? 128) = true -> width b = 1.
Proof. unfold width. now intros ->. Qed.

Lemma append_assoc (a b c : string) : (a +:+ b) +:+ c = a +:+ (b +:+ c).
Proof.
  induction a as [|x a IH]; [reflexivity|].
  change (String x ((a +:+ b) +:+ c) = String x (a +:+ (b +:+ c))).
  now rewrite IH.
Qed.

Lemma length_append (a b : string) :
  String.length (a +:+ b) = String.length a + String.length b.
Proof. induction a as [|x a IH]; simpl; [reflexivity | now rewrite IH]. Qed.

(** The first character of a non-empty string and what follows it. *)
Lemma groups_first s :
  s <> "" ->
  exists g rest,
    s = g +:+ rest
    /\ String.length rest < String.length s
    /\ groups s = g :: groups rest
    /\ groups g = [g]
    /\ (proper g = true -> forall r, groups (g +:+ r) = g :: groups r).
Proof.
  destruct s as [|b1 s1]; [done|]. intros _.
  assert (Hone :
    (width b1 <> 1 -> proper (String b1 "") = false)
    /\ groups (String b1 "") = [String b1 ""]
    /\ (width b1 = 1 ->
        forall r, groups (String b1 "" +:+ r) = String b1 "" :: groups r)).
  { split; [|split].
    - intros H. simpl. now apply width_not_ascii.
    - simpl. now destruct (width b1) as [|[|[|[|[|n]]]]].
    - intros H r. simpl. now rewrite H. }
  destruct Hone as (Himp & Hself & Happ).
  assert (Halone :
    groups (String b1 s1) = String b1 "" :: groups s1 ->
    exists g rest,
      String b1 s1 = g +:+ rest
      /\ String.length rest < String.length (String b1 s1)
      /\ groups (String b1 s1) = g :: groups rest
      /\ groups g = [g]
      /\ (proper g = true -> forall r, groups (g +:+ r) = g :: groups r)).
  { intros E. exists (String b1 ""), s1. repeat split; auto.
    intros Hp. apply Happ.
    destruct (Nat.eq_dec (width b1) 1) as [|N]; [done|].
    rewrite (Himp N) in Hp. discriminate. }
  destruct (width b1) as [|[|[|[|[|n]]]]] eqn:W;
    try (apply Halone; simpl; now rewrite W).
  - destruct s1 as [|b2 s2]; [apply Halone; simpl; now rewrite W|].
    destruct (is_cont b2) eqn:C2;
      [|apply Halone; simpl; now rewrite W, C2].
    exists (String b1 (String b2 "")), s2. repeat split.
    + simpl. lia.
    + simpl. now rewrite W, C2.
    + simpl. now rewrite W, C2.
    + intros _ r. simpl. now rewrite W, C2.
  - destruct s1 as [|b2 [|b3 s3]];
      try (apply Halone; simpl; now rewrite W).
    destruct (is_cont b2 && is_cont b3) eqn:C;
      [|apply Halone; simpl; now rewrite W, C].
    exists (String b1 (String b2 (String b3 ""))), s3. repeat split.
    + simpl. lia.
    + simpl. now rewrite W, C.
    + simpl. now rewrite W, C.
    + intros _ r. simpl. now rewrite W, C.
  - destruct s1 as [|b2 [|b3 [|b4 s4]]];
      try (apply Halone; simpl; now rewrite W).
    destruct (is_cont b2 && is_cont b3 && is_cont b4) eqn:C;
      [|apply Halone; simpl; now rewrite W, C].
    exists (String b1 (String b2 (String b3 (String b4 "")))), s4.
    repeat split.
    + simpl. lia.
    + simpl. now rewrite W, C.
    + simpl. now rewrite W, C.
    + intros _ r. simpl. now rewrite W, C.
Qed.

Lemma string_length_ind (P : string -> Prop) :
  (forall s, (forall t, String.length t < String.length s -> P t) -> P s) ->
  forall s, P s.
Proof.
  intros H s. remember (String.length s) as n eqn:E. revert s E.
  induction n as [n IH] using lt_wf_ind. intros s ->.
  apply H. intros t Ht. now apply (IH (String.length t)).
Qed.

Lemma join_groups s : join (groups s) = s.
Proof.
  induction s as [s IH] using string_length_ind.
  destruct (String.eqb_spec s "") as [->|N]; [reflexivity|].
  destruct (groups_first s N) as (g & rest & -> & Hlen & -> & _).
  simpl. now rewrite IH.
Qed.

Lemma groups_self s g : In g (groups s) -> groups g = [g].
Proof.
  induction s as [s IH] using string_length_ind.
  destruct (String.eqb_spec s "") as [->|N]; [intros []|].
  destruct (groups_first s N) as (g0 & rest & -> & Hlen & -> & Hself & _).
  intros [<-|Hin]; [exact Hself | now apply (IH rest)].
Qed.

Lemma groups_app u r :
  well_formed u = true -> groups (u +:+ r) = groups u ++ groups r.
Proof.
  induction u as [u IH] using string_length_ind.
  destruct (String.eqb_spec u "") as [->|N]; [reflexivity|].
  destruct (groups_first u N) as (g & rest & -> & Hlen & E & _ & Happ).
  unfold well_formed. rewrite E. simpl. intros [Hg Hrest]%andb_prop.
  rewrite append_assoc, (Happ Hg). simpl. f_equal. now apply IH.
Qed.

Lemma join_app l1 l2 : join (l1 ++ l2) = join l1 +:+ join l2.
Proof.
  induction l1 as [|x l1 IH]; [reflexivity|].
  simpl. now rewrite IH, append_assoc.
Qed.

Lemma well_formed_groups s g :
  well_formed s = true -> In g (groups s) -> proper g = true.
Proof.
  unfold well_formed. rewrite forallb_forall. auto.
Qed.

Lemma assoc_In g t v : assoc g t = Some v -> In (g, v) t.
Proof.
  induction t as [|[k w] t IH]; [discriminate|]. simpl.
  destruct (String.eqb_spec k g) as [->|_].
  - intros [= ->]. now left.
  - intros H. right. now apply IH.
Qed.

(** Mapping characters twice.  When the image of every character under
    the first map is a text that the second map sends where the third map
    sends the character, the second map after the first is the third. *)
Lemma map_twice (P : string -> Prop) (f1 f2 f3 : string -> string) :
  (forall g, groups g = [g] -> proper g = true -> P g ->
             well_formed (f1 g) = true
             /\ join (map f2 (groups (f1 g))) = f3 g) ->
  forall s,
    well_formed s = true ->
    Forall P (groups s) ->
    join (map f2 (groups (join (map f1 (groups s)))))
    = join (map f3 (groups s)).
Proof.
  intros Hg s Hwf HP.
  assert (Hall : Forall (fun g => groups g = [g] /\ proper g = true /\ P g)
                        (groups s)).
  { apply Forall_forall. intros g Hin. apply list_elem_of_In in Hin.
    split; [now apply (groups_self s)|].
    split; [now apply (well_formed_groups s)|].
    rewrite Forall_forall in HP. apply HP. now apply list_elem_of_In. }
  clear Hwf HP. induction Hall as [|g gs (Hself & Hp & HPg) _ IH].
  - reflexivity.
  - destruct (Hg g Hself Hp HPg) as [Hw E].
    cbn [map join foldr]. fold (join (map f1 gs)).
    rewrite groups_app by exact Hw.
    rewrite map_app, join_app, E.
    fold (join (map f3 gs)). now rewrite IH.
Qed.

End Utf8Groups.

Section CaseMaps.

Import Str.

Lemma append_empty_r s : s +:+ "" = s.
Proof.
  induction s as [|c s IH]; [reflexivity|].
  change (String c s +:+ "") with (String c (s +:+ "")). now rewrite IH.
Qed.

(** Two maps of characters in a row, under the check of [agree]. *)
Lemma char_map_twice except c1 c2 t1 t2 :
  (forall b, (code b <? 128) = true ->
             (code (c1 b) <? 128) = true /\ c2 (c1 b) = c2 b) ->
  agree except c2 t1 t2 = true ->
  forall s,
    well_formed s = true ->
    Forall (fun g => except g = false) (groups s) ->
    join (map (char_map c2 t2)
              (groups (join (map (char_map c1 t1) (groups s)))))
    = join (map (char_map c2 t2) (groups s)).
Proof.
  intros Hascii Hagree.
  apply (map_twice (fun g => except g = false)).
  intros g Hself Hproper Hex.
  destruct g as [|b1 [|b2 g]].
  - discriminate Hself.
  - simpl in Hproper. destruct (Hascii b1 Hproper) as [Hc E].
    cbn [char_map]. split.
    + unfold well_formed. simpl. rewrite (width_ascii_inv _ Hc). simpl.
      now rewrite Hc.
    + simpl. rewrite (width_ascii_inv _ Hc). simpl. now rewrite E.
  - cbn [char_map].
    destruct (assoc (String b1 (String b2 g)) t1) as [u|] eqn:A;
      cbn [from_option id].
    + apply assoc_In in A. unfold agree in Hagree.
      rewrite forallb_forall in Hagree. specialize (Hagree _ A).
      simpl in Hagree. rewrite Hex in Hagree. simpl in Hagree.
      apply andb_prop in Hagree as [Hw Heq].
      split; [exact Hw|]. now apply String.eqb_eq in Heq.
    + split.
      * unfold well_formed. now rewrite Hself.
      * rewrite Hself. simpl. apply append_empty_r.
Qed.

End CaseMaps.

Section CaseTables.

Import Str.

Lemma has_any_Forall cs s :
  has_any cs s = false ->
  Forall (fun g => among cs g = false) (groups s).
Proof.
  unfold has_any. induction (groups s) as [|g l IH]; simpl; intros H.
  - constructor.
  - apply orb_false_elim in H as [H1 H2].
    constructor; [exact H1|now apply IH].
Qed.



Lemma upper_lower_char_ascii b :
  (code b <? 128) = true ->
  (code (lower_char b) <? 128) = true
  /\ upper_char (lower_char b) = upper_char b.
Proof.
  intros H. destruct b as [[] [] [] [] [] [] [] []];
    vm_compute in H |- *; try discriminate H; split; reflexivity.
Qed.



Lemma fold_table_upper :
  agree (among own_upper_case) upper_char CaseData.fold CaseData.upper
  = true.
Proof. vm_compute. reflexivity. Qed.



Lemma toUpperCase_fold_case X :
  well_formed X = true ->
  has_any own_upper_case X = false ->
  toUpperCase (fold_case X) = toUpperCase X.
Proof.
  intros Hw Hi. unfold fold_case, toUpperCase, fold_group, upper_group.
  apply (char_map_twice (among own_upper_case)
           lower_char upper_char CaseData.fold CaseData.upper
           upper_lower_char_ascii fold_table_upper X Hw).
  now apply has_any_Forall.
Qed.

End CaseTables.

(** ** The key of a heading *)

Section NormalizeProperties.




End NormalizeProperties.

(** ** definition-spacing *)

Section DefinitionSpacingProperties.

Import DefinitionSpacing.

Lemma spacing_onNode_passes value file x :
  is_definition x && negb (Unist.generated x) = false ->
  onNode value x file = (CONTINUE, file).
Proof. unfold onNode. now intros ->. Qed.

(** C10.  For a definition or footnote definition that is not
    generated, let [text] be the source between its start and end
    offsets.  When the label pattern does not match [text], the visitor
    throws a [TypeError] and reports nothing, and so does the rule when
    the node is the first such node of the tree; an empty label is such
    a text.  When the pattern matches, the visitor returns normally,
    with one message exactly when the label holds two consecutive
    blanks. *)
Theorem definition_spacing_needs_label_match value node file :
  is_definition node = true ->
  Unist.generated node = false ->
  let text :=
    Str.slice value
      (Unist.offset_or_0 (Unist.pointStart (Some node)))
      (Unist.offset_or_0 (Unist.pointEnd (Some node))) in
  (label_match text = None ->
     onNode value node file = (THROW TypeError, file)
     /\ forall tree pre post,
          Walker.preorder tree = pre ++ node :: post ->
          Forall (fun x => is_definition x && negb (Unist.generated x)
                           = false) pre ->
          remarkLintDefinitionSpacing tree value file
          = MkOutcome (Some TypeError) file)
  /\ (forall group,
        label_match text = Some group ->
        onNode value node file =
        (CONTINUE,
         if consecutive_whitespace group
         then file ++
              [MkMessage
                 "Do not use consecutive whitespace in definition labels"
                 (AtNode node) false]
         else file))
  /\ (forall rest, label_match (String "[" (String "]" rest)) = None).
Proof.
  intros Hdef Hgen text. subst text.
  assert (Hnone : label_match
                    (Str.slice value
                       (Unist.offset_or_0 (Unist.pointStart (Some node)))
                       (Unist.offset_or_0 (Unist.pointEnd (Some node))))
                  = None ->
                  onNode value node file = (THROW TypeError, file)).
  { intros H. unfold onNode. rewrite Hdef, Hgen.
    cbn [negb andb]. cbv zeta. now rewrite H. }
  split; [|split].
  - intros H. split; [now apply Hnone|].
    intros tree pre post Hpre Hskip. unfold remarkLintDefinitionSpacing.
    rewrite visit_any_preorder, Hpre.
    rewrite run_nodes_skip
      by (eapply Forall_impl; [exact Hskip|];
          intros x Hx; now apply spacing_onNode_passes).
    simpl. now rewrite (Hnone H).
  - intros group H. unfold onNode. rewrite Hdef, Hgen.
    cbn [negb andb]. cbv zeta. rewrite H.
    now destruct (consecutive_whitespace group).
  - reflexivity.
Qed.

Lemma definition_spacing_needs_label_match_witness :
  remarkLintDefinitionSpacing (Build.root [Sample.definition 16])
    "[]: http://a.org" []
  = MkOutcome (Some TypeError) []
  /\ onNode "[a  b]: http://a.org" (Sample.definition 20) []
     = (CONTINUE,
        [MkMessage "Do not use consecutive whitespace in definition labels"
                   (AtNode (Sample.definition 20)) false]).
Proof.
  split.
  - apply (proj2 (proj1 (definition_spacing_needs_label_match
                           "[]: http://a.org" (Sample.definition 16) []
                           eq_refl eq_refl)
                        eq_refl)
                 (Build.root [Sample.definition 16])
                 [Build.root [Sample.definition 16]] []).
    + reflexivity.
    + repeat constructor.
  - apply (proj1 (proj2 (definition_spacing_needs_label_match
                           "[a  b]: http://a.org" (Sample.definition 20) []
                           eq_refl eq_refl))
                 "a  b").
    reflexivity.
Defined.

End DefinitionSpacingProperties.

(** * Further properties of the rules *)

(** ** unordered-list-marker-style: the items *)

Section MarkerItemProperties.

Import UnorderedListMarkerStyle MarkerItems.

Lemma marker_run_visits value l : forall st,
  Walker.run_visits
    (Walker.guarded (Walker.is_type "list") (fun n _ => onList value n))
    l st =
  (CONTINUE,
   foldl (onItem value) st
     (flat_map children
        (filter (fun n => unordered_list n = true) (map fst l)))).
Proof.
  assert (HonList : forall n st,
            onList value n st =
            (CONTINUE,
             if ordered n then st
             else foldl (onItem value) st (children n))).
  { intros n st. unfold onList. now destruct (ordered n). }
  induction l as [|[n ps] l IH]; intros st; [reflexivity|].
  simpl. unfold Walker.guarded at 1 3. rewrite filter_cons.
  destruct (Walker.is_type "list" n) eqn:E; simpl.
  - rewrite HonList. simpl. destruct (ordered n) eqn:O.
    + rewrite decide_False
        by (unfold unordered_list; rewrite E, O; discriminate).
      apply IH.
    + rewrite decide_True by (unfold unordered_list; now rewrite E, O).
      simpl. rewrite foldl_app. apply IH.
  - rewrite decide_False
      by (unfold unordered_list; rewrite E; discriminate).
    apply IH.
Qed.

(** With an accepted option the rule is the loop body run over the items
    of the tree. *)
Lemma marker_rule_items tree value opt file :
  styles !! property_key (preferred_of opt) = Some true ->
  remarkLintUnorderedListMarkerStyle tree value opt file =
  MkOutcome None
    (snd (foldl (onItem value) (preferred_of opt, file) (items tree))).
Proof.
  intros Hok. unfold remarkLintUnorderedListMarkerStyle.
  rewrite bool_decide_eq_true_2 by done. cbn [negb].
  unfold Walker.visit. rewrite visitParents_visits, marker_run_visits.
  reflexivity.
Qed.

(** A preferred style that is set stays, and each authored item with
    another marker adds one message. *)
Lemma marker_items_fixed value p l : forall file,
  p <> "" ->
  foldl (onItem value) (Some p, file) l =
  (Some p,
   file ++ flat_map
     (fun child =>
        if negb (Unist.generated child)
           && negb (String.eqb (marker_of value child) p)
        then [MkMessage ("Marker style should be `" +:+ p +:+ "`")
                        (AtNode child) false]
        else []) l).
Proof.
  intros file Hp. revert file.
  induction l as [|c l IH]; intros file; simpl.
  - now rewrite app_nil_r.
  - unfold onItem at 2. simpl.
    destruct (String.eqb_spec p "") as [|_]; [done|]. simpl.
    destruct (negb (Unist.generated c)); simpl; [|apply IH].
    destruct (negb (String.eqb (marker_of value c) p)); simpl; [|apply IH].
    rewrite IH. unfold VFile.message, marker_reason.
    now rewrite <- app_assoc.
Qed.

Lemma styles_key_nonempty p : styles !! p = Some true -> p <> "".
Proof.
  rewrite styles_true. intros [ -> | [ -> | [ -> | -> ] ] ]; discriminate.
Qed.

(** X1.  With an option that names a style ([-], [*] or [+], or any
    other key the table accepts), the rule does not throw and adds
    exactly one message for each item of an unordered list that is not
    generated and whose marker is not the named one; the preferred style
    never changes during the run.  The messages come in the order of
    [items]: the unordered lists in document order, and the items of a
    list together, from first to last, so that the items of a list come
    before the items of the lists nested in them. *)
Theorem marker_fixed_style_reports_each_mismatch tree value opt p file :
  preferred_of opt = Some p ->
  styles !! p = Some true ->
  remarkLintUnorderedListMarkerStyle tree value opt file =
  MkOutcome None
    (file ++ flat_map
       (fun child =>
          if negb (Unist.generated child)
             && negb (String.eqb (marker_of value child) p)
          then [MkMessage ("Marker style should be `" +:+ p +:+ "`")
                          (AtNode child) false]
          else []) (items tree)).
Proof.
  intros Hopt Hok. rewrite marker_rule_items by now rewrite Hopt.
  rewrite Hopt, marker_items_fixed by now apply styles_key_nonempty.
  reflexivity.
Qed.

Lemma marker_items_undecided value pre : forall preferred file,
  truthy preferred = false ->
  Forall (fun c => Unist.generated c = true \/ marker_of value c = "") pre ->
  exists preferred',
    truthy preferred' = false
    /\ foldl (onItem value) (preferred, file) pre = (preferred', file).
Proof.
  induction pre as [|c pre IH]; intros preferred file Hf Hpre.
  - exists preferred. auto.
  - apply Forall_cons in Hpre as [Hc Hpre]. simpl.
    unfold onItem at 2. simpl. rewrite Hf.
    destruct Hc as [Hc|Hc].
    + rewrite Hc. simpl. now apply IH.
    + destruct (negb (Unist.generated c)); simpl; [|now apply IH].
      rewrite Hc. now apply IH.
Qed.

(** X2.  When the option leaves the style to the document, items that
    are generated or have an empty marker are passed over; the first
    other item fixes the preferred marker and is not reported; each later
    authored item with another marker gets one message naming the marker
    of that first item.  Without such an item nothing is reported. *)
Theorem marker_consistent_first_marker_decides tree value opt file :
  preferred_of opt = None ->
  (forall pre first rest,
      items tree = pre ++ first :: rest ->
      Forall (fun c => Unist.generated c = true \/ marker_of value c = "")
             pre ->
      Unist.generated first = false ->
      marker_of value first <> "" ->
      remarkLintUnorderedListMarkerStyle tree value opt file =
      MkOutcome None
        (file ++ flat_map
           (fun child =>
              if negb (Unist.generated child)
                 && negb (String.eqb (marker_of value child)
                                     (marker_of value first))
              then [MkMessage
                      ("Marker style should be `"
                       +:+ marker_of value first +:+ "`")
                      (AtNode child) false]
              else []) rest))
  /\ (Forall (fun c => Unist.generated c = true \/ marker_of value c = "")
             (items tree) ->
      remarkLintUnorderedListMarkerStyle tree value opt file =
      MkOutcome None file).
Proof.
  intros Hopt.
  assert (Hok : styles !! property_key (preferred_of opt) = Some true)
    by now rewrite Hopt.
  split.
  - intros pre first rest Hitems Hpre Hgen Hm.
    rewrite marker_rule_items by done. rewrite Hopt, Hitems, foldl_app.
    destruct (marker_items_undecided value pre None file eq_refl Hpre)
      as (preferred' & Hf & ->).
    simpl. unfold onItem at 2. simpl. rewrite Hgen, Hf. simpl.
    now rewrite marker_items_fixed.
  - intros Hall. rewrite marker_rule_items by done. rewrite Hopt.
    destruct (marker_items_undecided value (items tree) None file
                eq_refl Hall) as (preferred' & Hf & ->).
    reflexivity.
Qed.

End MarkerItemProperties.

Section MarkerTextProperties.

Import UnorderedListMarkerStyle MarkerItems.

Lemma strip_spaces_no_space s : has_space (Str.strip_spaces s) = false.
Proof.
  induction s as [|c s IH]; simpl; [reflexivity|].
  destruct (Str.is_space c) eqn:E; simpl; [exact IH|].
  now rewrite E.
Qed.

Lemma checkbox_here_needs_bracket c s :
  Ascii.eqb c "[" = false -> checkbox_here (String c s) = false.
Proof.
  intros H. unfold checkbox_here.
  destruct c as [[] [] [] [] [] [] [] []]; try reflexivity; discriminate H.
Qed.

Lemma strip_checkbox_before b rest :
  has_char "[" b = false ->
  strip_checkbox (b +:+ rest) = b +:+ strip_checkbox rest.
Proof.
  induction b as [|c b IH]; [reflexivity|].
  intros H. cbn [has_char] in H. apply orb_false_elim in H as [Hc Hb].
  change (String c b +:+ rest) with (String c (b +:+ rest)).
  cbn [strip_checkbox].
  rewrite checkbox_here_needs_bracket by exact Hc.
  now rewrite IH.
Qed.

Lemma strip_checkbox_none b :
  has_char "[" b = false -> strip_checkbox b = b.
Proof.
  induction b as [|c b IH]; [reflexivity|].
  intros H. cbn [has_char] in H. apply orb_false_elim in H as [Hc Hb].
  cbn [strip_checkbox].
  rewrite checkbox_here_needs_bracket by exact Hc.
  now rewrite IH.
Qed.

Lemma all_space_with_bracket t rest :
  Str.all_space (t +:+ String "[" rest) = false.
Proof.
  induction t as [|c t IH]; [reflexivity|].
  change (String c t +:+ String "[" rest)
    with (String c (t +:+ String "[" rest)).
  cbn [Str.all_space]. rewrite IH. apply andb_false_r.
Qed.

(** No match of the pattern starts before an opening bracket that is
    still to come. *)
Lemma checkbox_here_before c t rest :
  checkbox_here (String c t +:+ String "[" rest) = false.
Proof.
  change (String c t +:+ String "[" rest)
    with (String c (t +:+ String "[" rest)).
  destruct (Ascii.eqb c "[") eqn:Ec;
    [|now apply checkbox_here_needs_bracket].
  apply Ascii.eqb_eq in Ec. subst c.
  destruct t as [|c1 t]; [reflexivity|].
  change (String c1 t +:+ String "[" rest)
    with (String c1 (t +:+ String "[" rest)).
  unfold checkbox_here.
  destruct c1 as [[] [] [] [] [] [] [] []]; try reflexivity;
    try (cbn; apply all_space_with_bracket);
    (destruct t as [|c2 t]; [reflexivity|];
     change (String c2 t +:+ String "[" rest)
       with (String c2 (t +:+ String "[" rest));
     destruct c2 as [[] [] [] [] [] [] [] []]; try reflexivity;
     cbn; rewrite all_space_with_bracket; reflexivity).
Qed.

(** Whatever comes before a check box that ends the text, the check box
    and the white space after it are what is removed. *)
Lemma strip_checkbox_last b box ws :
  In box ["[]"; "[x]"; "[X]"; "[ ]"] ->
  Str.all_space ws = true ->
  strip_checkbox (b +:+ box +:+ ws) = b.
Proof.
  intros Hbox Hws.
  assert (E : exists rest, box +:+ ws = String "[" rest
                           /\ strip_checkbox (box +:+ ws) = "").
  { simpl in Hbox.
    destruct Hbox as [<-|[<-|[<-|[<-|[]]]]];
      (eexists; split; [reflexivity|]); simpl;
      change ("" +:+ ws) with ws; now rewrite Hws. }
  destruct E as (rest & E & Hstrip).
  induction b as [|c b IH].
  - exact Hstrip.
  - rewrite E in *.
    change (String c b +:+ String "[" rest)
      with (String c (b +:+ String "[" rest)).
    cbn [strip_checkbox].
    change (String c (b +:+ String "[" rest))
      with (String c b +:+ String "[" rest).
    rewrite checkbox_here_before.
    now rewrite IH.
Qed.

(** X3.  The marker of an item never holds white space.  When the
    source text before the first child of the item ends with a check box
    ([[]], [[x]], [[X]] or [[ ]]) and white space only after it, the
    marker is what stands before that check box, whatever it is, with its
    white space removed: the check box of a task item is not part of the
    marker.  Without any opening bracket the marker is the whole text
    with its white space removed. *)
Theorem marker_drops_checkbox_and_spaces value child :
  has_space (marker_of value child) = false
  /\ (forall b box ws,
        item_head value child = b +:+ box +:+ ws ->
        In box ["[]"; "[x]"; "[X]"; "[ ]"] ->
        Str.all_space ws = true ->
        marker_of value child = Str.strip_spaces b)
  /\ (has_char "[" (item_head value child) = false ->
      marker_of value child = Str.strip_spaces (item_head value child)).
Proof.
  split; [apply strip_spaces_no_space|]. split.
  - intros b box ws Hhead Hbox Hws.
    unfold marker_of. fold (item_head value child). rewrite Hhead.
    now rewrite strip_checkbox_last.
  - intros Hb. unfold marker_of. fold (item_head value child).
    now rewrite strip_checkbox_none.
Qed.

Lemma marker_drops_checkbox_and_spaces_witness :
  marker_of "- [x] Done"
    (Build.parent "listItem" (Build.at_ 1 1 0 1 11 10)
       [Build.parent "paragraph" (Build.at_ 1 7 6 1 11 10) []])
  = "-"
  /\ marker_of "* [x] [ ] Done"
       (Build.parent "listItem" (Build.at_ 1 1 0 1 15 14)
          [Build.parent "paragraph" (Build.at_ 1 11 10 1 15 14) []])
     = "*[x]".
Proof.
  split.
  - apply (proj1 (proj2 (marker_drops_checkbox_and_spaces "- [x] Done"
             (Build.parent "listItem" (Build.at_ 1 1 0 1 11 10)
                [Build.parent "paragraph" (Build.at_ 1 7 6 1 11 10) []])))
             "- " "[x]" " ").
    + reflexivity.
    + simpl. auto.
    + reflexivity.
  - apply (proj1 (proj2 (marker_drops_checkbox_and_spaces "* [x] [ ] Done"
             (Build.parent "listItem" (Build.at_ 1 1 0 1 15 14)
                [Build.parent "paragraph" (Build.at_ 1 11 10 1 15 14) []])))
             "* [x] " "[ ]" " ").
    + reflexivity.
    + simpl. auto.
    + reflexivity.
Defined.

Lemma marker_items_anchored value l : forall st m,
  In m (snd (foldl (onItem value) st l)) ->
  In m (snd st)
  \/ exists child,
       In child l /\ Unist.generated child = false
       /\ place m = AtNode child /\ fatal m = false.
Proof.
  induction l as [|c l IH]; intros st m Hm; simpl in Hm; [now left|].
  apply IH in Hm as [Hm|(child & Hin & H)].
  - unfold onItem in Hm.
    destruct (Unist.generated c) eqn:G; simpl in Hm; [now left|].
    destruct (truthy (fst st)); simpl in Hm; [|now left].
    destruct (negb (String.eqb _ _)); simpl in Hm; [|now left].
    unfold VFile.message in Hm. apply in_app_or in Hm as [Hm|[<-|[]]].
    + now left.
    + right. exists c. simpl. auto.
  - right. exists child. simpl. auto.
Qed.

(** X4.  With an accepted option every message the rule adds is a
    warning placed at a child of a list node of the tree that is not
    ordered, and that child is not generated: ordered lists and generated
    items are never reported. *)
Theorem marker_reports_only_authored_unordered_items tree value opt m :
  styles !! property_key (preferred_of opt) = Some true ->
  In m (messages (remarkLintUnorderedListMarkerStyle tree value opt [])) ->
  fatal m = false
  /\ exists lst child,
       In lst (Walker.preorder tree)
       /\ Walker.is_type "list" lst = true
       /\ ordered lst = false
       /\ In child (children lst)
       /\ Unist.generated child = false
       /\ place m = AtNode child.
Proof.
  intros Hok Hm. rewrite marker_rule_items in Hm by exact Hok.
  simpl in Hm.
  apply marker_items_anchored in Hm as [[]|(child & Hin & G & P & F)].
  split; [exact F|].
  unfold items in Hin. apply in_flat_map in Hin as (lst & Hlst & Hchild).
  apply list_elem_of_In, list_elem_of_filter in Hlst as [Hu Hlst].
  unfold unordered_list in Hu. apply andb_prop in Hu as [Ht Ho].
  exists lst, child. repeat split; try done.
  - now apply list_elem_of_In.
  - now destruct (ordered lst).
Qed.

End MarkerTextProperties.

(** ** unordered-list-marker-style: lists with one marker *)

Section PassingDocuments.

Import UnorderedListMarkerStyle MarkerItems.

Lemma marker_items_uniform value m l : forall preferred file,
  truthy preferred = false \/ preferred = Some m ->
  Forall (fun c => Unist.generated c = true \/ marker_of value c = m) l ->
  exists preferred',
    (truthy preferred' = false \/ preferred' = Some m)
    /\ foldl (onItem value) (preferred, file) l = (preferred', file).
Proof.
  induction l as [|c l IH]; intros preferred file Hp Hl.
  - exists preferred. auto.
  - apply Forall_cons in Hl as [Hc Hl]. cbn [foldl].
    assert (E : exists preferred',
              (truthy preferred' = false \/ preferred' = Some m)
              /\ onItem value (preferred, file) c = (preferred', file)).
    { unfold onItem. cbn [fst snd].
      destruct (Unist.generated c) eqn:G; cbn [negb].
      - exists preferred. auto.
      - destruct Hc as [Hc|Hc]; [discriminate Hc|].
        destruct Hp as [Hp| ->].
        + rewrite Hp. exists (Some (marker_of value c)).
          split; [right; now rewrite Hc | reflexivity].
        + exists (Some m). split; [now right|].
          destruct (truthy (Some m)); [|now rewrite Hc].
          cbn [property_key default].
          now rewrite Hc, String.eqb_refl. }
    destruct E as (preferred' & Hp' & ->). now apply IH.
Qed.

(** X5.  When every item of the unordered lists that is not generated
    has the same marker, and the option either names that marker or
    leaves the style to the document, the rule adds no message. *)
Theorem marker_uniform_lists_pass tree value opt m file :
  preferred_of opt = None
  \/ (preferred_of opt = Some m /\ styles !! m = Some true) ->
  Forall (fun c => Unist.generated c = true \/ marker_of value c = m)
         (items tree) ->
  remarkLintUnorderedListMarkerStyle tree value opt file =
  MkOutcome None file.
Proof.
  intros Hopt Hall.
  assert (Hok : styles !! property_key (preferred_of opt) = Some true).
  { destruct Hopt as [->|[-> H]]; [reflexivity | exact H]. }
  rewrite marker_rule_items by exact Hok.
  destruct (marker_items_uniform value m (items tree) (preferred_of opt)
              file) as (preferred' & _ & ->); [|exact Hall|reflexivity].
  destruct Hopt as [->|[-> _]]; [now left | now right].
Qed.

Lemma marker_uniform_lists_pass_witness :
  remarkLintUnorderedListMarkerStyle MarkerSample.tree
    MarkerSample.uniform_source JUndefined []
  = MkOutcome None []
  /\ remarkLintUnorderedListMarkerStyle MarkerSample.tree
       MarkerSample.uniform_source (JStr "*") []
     = MkOutcome None [].
Proof.
  split.
  - apply (marker_uniform_lists_pass MarkerSample.tree
             MarkerSample.uniform_source JUndefined "*" []).
    + left. reflexivity.
    + repeat (apply List.Forall_cons || apply List.Forall_nil);
        right; reflexivity.
  - apply (marker_uniform_lists_pass MarkerSample.tree
             MarkerSample.uniform_source (JStr "*") "*" []).
    + right. split; reflexivity.
    + repeat (apply List.Forall_cons || apply List.Forall_nil);
        right; reflexivity.
Defined.

End PassingDocuments.


(** ** first-heading-level: the message and the option *)

Section FirstHeadingLevelMore.

Import FirstHeadingLevel.

Lemma level_run_nodes preferred l : forall file,
  Walker.run_nodes (onNode preferred) l file = (CONTINUE, file)
  \/ Walker.run_nodes (onNode preferred) l file = (EXIT, file)
  \/ exists n,
       In n l /\ Unist.generated n = false
       /\ Walker.run_nodes (onNode preferred) l file =
          (EXIT, file ++ [MkMessage (level_reason preferred) (AtNode n) false]).
Proof.
  assert (Hpass : forall n file,
            onNode preferred n file = (CONTINUE, file) ->
            forall l',
              Walker.run_nodes (onNode preferred) (n :: l') file =
              Walker.run_nodes (onNode preferred) l' file).
  { intros n file H l'. simpl. now rewrite H. }
  induction l as [|n l IH]; intros file; [now left|].
  destruct (Unist.generated n) eqn:G.
  - rewrite Hpass by (apply onNode_passes; now left).
    destruct (IH file) as [H|[H|(x & Hin & Hx & H)]]; rewrite H.
    + now left.
    + right. now left.
    + right. right. exists x. simpl. auto.
  - destruct (rank_of n) as [rank|] eqn:R.
    + simpl. unfold onNode. rewrite G, R. simpl.
      destruct (Js.num_strict_ne rank preferred).
      * right. right. exists n. auto.
      * right. now left.
    + rewrite Hpass by (apply onNode_passes; now right).
      destruct (IH file) as [H|[H|(x & Hin & Hx & H)]]; rewrite H.
      * now left.
      * right. now left.
      * right. right. exists x. simpl. auto.
Qed.

(** X6.  The rule never throws and adds at most one message: the file
    is left as it was, or it gains the single message, placed at a node
    of the tree that is not generated. *)
Theorem first_heading_level_at_most_one_message tree opt file :
  thrown (remarkLintFirstHeadingLevel tree opt file) = None
  /\ (messages (remarkLintFirstHeadingLevel tree opt file) = file
      \/ exists n,
           In n (Walker.preorder tree)
           /\ Unist.generated n = false
           /\ messages (remarkLintFirstHeadingLevel tree opt file) =
              file ++
              [MkMessage
                 ("First heading level should be `"
                  +:+ Js.to_string (preferred_of opt) +:+ "`")
                 (AtNode n) false]).
Proof.
  unfold remarkLintFirstHeadingLevel. rewrite visit_any_preorder.
  destruct (level_run_nodes (preferred_of opt) (Walker.preorder tree) file)
    as [H|[H|(n & Hin & Hn & H)]]; rewrite H; simpl; auto.
  split; [reflexivity|]. right. exists n. auto.
Qed.

Lemma rank_digit_range d r : rank_digit d = Some r -> 1 <= r <= 6.
Proof.
  unfold rank_digit.
  destruct (Nat.leb_spec 49 (Str.code d)); simpl; [|discriminate].
  destruct (Nat.leb_spec (Str.code d) 54); [|discriminate].
  intros [= <-]. lia.
Qed.

(** X7.  The rank an html node gives is a number from 1 to 6. *)
Theorem html_rank_between_1_and_6 node r :
  type node = "html" ->
  rank_of node = Some r ->
  1 <= r <= 6.
Proof.
  intros Ht. unfold rank_of, infer. rewrite Ht. simpl. intros H.
  apply re_match_found in H as (before & d & after & _ & Hd & _).
  now apply rank_digit_range in Hd.
Qed.

Lemma html_rank_between_1_and_6_witness : 1 <= 3 <= 6.
Proof.
  apply (html_rank_between_1_and_6
           (Build.html (Build.at_ 1 1 0 1 14 13) "<h3>Alpha</h3>") 3);
    reflexivity.
Defined.

Lemma level_first_authored preferred pre n post rank file :
  Forall (fun x => Unist.generated x = true \/ rank_of x = None) pre ->
  Unist.generated n = false ->
  rank_of n = Some rank ->
  Walker.run_nodes (onNode preferred) (pre ++ n :: post) file =
  (EXIT,
   if Js.num_strict_ne rank preferred
   then file ++ [MkMessage (level_reason preferred) (AtNode n) false]
   else file).
Proof.
  intros Hskip Hgen Hrank.
  rewrite run_nodes_skip
    by (eapply Forall_impl; [exact Hskip|];
        intros x Hx; now apply onNode_passes).
  simpl. unfold onNode. rewrite Hgen, Hrank. simpl.
  now destruct (Js.num_strict_ne _ _).
Qed.

(** X8.  An option that is falsy ([undefined], [false], [0], the empty
    string) or [true] behaves as the option [1].  A non-empty string
    option is never equal to a rank, which is a number: the first node
    that is not generated and bears a rank is then always reported, even
    when the string spells its rank. *)
Theorem first_heading_level_option_handling tree file :
  (forall opt,
      Js.truthy opt = false \/ opt = JBool true ->
      remarkLintFirstHeadingLevel tree opt file =
      remarkLintFirstHeadingLevel tree (JNum 1) file)
  /\ (forall s pre n post rank,
        s <> "" ->
        Walker.preorder tree = pre ++ n :: post ->
        Forall (fun x => Unist.generated x = true \/ rank_of x = None) pre ->
        Unist.generated n = false ->
        rank_of n = Some rank ->
        remarkLintFirstHeadingLevel tree (JStr s) file =
        MkOutcome None
          (file ++ [MkMessage ("First heading level should be `" +:+ s +:+ "`")
                              (AtNode n) false])).
Proof.
  split.
  - intros opt [H| ->]; [|reflexivity].
    unfold remarkLintFirstHeadingLevel.
    replace (preferred_of opt) with (JNum 1); [reflexivity|].
    unfold preferred_of. destruct opt as [|[]|k|s]; simpl in *;
      try reflexivity; try discriminate; now rewrite H.
  - intros s pre n post rank Hs Hpre Hskip Hgen Hrank.
    unfold remarkLintFirstHeadingLevel. rewrite visit_any_preorder, Hpre.
    rewrite (level_first_authored _ _ _ _ rank) by done.
    unfold preferred_of. simpl.
    destruct (String.eqb_spec s "") as [|_]; [done|]. reflexivity.
Qed.

Lemma first_heading_level_option_handling_witness :
  remarkLintFirstHeadingLevel (Build.root [Sample.h 1 1 "Alpha"]) (JNum 0) []
  = remarkLintFirstHeadingLevel (Build.root [Sample.h 1 1 "Alpha"]) (JNum 1) []
  /\ remarkLintFirstHeadingLevel (Build.root [Sample.h 1 1 "Alpha"])
       (JStr "1") []
     = MkOutcome None
         [MkMessage "First heading level should be `1`"
                    (AtNode (Sample.h 1 1 "Alpha")) false].
Proof.
  split.
  - apply (proj1 (first_heading_level_option_handling
                    (Build.root [Sample.h 1 1 "Alpha"]) [])).
    left. reflexivity.
  - apply (proj2 (first_heading_level_option_handling
                    (Build.root [Sample.h 1 1 "Alpha"]) [])
                 "1" [Build.root [Sample.h 1 1 "Alpha"]]
                 (Sample.h 1 1 "Alpha")
                 [Build.text (Build.at_ 1 1 0 1 9 0) "Alpha"] 1).
    + discriminate.
    + reflexivity.
    + repeat (apply List.Forall_cons || apply List.Forall_nil).
      left. reflexivity.
    + reflexivity.
    + reflexivity.
Defined.

End FirstHeadingLevelMore.

(** ** definition-spacing: the label pattern and the whole rule *)

Section DefinitionLabelProperties.

Import DefinitionSpacing DefinitionLabels.

Lemma backslash_not_bracket c :
  is_backslash c = true -> is_bracket c = false.
Proof. destruct c as [[] [] [] [] [] [] [] []]; now vm_compute. Qed.

Lemma not_bracket_not_closing c :
  is_bracket c = false -> Ascii.eqb c "]" = false.
Proof. unfold is_bracket. now intros [_ H]%orb_false_elim. Qed.

Lemma closing_is_bracket c :
  Ascii.eqb c "]" = true -> is_bracket c = true /\ is_backslash c = false.
Proof. intros ->%Ascii.eqb_eq. now vm_compute. Qed.

Lemma label_rest_bracketed n : forall s g,
  String.length s <= n ->
  label_rest s = Some g ->
  exists rest, s = g +:+ String "]" rest.
Proof.
  induction n as [|n IH]; intros s g Hlen H.
  - destruct s; [discriminate H | simpl in Hlen; lia].
  - destruct s as [|c s1]; [discriminate H|].
    simpl in Hlen. cbn [label_rest] in H.
    destruct (is_backslash c) eqn:B.
    + rewrite (backslash_not_bracket c B) in H.
      rewrite (not_bracket_not_closing c (backslash_not_bracket c B)) in H.
      destruct s1 as [|c2 s2]; [simpl in H; discriminate H|].
      destruct (label_rest (String c2 s2)) as [g1|] eqn:E1;
        destruct (label_rest s2) as [g2|] eqn:E2; simpl in H;
        try discriminate H.
      * injection H as <-.
        destruct (IH s2 g2) as [rest ->]; [simpl in Hlen; lia | done |].
        now exists rest.
      * injection H as <-.
        destruct (IH (String c2 s2) g1) as [rest Hs];
          [simpl in *; lia | done |].
        rewrite Hs. now exists rest.
      * injection H as <-.
        destruct (IH s2 g2) as [rest ->]; [simpl in Hlen; lia | done |].
        now exists rest.
    + destruct (is_bracket c) eqn:K.
      * destruct (Ascii.eqb_spec c "]") as [->|]; [|discriminate H].
        injection H as <-. now exists s1.
      * rewrite (not_bracket_not_closing c K) in H.
        destruct (label_rest s1) as [g1|] eqn:E1; [|discriminate H].
        injection H as <-.
        destruct (IH s1 g1) as [rest ->]; [lia | done |].
        now exists rest.
Qed.

Lemma label_group_bracketed s g :
  label_group s = Some g ->
  g <> "" /\ exists rest, s = g +:+ String "]" rest.
Proof.
  destruct s as [|c s1]; [discriminate|]. cbn [label_group]. intros H.
  destruct (is_backslash c) eqn:B.
  - rewrite (backslash_not_bracket c B) in H.
    destruct s1 as [|c2 s2]; [simpl in H; discriminate H|].
    destruct (label_rest (String c2 s2)) as [g1|] eqn:E1;
      destruct (label_rest s2) as [g2|] eqn:E2; simpl in H;
      try discriminate H; injection H as <-; (split; [discriminate|]).
    + destruct (label_rest_bracketed _ s2 g2 (le_n _) E2) as [rest ->].
      now exists rest.
    + destruct (label_rest_bracketed _ _ g1 (le_n _) E1) as [rest Hs].
      rewrite Hs. now exists rest.
    + destruct (label_rest_bracketed _ s2 g2 (le_n _) E2) as [rest ->].
      now exists rest.
  - destruct (is_bracket c); [discriminate H|].
    destruct (label_rest s1) as [g1|] eqn:E1; [|discriminate H].
    injection H as <-. split; [discriminate|].
    destruct (label_rest_bracketed _ s1 g1 (le_n _) E1) as [rest ->].
    now exists rest.
Qed.

Lemma skip_spaces_prefix s :
  exists ws, s = ws +:+ skip_spaces s /\ Str.all_space ws = true.
Proof.
  induction s as [|c s (ws & Hs & Hws)]; [now exists ""|].
  cbn [skip_spaces]. destruct (Str.is_space c) eqn:E.
  - exists (String c ws). simpl. rewrite E, Hws. split; [|reflexivity].
    change (String c ws +:+ skip_spaces s)
      with (String c (ws +:+ skip_spaces s)).
    now rewrite <- Hs.
  - now exists "".
Qed.

(** X9.  What the label pattern captures is never empty and stands in
    the text between an opening bracket, which only white space may
    precede, and a closing bracket. *)
Theorem label_match_is_bracketed_prefix s g :
  label_match s = Some g ->
  g <> ""
  /\ exists ws rest,
       s = ws +:+ String "[" (g +:+ String "]" rest)
       /\ Str.all_space ws = true.
Proof.
  unfold label_match. intros H.
  destruct (skip_spaces_prefix s) as (ws & Hs & Hws).
  destruct (skip_spaces s) as [|c s1]; [discriminate H|].
  destruct (Ascii.eqb_spec c "[") as [->|Hc].
  - apply label_group_bracketed in H as [Hg [rest ->]].
    split; [exact Hg|]. now exists ws, rest.
  - exfalso. destruct c as [[] [] [] [] [] [] [] []];
      try discriminate H. now apply Hc.
Qed.

Lemma label_match_is_bracketed_prefix_witness :
  "a b" <> ""
  /\ exists ws rest,
       " [a b]: c" = ws +:+ String "[" ("a b" +:+ String "]" rest)
       /\ Str.all_space ws = true.
Proof.
  apply (label_match_is_bracketed_prefix " [a b]: c" "a b"). reflexivity.
Defined.

Lemma label_rest_plain g rest :
  plain g = true -> label_rest (g +:+ String "]" rest) = Some g.
Proof.
  induction g as [|c g IH]; intros H.
  - reflexivity.
  - cbn [plain] in H. apply andb_prop in H as [H Hg].
    apply andb_prop in H as [K B].
    change (String c g +:+ String "]" rest)
      with (String c (g +:+ String "]" rest)).
    cbn [label_rest].
    destruct (is_backslash c); [discriminate B|].
    destruct (is_bracket c); [discriminate K|].
    now rewrite IH.
Qed.

Lemma skip_spaces_all ws s :
  Str.all_space ws = true ->
  skip_spaces (ws +:+ String "[" s) = String "[" s.
Proof.
  induction ws as [|c ws IH]; intros H; [reflexivity|].
  cbn [Str.all_space] in H. apply andb_prop in H as [Hc Hws].
  change (String c ws +:+ String "[" s) with (String c (ws +:+ String "[" s)).
  cbn [skip_spaces]. rewrite Hc. now apply IH.
Qed.

(** X10.  A non-empty label without brackets and backslashes, set in
    brackets after white space only, is what the label pattern captures,
    whatever follows the closing bracket. *)
Theorem label_match_finds_plain_label ws g rest :
  Str.all_space ws = true ->
  plain g = true ->
  g <> "" ->
  label_match (ws +:+ String "[" (g +:+ String "]" rest)) = Some g.
Proof.
  intros Hws Hg Hne. unfold label_match. rewrite skip_spaces_all by done.
  destruct g as [|c g]; [done|].
  cbn [plain] in Hg. apply andb_prop in Hg as [H Hg].
  apply andb_prop in H as [K B].
  change (String c g +:+ String "]" rest)
    with (String c (g +:+ String "]" rest)).
  cbn [label_group].
  destruct (is_backslash c); [discriminate B|].
  destruct (is_bracket c); [discriminate K|].
  now rewrite label_rest_plain.
Qed.

Lemma label_match_finds_plain_label_witness :
  label_match (" " +:+ String "[" ("example domain" +:+ String "]" ": x"))
  = Some "example domain".
Proof.
  apply (label_match_finds_plain_label " " "example domain" ": x").
  - reflexivity.
  - reflexivity.
  - discriminate.
Defined.

(** X11.  The white-space test succeeds exactly on the strings that
    hold two neighbouring characters each of which is a space, a tab or a
    line feed. *)
Theorem consecutive_whitespace_iff_two_blanks s :
  consecutive_whitespace s = true <->
  exists a c1 c2 b,
    s = a +:+ String c1 (String c2 b)
    /\ is_blank c1 = true /\ is_blank c2 = true.
Proof.
  split.
  - induction s as [|c1 s IH]; [discriminate|].
    destruct s as [|c2 s]; [discriminate|].
    cbn [consecutive_whitespace]. intros H.
    apply orb_prop in H as [H|H].
    + apply andb_prop in H as [H1 H2]. now exists "", c1, c2, s.
    + destruct (IH H) as (a & d1 & d2 & b & Hs & H1 & H2).
      exists (String c1 a), d1, d2, b. split; [|auto].
      change (String c1 a +:+ String d1 (String d2 b))
        with (String c1 (a +:+ String d1 (String d2 b))).
      now rewrite <- Hs.
  - intros (a & c1 & c2 & b & -> & H1 & H2).
    induction a as [|c a IH].
    + change ("" +:+ String c1 (String c2 b)) with (String c1 (String c2 b)).
      cbn [consecutive_whitespace]. now rewrite H1, H2.
    + change (String c a +:+ String c1 (String c2 b))
        with (String c (a +:+ String c1 (String c2 b))).
      destruct (a +:+ String c1 (String c2 b)) as [|d rest] eqn:E;
        [discriminate IH|].
      change (consecutive_whitespace (String c (String d rest)))
        with ((is_blank c && is_blank d)
              || consecutive_whitespace (String d rest)).
      rewrite IH. apply orb_true_r.
Qed.

Lemma spacing_run_nodes value l : forall file,
  Forall (fun n => checked n = true ->
                   label_match (source_of value n) <> None) l ->
  Walker.run_nodes (onNode value) l file =
  (CONTINUE,
   file ++ flat_map
     (fun n =>
        if checked n
           && consecutive_whitespace
                (default "" (label_match (source_of value n)))
        then [MkMessage
                "Do not use consecutive whitespace in definition labels"
                (AtNode n) false]
        else []) l).
Proof.
  induction l as [|n l IH]; intros file Hall.
  - simpl. now rewrite app_nil_r.
  - apply Forall_cons in Hall as [Hn Hall].
    cbn [Walker.run_nodes flat_map].
    assert (E : onNode value n file =
                (CONTINUE,
                 file ++
                 (if checked n
                     && consecutive_whitespace
                          (default "" (label_match (source_of value n)))
                  then [MkMessage
                          "Do not use consecutive whitespace in definition labels"
                          (AtNode n) false]
                  else []))).
    { unfold onNode. fold (checked n).
      destruct (checked n) eqn:C; [|now rewrite app_nil_r].
      cbv zeta. fold (source_of value n).
      destruct (label_match (source_of value n)) as [g|]; [|now destruct Hn].
      simpl. destruct (consecutive_whitespace g); [reflexivity|].
      now rewrite app_nil_r. }
    rewrite E. simpl. rewrite IH by exact Hall. now rewrite app_assoc.
Qed.

(** X12.  When the source text of every definition and footnote
    definition that is not generated matches the label pattern, the rule
    does not throw and adds, in document order, exactly one message for
    each such node whose label holds two neighbouring blanks. *)
Theorem definition_spacing_reports_each_spaced_label tree value file :
  Forall (fun n => checked n = true ->
                   label_match (source_of value n) <> None)
         (Walker.preorder tree) ->
  remarkLintDefinitionSpacing tree value file =
  MkOutcome None
    (file ++ flat_map
       (fun n =>
          if checked n
             && consecutive_whitespace
                  (default "" (label_match (source_of value n)))
          then [MkMessage
                  "Do not use consecutive whitespace in definition labels"
                  (AtNode n) false]
          else []) (Walker.preorder tree)).
Proof.
  intros Hall. unfold remarkLintDefinitionSpacing.
  rewrite visit_any_preorder, spacing_run_nodes by exact Hall.
  reflexivity.
Qed.

End DefinitionLabelProperties.

(** ** no-duplicate-headings-in-section: causes, counts and the stack *)

Section DuplicateHeadingMore.

Import NoDuplicateHeadingsInSection.

Lemma seen_rev_found l d k x :
  seen_rev l d k = Some x ->
  exists mid older,
    l = mid ++ x :: older
    /\ depth x = d /\ key x = k
    /\ Forall (fun y => d <= depth y /\ (depth y = d -> key y <> k)) mid.
Proof.
  induction l as [|y l IH]; [discriminate|]. simpl.
  destruct (Nat.ltb_spec (depth y) d) as [|Hy]; [discriminate|].
  destruct (Nat.eqb_spec (depth y) d) as [E|E]; simpl.
  - destruct (String.eqb_spec (key y) k) as [E'|E'].
    + intros [= ->]. exists [], l. repeat split; auto.
    + intros H. destruct (IH H) as (mid & older & -> & Hd & Hk & Hmid).
      exists (y :: mid), older.
      split; [reflexivity|]. split; [exact Hd|]. split; [exact Hk|].
      apply List.Forall_cons; [|exact Hmid].
      split; [exact Hy | intros _; exact E'].
  - intros H. destruct (IH H) as (mid & older & -> & Hd & Hk & Hmid).
    exists (y :: mid), older.
    split; [reflexivity|]. split; [exact Hd|]. split; [exact Hk|].
    apply List.Forall_cons; [|exact Hmid].
    split; [exact Hy | intros; contradiction].
Qed.

Lemma reported_depth_0 before h : depth h = 0 -> reported before h = [].
Proof.
  intros E. unfold reported, emitted_after. simpl. unfold onHeading.
  now rewrite E.
Qed.

(** X13.  Whenever the visit of a heading reports something, the
    heading is not generated, and some earlier heading has its depth and
    its key, with only headings at least as deep and not of that depth and
    key in between; the report is the single message citing the start of
    that earlier heading. *)
Theorem duplicate_report_has_earlier_twin before h :
  reported before h <> [] ->
  Unist.generated h = false
  /\ exists pre d mid,
       before = pre ++ d :: mid
       /\ depth d = depth h
       /\ key d = key h
       /\ Forall (fun x => depth h <= depth x
                           /\ (depth x = depth h -> key x <> key h)) mid
       /\ reported before h =
          [MkMessage
             ("Do not use headings with similar content per section ("
              +:+ Unist.stringifyPosition (Unist.pointStart (Some d))
              +:+ ")")
             (AtNode h) false].
Proof.
  intros H. destruct (depth h) as [|n] eqn:Eh.
  - now rewrite reported_depth_0 in H.
  - rewrite reported_seen in * by lia.
    destruct (seen before (depth h) (key h)) as [d|] eqn:Es; [|done].
    destruct (Unist.generated h); [done|]. split; [reflexivity|].
    unfold seen in Es.
    apply seen_rev_found in Es as (mid & older & Hrev & Hd & Hk & Hmid).
    exists (rev older), d, (rev mid). rewrite <- Eh.
    repeat split; auto.
    + rewrite <- (rev_involutive before), Hrev, rev_app_distr. simpl.
      now rewrite <- app_assoc.
    + now apply Forall_rev.
Qed.

Lemma duplicate_report_has_earlier_twin_witness :
  Unist.generated (Sample.h 5 2 "golf") = false
  /\ exists pre d mid,
       [Sample.h 1 2 "Golf"; Sample.h 3 3 "Hotel"] = pre ++ d :: mid
       /\ depth d = depth (Sample.h 5 2 "golf")
       /\ key d = key (Sample.h 5 2 "golf")
       /\ Forall (fun x => depth (Sample.h 5 2 "golf") <= depth x
                           /\ (depth x = depth (Sample.h 5 2 "golf") ->
                               key x <> key (Sample.h 5 2 "golf"))) mid
       /\ reported [Sample.h 1 2 "Golf"; Sample.h 3 3 "Hotel"]
                   (Sample.h 5 2 "golf") =
          [MkMessage
             ("Do not use headings with similar content per section ("
              +:+ Unist.stringifyPosition (Unist.pointStart (Some d))
              +:+ ")")
             (AtNode (Sample.h 5 2 "golf")) false].
Proof.
  apply (duplicate_report_has_earlier_twin
           [Sample.h 1 2 "Golf"; Sample.h 3 3 "Hotel"]
           (Sample.h 5 2 "golf")).
  vm_compute. discriminate.
Defined.

Lemma reported_at_most_one before h : length (reported before h) <= 1.
Proof.
  destruct (depth h) as [|n] eqn:Eh.
  - rewrite reported_depth_0 by done. simpl. lia.
  - rewrite reported_seen by lia.
    destruct (seen _ _ _); [|simpl; lia].
    destruct (negb _); simpl; lia.
Qed.

Lemma reported_first h : reported [] h = [].
Proof.
  destruct (depth h) as [|n] eqn:Eh.
  - now apply reported_depth_0.
  - rewrite reported_seen by lia. reflexivity.
Qed.

Lemma emitted_length hs : length (emitted hs) <= length hs - 1.
Proof.
  induction hs as [|h hs IH] using rev_ind; [simpl; lia|].
  rewrite emitted_app, !length_app. simpl.
  change (emitted_after hs [h]) with (reported hs h).
  destruct hs as [|h0 hs].
  - rewrite reported_first. simpl. lia.
  - pose proof (reported_at_most_one (h0 :: hs) h). simpl in *. lia.
Qed.

(** X14.  The visit of a heading adds at most one message and the
    visit of the first heading adds none, so the rule adds at most one
    message less than the tree has headings. *)
Theorem duplicate_headings_message_count tree file :
  length (messages (remarkLintNoDuplicateHeadingsInSection tree file))
  <= length file + (length (headings tree) - 1)
  /\ (forall before h, length (reported before h) <= 1)
  /\ (forall h, reported [] h = []).
Proof.
  split; [|split].
  - rewrite rule_emitted. simpl. rewrite length_app.
    pose proof (emitted_length (headings tree)). lia.
  - apply reported_at_most_one.
  - apply reported_first.
Qed.

(** X15.  After the visit of a heading the stack has as many slots
    as the heading is deep, and, for a depth of at least 1, the last slot
    holds the heading under its key. *)
Theorem stack_after_visit hs h st :
  length (fst (run (hs ++ [h]) st)) = depth h
  /\ (1 <= depth h ->
      recorded (fst (run (hs ++ [h]) st)) (depth h) (key h) = Some h).
Proof.
  rewrite run_snoc. destruct (run hs st) as [stack file]. split.
  - unfold onHeading. simpl. destruct (depth h) as [|index]; [reflexivity|].
    cbn [fst snd]. rewrite length_take. unfold array_set.
    destruct (Nat.ltb_spec index (length stack)).
    + rewrite length_insert. lia.
    + rewrite !length_app, length_replicate. cbn [length]. lia.
  - intros Hh. rewrite recorded_onHeading by lia.
    now rewrite Nat.ltb_irrefl, Nat.eqb_refl, String.eqb_refl.
Qed.

Lemma stack_after_visit_witness :
  recorded (fst (run ([Sample.h 1 1 "Alpha"] ++ [Sample.h 3 4 "Bravo"])
                     ([], [])))
           (depth (Sample.h 3 4 "Bravo")) (key (Sample.h 3 4 "Bravo"))
  = Some (Sample.h 3 4 "Bravo").
Proof.
  apply (proj2 (stack_after_visit [Sample.h 1 1 "Alpha"]
                  (Sample.h 3 4 "Bravo") ([], []))).
  simpl. lia.
Defined.

End DuplicateHeadingMore.

Section DuplicateHeadingCase.

Import NoDuplicateHeadingsInSection.

(** X16.  Headings are compared without regard to case: an authored
    heading that directly follows a heading of the same depth whose text
    has the same case folding as its own is reported, and the message
    cites the start of that heading.  The two texts are to hold none of
    the characters of [Str.own_upper_case], whose upper-case form is not
    that of their folded form. *)
Theorem duplicate_headings_compared_without_case before h1 h2 :
  1 <= depth h2 ->
  depth h1 = depth h2 ->
  Str.well_formed (Unist.toString h1) = true ->
  Str.well_formed (Unist.toString h2) = true ->
  Str.has_any Str.own_upper_case (Unist.toString h1) = false ->
  Str.has_any Str.own_upper_case (Unist.toString h2) = false ->
  Str.fold_case (Unist.toString h1) = Str.fold_case (Unist.toString h2) ->
  Unist.generated h2 = false ->
  reported (before ++ [h1]) h2 =
  [MkMessage
     ("Do not use headings with similar content per section ("
      +:+ Unist.stringifyPosition (Unist.pointStart (Some h1))
      +:+ ")")
     (AtNode h2) false].
Proof.
  intros Hpos Hd Hw1 Hw2 Ho1 Ho2 Hfold Hgen.
  assert (Hk : key h1 = key h2).
  { unfold key.
    rewrite <- (toUpperCase_fold_case (Unist.toString h1)) by assumption.
    rewrite Hfold. now apply toUpperCase_fold_case. }
  rewrite reported_seen by exact Hpos.
  unfold seen. rewrite rev_unit. simpl.
  rewrite Hd, Hk, Nat.ltb_irrefl, Nat.eqb_refl, String.eqb_refl. simpl.
  now rewrite Hgen.
Qed.

Lemma duplicate_headings_compared_without_case_witness :
  reported ([] ++ [Sample.h 1 2 Sample.elan_upper])
           (Sample.h 3 2 Sample.elan_lower)
  = [MkMessage "Do not use headings with similar content per section (1:1)"
               (AtNode (Sample.h 3 2 Sample.elan_lower)) false].
Proof.
  apply (duplicate_headings_compared_without_case []
           (Sample.h 1 2 Sample.elan_upper)
           (Sample.h 3 2 Sample.elan_lower)).
  - simpl. lia.
  - reflexivity.
  - vm_compute. reflexivity.
  - vm_compute. reflexivity.
  - vm_compute. reflexivity.
  - vm_compute. reflexivity.
  - vm_compute. reflexivity.
  - reflexivity.
Defined.

End DuplicateHeadingCase.

(** ** no-heading-indent: which headings can be reported *)

Section HeadingIndentMore.

Import NoHeadingIndent.

Lemma visits_unfold parents node :
  Walker.visits parents node =
  (node, parents)
  :: flat_map (Walker.visits (parents ++ [node])) (children node).
Proof.
  destruct node as [t p d o v a cs]. cbn [Walker.visits children].
  apply (f_equal (cons (MkNode t p d o v a cs, parents))).
  generalize (parents ++ [MkNode t p d o v a cs]). intros ps.
  induction cs as [|c cs IH]; [reflexivity|]. simpl. now rewrite IH.
Qed.

Lemma visits_nodes node : forall parents,
  map fst (Walker.visits parents node) = Walker.preorder node.
Proof.
  induction node as [t p d o v a cs IH] using Node_ind_children.
  intros parents. unfold Walker.preorder. rewrite !visits_unfold.
  cbn [map fst children]. f_equal.
  generalize (parents ++ [MkNode t p d o v a cs]).
  generalize ([] ++ [MkNode t p d o v a cs]).
  induction IH as [|c cs Hc _ IHcs]; intros l1 l2; [reflexivity|].
  simpl. rewrite !map_app, (Hc l1), (Hc l2). f_equal. apply IHcs.
Qed.

Lemma preorder_unfold node :
  Walker.preorder node = node :: flat_map Walker.preorder (children node).
Proof.
  assert (H : forall ps cs,
            map fst (flat_map (Walker.visits ps) cs)
            = flat_map Walker.preorder cs).
  { intros ps cs. induction cs as [|c cs IH]; [reflexivity|].
    cbn [flat_map]. now rewrite map_app, visits_nodes, IH. }
  unfold Walker.preorder at 1. rewrite visits_unfold.
  cbn [map fst]. now rewrite H.
Qed.

(** Every visit other than that of the tree itself comes with a chain
    whose last node is a node of the tree that has the visited node among
    its children. *)
Lemma visits_parent node : forall parents n ps,
  In (n, ps) (Walker.visits parents node) ->
  (n = node /\ ps = parents)
  \/ exists p,
       last ps = Some p /\ In n (children p)
       /\ In p (Walker.preorder node).
Proof.
  induction node as [t p d o v a cs IH] using Node_ind_children.
  intros parents n ps Hin. rewrite visits_unfold in Hin.
  destruct Hin as [[= <- <-]|Hin]; [now left|]. right.
  rewrite preorder_unfold. cbn [children] in *.
  set (node := MkNode t p d o v a cs) in *.
  assert (Hcs : forall c, In c cs -> In c (children node)) by auto.
  clearbody node.
  induction IH as [|c cs' Hc _ IHcs]; [destruct Hin|].
  simpl in Hin. apply in_app_or in Hin as [Hin|Hin].
  - apply Hc in Hin as [[-> ->]|(q & Hlast & Hchild & Hq)].
    + exists node. rewrite last_snoc. split; [reflexivity|].
      split; [apply Hcs; now left|]. now left.
    + exists q. split; [exact Hlast|]. split; [exact Hchild|].
      right. simpl. apply in_or_app. now left.
  - destruct IHcs as (q & Hlast & Hchild & Hq); [exact Hin | |].
    + intros c' Hc'. apply Hcs. now right.
    + exists q. split; [exact Hlast|]. split; [exact Hchild|].
      destruct Hq as [<-|Hq]; [now left|].
      right. simpl. apply in_or_app. now right.
Qed.

(** X17.  Every message the rule adds is a warning placed at the start
    point of a heading that is a child of a node of type [root] of the
    tree and starts in column 2 or later; the tree handed to the rule is
    itself never reported. *)
Theorem heading_indent_reports_children_of_root tree m :
  In m (messages (remarkLintNoHeadingIndent tree [])) ->
  exists node parent start,
    In parent (Walker.preorder tree)
    /\ type parent = "root"
    /\ In node (children parent)
    /\ type node = "heading"
    /\ Unist.pointStart5 node = Some start
    /\ 2 <= column start
    /\ place m = AtPoint start
    /\ fatal m = false.
Proof.
  unfold remarkLintNoHeadingIndent.
  rewrite visitParents_visits, indent_run_visits. simpl.
  intros Hin. apply in_flat_map in Hin as ([n ps] & Hv & Hm).
  apply list_elem_of_In, list_elem_of_filter in Hv as [Hty Hv].
  apply list_elem_of_In in Hv. simpl in Hty, Hm.
  unfold reported, onHeading in Hm.
  destruct (Unist.pointStart5 n) as [st|] eqn:Est; [|destruct Hm].
  destruct (last ps) as [p|] eqn:Elast; [|destruct Hm].
  destruct (String.eqb_spec (type p) "root") as [Hroot|]; [|destruct Hm].
  simpl in Hm.
  destruct (Nat.eqb_spec (column st - 1) 0) as [|Hcol]; [destruct Hm|].
  destruct Hm as [<-|[]].
  apply visits_parent in Hv as [[-> ->]|(q & Hlast & Hchild & Hq)];
    [discriminate Elast|].
  rewrite Elast in Hlast. injection Hlast as <-.
  exists n, p, st. repeat split; auto.
  - now apply String.eqb_eq.
  - lia.
Qed.

Lemma heading_indent_reports_children_of_root_witness :
  exists node parent start,
    In parent (Walker.preorder (Build.root [Sample.indented 1 4 "Mercury"]))
    /\ type parent = "root"
    /\ In node (children parent)
    /\ type node = "heading"
    /\ Unist.pointStart5 node = Some start
    /\ 2 <= column start
    /\ place (MkMessage (indent_reason 3) (AtPoint (Build.point 1 4 0)) false)
       = AtPoint start
    /\ fatal (MkMessage (indent_reason 3) (AtPoint (Build.point 1 4 0)) false)
       = false.
Proof.
  apply (heading_indent_reports_children_of_root
           (Build.root [Sample.indented 1 4 "Mercury"])).
  left. reflexivity.
Defined.

End HeadingIndentMore.

(** ** Instances *)

Section Instances.

Import UnorderedListMarkerStyle MarkerItems DefinitionSpacing DefinitionLabels.

Lemma marker_fixed_style_reports_each_mismatch_witness :
  map reason
    (messages (remarkLintUnorderedListMarkerStyle MarkerSample.tree
                 MarkerSample.source (JStr "-") []))
  = ["Marker style should be `-`"; "Marker style should be `-`"]
  /\ map place
       (messages (remarkLintUnorderedListMarkerStyle
                    MarkerSample.nested_tree MarkerSample.nested_source
                    (JStr "-") []))
     = [AtNode MarkerSample.outer; AtNode (MarkerSample.item 3 14);
        AtNode MarkerSample.inner].
Proof.
  split.
  - rewrite (marker_fixed_style_reports_each_mismatch MarkerSample.tree
               MarkerSample.source (JStr "-") "-" []).
    + reflexivity.
    + reflexivity.
    + reflexivity.
  - rewrite (marker_fixed_style_reports_each_mismatch
               MarkerSample.nested_tree MarkerSample.nested_source
               (JStr "-") "-" []).
    + reflexivity.
    + reflexivity.
    + reflexivity.
Defined.

Lemma marker_consistent_first_marker_decides_witness :
  map reason
    (messages (remarkLintUnorderedListMarkerStyle MarkerSample.tree
                 MarkerSample.source JUndefined []))
  = ["Marker style should be `*`"; "Marker style should be `*`"].
Proof.
  rewrite (proj1 (marker_consistent_first_marker_decides MarkerSample.tree
                    MarkerSample.source JUndefined [] eq_refl)
                 [] (MarkerSample.item 1 0)
                 [MarkerSample.item 2 6; MarkerSample.item 3 12]).
  - reflexivity.
  - reflexivity.
  - constructor.
  - reflexivity.
  - vm_compute. discriminate.
Defined.

Lemma marker_reports_only_authored_unordered_items_witness :
  fatal (MkMessage (marker_reason "*") (AtNode (MarkerSample.item 2 6)) false)
  = false
  /\ exists lst child,
       In lst (Walker.preorder MarkerSample.tree)
       /\ Walker.is_type "list" lst = true
       /\ ordered lst = false
       /\ In child (children lst)
       /\ Unist.generated child = false
       /\ place (MkMessage (marker_reason "*")
                           (AtNode (MarkerSample.item 2 6)) false)
          = AtNode child.
Proof.
  apply (marker_reports_only_authored_unordered_items MarkerSample.tree
           MarkerSample.source JUndefined).
  - reflexivity.
  - left. reflexivity.
Defined.

Lemma definition_spacing_reports_each_spaced_label_witness :
  remarkLintDefinitionSpacing (Build.root [Sample.definition 20])
    "[a  b]: http://a.org" []
  = MkOutcome None
      [MkMessage "Do not use consecutive whitespace in definition labels"
                 (AtNode (Sample.definition 20)) false].
Proof.
  apply (definition_spacing_reports_each_spaced_label
           (Build.root [Sample.definition 20]) "[a  b]: http://a.org" []).
  repeat (apply List.Forall_cons || apply List.Forall_nil).
  - discriminate.
  - intros _. vm_compute. discriminate.
Defined.

End Instances.
